(** * AstroEQ firmware: step engine, motor controller, command decoder

    A shallow embedding of [AstroEQ-Firmware/AstroEQ.cpp] (version 7.5.1)
    and the properties of its natural-language specification.

    Conventions of the embedding.

    - The target is an 8-bit AVR: [byte] is 8 bits, [unsigned int] 16 bits,
      [unsigned long] 32 bits, [int] 16 bits.  Integers are [Z]; every
      store into a fixed-width variable is written with its wrap-around
      ([u8], [u16], [u32], [s8]).
    - The firmware keeps every per-axis quantity in two-element arrays
      indexed by [RA] or [DC] ([cmd.jVal[axis]], [readyToGo[axis]], the
      timer registers selected by the helper macros, the two bits per axis
      of [gotoControlRegister]).  The record [Motor] is one column of all
      these arrays; [State] holds the two columns and the shared globals.
    - The source duplicates [motorStart], [motorStop] and the timer capture
      interrupt for the two axes ("loop unravelled for speed efficiency");
      the copies differ only in the axis index, so each pair is embedded
      once, as a function of the axis' [Motor].
    - [float] is IEEE-754 binary32 with round-to-nearest-even, taken from
      the Standard Library's [SpecFloat] at precision 24, [emax] 128. *)

From Stdlib Require Import ZArith List Bool Lia.
From Stdlib Require Import Floats.SpecFloat.
Import ListNotations.
Open Scope Z_scope.

(** ** Fixed-width integers *)

Definition u8 (x : Z) : Z := x mod 256.
Definition u16 (x : Z) : Z := x mod 65536.
Definition u32 (x : Z) : Z := x mod 4294967296.

(** [signed char]: the two's-complement reading of the low eight bits. *)
Definition s8 (x : Z) : Z :=
  let y := x mod 256 in if y <? 128 then y else y - 256.

Definition is_u8 (x : Z) : bool := (0 <=? x) && (x <? 256).
Definition is_u16 (x : Z) : bool := (0 <=? x) && (x <? 65536).
Definition is_u32 (x : Z) : bool := (0 <=? x) && (x <? 4294967296).
Definition is_s8 (x : Z) : bool := (-128 <=? x) && (x <? 128).

(** ** Constants of the source and of its headers *)

(** [#define timerCountRate 8000000] *)
Definition timerCountRate : Z := 8000000.

(** [#define DecimalDistnWidth 32] *)
Definition DecimalDistnWidth : Z := 32.

(** Modelled from the spec: [AccelTableLength] is declared in [synta.h],
    which is not part of the sources at hand; the specification's data
    model gives the per-axis configuration "a 6-entry acceleration
    table". *)
Definition AccelTableLength : Z := 6.

(** The two axes; as array indices [RA] is 0 and [DC] is 1. *)
Inductive Axis : Type := RA | DC.

(** [CMD_FORWARD] / [CMD_REVERSE]: a direction is stored as a truth value,
    [CMD_REVERSE] being the true one (the source tests [cmd.dir[RA] && ...]
    for "travelling in the wrong direction"). *)
Definition CMD_FORWARD : bool := false.
Definition CMD_REVERSE : bool := true.

(** [CMD_STOPPED] / [CMD_RUNNING]: [cmd.stopped[axis]] is tested as a truth
    value for "stopped". *)
Definition CMD_STOPPED : bool := true.
Definition CMD_RUNNING : bool := false.

Definition CMD_ENABLED : bool := true.
Definition CMD_DISABLED : bool := false.

(** Pin levels. *)
Definition HIGH : bool := true.
Definition LOW : bool := false.

(** [SPEEDNORM] / [SPEEDFAST] index the two-element [modeState] array. *)
Definition SPEEDNORM : bool := false.
Definition SPEEDFAST : bool := true.


(** ** Data model *)

(** One entry of the acceleration table: an [unsigned int] period and a
    [byte] dwell count. *)
Record AccelTableStruct : Type := mkAccel {
  speed : Z;
  repeats : Z
}.

(** One axis: its column of the [cmd] structure, of the firmware's global
    arrays, of the timer registers, and its output pins. *)
Record Motor : Type := mkMotor {
  (* cmd.<field>[axis] *)
  jVal : Z;                 (* unsigned long: position *)
  IVal : Z;                 (* unsigned int: requested period *)
  currentIVal : Z;          (* unsigned int: target period of the engine *)
  HVal : Z;                 (* unsigned long: goto distance *)
  GVal : Z;                 (* signed char: mode selector *)
  FVal : bool;              (* driver enabled *)
  dir : bool;               (* CMD_FORWARD / CMD_REVERSE *)
  stepDir : Z;              (* signed char: position delta per step *)
  gotoEn : bool;
  stopped : bool;
  highSpeedMode : bool;
  eVal : Z;
  aVal : Z;
  bVal : Z;                 (* unsigned long: sidereal divisor *)
  gVal : Z;                 (* byte: high-speed multiplier *)
  sVal : Z;
  siderealIVal : Z;         (* unsigned int *)
  normalGotoSpeed : Z;
  minSpeed : Z;             (* unsigned int *)
  stopSpeed : Z;            (* unsigned int *)
  accelTable : list AccelTableStruct;
  (* global arrays of AstroEQ.cpp *)
  readyToGo : Z;
  gotoPosn : Z;             (* unsigned long *)
  encodeDirection : bool;
  timerOVF : list Z;        (* unsigned int [DecimalDistnWidth] *)
  gotoDecelerationLength : Z;
  accelTableRepeatsLeft : Z;  (* byte *)
  accelTableIndex : Z;        (* byte *)
  (* registers behind the helper macros *)
  distributionSegment : Z;    (* GPIOR1 / GPIOR2, 8 bits *)
  currentMotorSpeed : Z;      (* OCR3A / OCR3B *)
  irqToNextStep : Z;          (* OCR1A / OCR1B *)
  interruptOVFCount : Z;      (* ICR3 / ICR1 *)
  timerCountRegister : Z;     (* TCNT3 / TCNT1 *)
  timerIrqEnabled : bool;     (* ICIEn bit of TIMSKn *)
  timerClockOn : bool;        (* clock-select bits of TCCRnB non-zero *)
  gotoRunning : bool;         (* bit of gotoControlRegister *)
  gotoDecelerating : bool;    (* bit of gotoControlRegister *)
  (* output pins *)
  stepPin : bool;
  dirPin : bool;
  enablePin : bool;
  modePin0 : bool;
  modePin1 : bool;
  modePin2 : bool
}.

(** The image the configuration commands keep in EEPROM: whether the
    identification string is present, and the values last stored. *)
Record EEPROM : Type := mkEEPROM {
  ee_magic : bool;
  ee_scalars : list Z;
  ee_tableRA : list AccelTableStruct;
  ee_tableDC : list AccelTableStruct
}.

Record State : Type := mkState {
  ra : Motor;
  dc : Motor;
  (* shared fields of cmd *)
  st4RAIVal0 : Z;             (* cmd.st4RAIVal[0]: RA+ guide period *)
  st4RAIVal1 : Z;             (* cmd.st4RAIVal[1]: RA- guide period *)
  st4RAReverse : bool;        (* cmd.st4RAReverse == CMD_REVERSE *)
  st4DecIVal : Z;
  (* globals of AstroEQ.cpp *)
  progMode : Z;
  microstepConf : Z;
  driverVersion : Z;
  canJumpToHighspeed : bool;
  defaultSpeedState : bool;
  disableGearChange : bool;
  allowAdvancedHCDetection : bool;
  modeStateNorm : Z;          (* modeState[SPEEDNORM] *)
  modeStateFast : Z;          (* modeState[SPEEDFAST] *)
  eeprom : EEPROM;
  wdtArmed : bool;
  (* locals of main() that live across iterations, and peripherals *)
  standaloneMode : bool;
  syntaMode : bool;
  hcFastSpeed : bool;
  serialEnabled : bool;
  spiEnabled : bool;
  st4IrqEnabled : bool;
  standalonePull : bool
}.

(** The speed sets of the ST4 port: [CMD_ST4_STANDALONE] and
    [CMD_ST4_HIGHSPEED] of [synta.h]. *)
Inductive ST4SpeedMode : Type := CMD_ST4_STANDALONE | CMD_ST4_HIGHSPEED.

(** What the headers and the Synta library, which are not among the
    sources, contribute to the functions below: the build target, macros
    of [AstroEQ.h] whose values the specification does not give, the status
    word [cmd_fVal] computes, and the guide periods and reverse flag that
    [Commands_configureST4Speed] loads for a speed set. *)
Record Header : Type := mkHeader {
  ATmega162 : bool;  (* the build target defines __AVR_ATmega162__ *)
  A498x : Z;         (* driver family code of the A498x drivers *)
  DRV882x : Z;       (* driver family code of the DRV882x drivers *)
  DRV8834 : Z;       (* largest valid driver family code *)
  FLOAT : Z;         (* mode-pin level "floating" of the DRV8834 maps *)
  MIN_IVAL : Z;      (* smallest valid sidereal period *)
  PROGMODE : Z;      (* value of progMode that keeps the mount in programming mode *)
  cmd_fVal : Motor -> Z;
  st4Speeds : ST4SpeedMode -> Motor -> Motor -> (Z * Z * bool * Z)
}.

(** *** Field updates

    A setter rebuilds the record with one field replaced; it is obtained
    from the eta-expansion of the record by abstracting the field. *)

Definition Motor_eta (m : Motor) : Motor :=
  mkMotor (jVal m) (IVal m) (currentIVal m) (HVal m) (GVal m) (FVal m) (dir m)
    (stepDir m) (gotoEn m) (stopped m) (highSpeedMode m) (eVal m) (aVal m)
    (bVal m) (gVal m) (sVal m) (siderealIVal m) (normalGotoSpeed m) (minSpeed m)
    (stopSpeed m) (accelTable m) (readyToGo m) (gotoPosn m) (encodeDirection m)
    (timerOVF m) (gotoDecelerationLength m) (accelTableRepeatsLeft m)
    (accelTableIndex m) (distributionSegment m) (currentMotorSpeed m)
    (irqToNextStep m) (interruptOVFCount m) (timerCountRegister m)
    (timerIrqEnabled m) (timerClockOn m) (gotoRunning m) (gotoDecelerating m)
    (stepPin m) (dirPin m) (enablePin m) (modePin0 m) (modePin1 m) (modePin2 m).

Definition State_eta (s : State) : State :=
  mkState (ra s) (dc s) (st4RAIVal0 s) (st4RAIVal1 s) (st4RAReverse s)
    (st4DecIVal s) (progMode s) (microstepConf s) (driverVersion s)
    (canJumpToHighspeed s) (defaultSpeedState s) (disableGearChange s)
    (allowAdvancedHCDetection s) (modeStateNorm s) (modeStateFast s) (eeprom s)
    (wdtArmed s) (standaloneMode s) (syntaMode s) (hcFastSpeed s)
    (serialEnabled s) (spiEnabled s) (st4IrqEnabled s) (standalonePull s).

Ltac field_setter eta proj :=
  let v := fresh "v" in
  let r := fresh "r" in
  intros v r;
  let body := eval cbv beta delta [eta] in (eta r) in
  match eval pattern (proj r) in body with
  | ?f _ => let t := eval cbv beta in (f v) in exact t
  end.

Definition set_jVal : Z -> Motor -> Motor := ltac:(field_setter Motor_eta jVal).
Definition set_IVal : Z -> Motor -> Motor := ltac:(field_setter Motor_eta IVal).
Definition set_currentIVal : Z -> Motor -> Motor := ltac:(field_setter Motor_eta currentIVal).
Definition set_HVal : Z -> Motor -> Motor := ltac:(field_setter Motor_eta HVal).
Definition set_GVal : Z -> Motor -> Motor := ltac:(field_setter Motor_eta GVal).
Definition set_FVal : bool -> Motor -> Motor := ltac:(field_setter Motor_eta FVal).
Definition set_dir : bool -> Motor -> Motor := ltac:(field_setter Motor_eta dir).
Definition set_stepDir : Z -> Motor -> Motor := ltac:(field_setter Motor_eta stepDir).
Definition set_gotoEn : bool -> Motor -> Motor := ltac:(field_setter Motor_eta gotoEn).
Definition set_stopped : bool -> Motor -> Motor := ltac:(field_setter Motor_eta stopped).
Definition set_highSpeedMode : bool -> Motor -> Motor := ltac:(field_setter Motor_eta highSpeedMode).
Definition set_aVal : Z -> Motor -> Motor := ltac:(field_setter Motor_eta aVal).
Definition set_bVal : Z -> Motor -> Motor := ltac:(field_setter Motor_eta bVal).
Definition set_sVal : Z -> Motor -> Motor := ltac:(field_setter Motor_eta sVal).
Definition set_siderealIVal : Z -> Motor -> Motor := ltac:(field_setter Motor_eta siderealIVal).
Definition set_normalGotoSpeed : Z -> Motor -> Motor := ltac:(field_setter Motor_eta normalGotoSpeed).
Definition set_stopSpeed : Z -> Motor -> Motor := ltac:(field_setter Motor_eta stopSpeed).
Definition set_accelTable : list AccelTableStruct -> Motor -> Motor := ltac:(field_setter Motor_eta accelTable).
Definition set_readyToGo : Z -> Motor -> Motor := ltac:(field_setter Motor_eta readyToGo).
Definition set_gotoPosn : Z -> Motor -> Motor := ltac:(field_setter Motor_eta gotoPosn).
Definition set_encodeDirection : bool -> Motor -> Motor := ltac:(field_setter Motor_eta encodeDirection).
Definition set_timerOVF : list Z -> Motor -> Motor := ltac:(field_setter Motor_eta timerOVF).
Definition set_gotoDecelerationLength : Z -> Motor -> Motor := ltac:(field_setter Motor_eta gotoDecelerationLength).
Definition set_accelTableRepeatsLeft : Z -> Motor -> Motor := ltac:(field_setter Motor_eta accelTableRepeatsLeft).
Definition set_accelTableIndex : Z -> Motor -> Motor := ltac:(field_setter Motor_eta accelTableIndex).
Definition set_distributionSegment : Z -> Motor -> Motor := ltac:(field_setter Motor_eta distributionSegment).
Definition set_currentMotorSpeed : Z -> Motor -> Motor := ltac:(field_setter Motor_eta currentMotorSpeed).
Definition set_irqToNextStep : Z -> Motor -> Motor := ltac:(field_setter Motor_eta irqToNextStep).
Definition set_interruptOVFCount : Z -> Motor -> Motor := ltac:(field_setter Motor_eta interruptOVFCount).
Definition set_timerCountRegister : Z -> Motor -> Motor := ltac:(field_setter Motor_eta timerCountRegister).
Definition set_timerIrqEnabled : bool -> Motor -> Motor := ltac:(field_setter Motor_eta timerIrqEnabled).
Definition set_timerClockOn : bool -> Motor -> Motor := ltac:(field_setter Motor_eta timerClockOn).
Definition set_gotoRunning : bool -> Motor -> Motor := ltac:(field_setter Motor_eta gotoRunning).
Definition set_gotoDecelerating : bool -> Motor -> Motor := ltac:(field_setter Motor_eta gotoDecelerating).
Definition set_stepPin : bool -> Motor -> Motor := ltac:(field_setter Motor_eta stepPin).
Definition set_dirPin : bool -> Motor -> Motor := ltac:(field_setter Motor_eta dirPin).
Definition set_enablePin : bool -> Motor -> Motor := ltac:(field_setter Motor_eta enablePin).
Definition set_modePin0 : bool -> Motor -> Motor := ltac:(field_setter Motor_eta modePin0).
Definition set_modePin1 : bool -> Motor -> Motor := ltac:(field_setter Motor_eta modePin1).
Definition set_modePin2 : bool -> Motor -> Motor := ltac:(field_setter Motor_eta modePin2).

Definition set_ra : Motor -> State -> State := ltac:(field_setter State_eta ra).
Definition set_dc : Motor -> State -> State := ltac:(field_setter State_eta dc).
Definition set_st4RAIVal0 : Z -> State -> State := ltac:(field_setter State_eta st4RAIVal0).
Definition set_st4RAIVal1 : Z -> State -> State := ltac:(field_setter State_eta st4RAIVal1).
Definition set_st4RAReverse : bool -> State -> State := ltac:(field_setter State_eta st4RAReverse).
Definition set_st4DecIVal : Z -> State -> State := ltac:(field_setter State_eta st4DecIVal).
Definition set_progMode : Z -> State -> State := ltac:(field_setter State_eta progMode).
Definition set_microstepConf : Z -> State -> State := ltac:(field_setter State_eta microstepConf).
Definition set_driverVersion : Z -> State -> State := ltac:(field_setter State_eta driverVersion).
Definition set_canJumpToHighspeed : bool -> State -> State := ltac:(field_setter State_eta canJumpToHighspeed).
Definition set_disableGearChange : bool -> State -> State := ltac:(field_setter State_eta disableGearChange).
Definition set_allowAdvancedHCDetection : bool -> State -> State := ltac:(field_setter State_eta allowAdvancedHCDetection).
Definition set_eeprom : EEPROM -> State -> State := ltac:(field_setter State_eta eeprom).
Definition set_wdtArmed : bool -> State -> State := ltac:(field_setter State_eta wdtArmed).
Definition set_standaloneMode : bool -> State -> State := ltac:(field_setter State_eta standaloneMode).
Definition set_syntaMode : bool -> State -> State := ltac:(field_setter State_eta syntaMode).
Definition set_hcFastSpeed : bool -> State -> State := ltac:(field_setter State_eta hcFastSpeed).
Definition set_serialEnabled : bool -> State -> State := ltac:(field_setter State_eta serialEnabled).
Definition set_spiEnabled : bool -> State -> State := ltac:(field_setter State_eta spiEnabled).
Definition set_st4IrqEnabled : bool -> State -> State := ltac:(field_setter State_eta st4IrqEnabled).
Definition set_standalonePull : bool -> State -> State := ltac:(field_setter State_eta standalonePull).

(** [cmd.x[axis]] and its update. *)
Definition motor (a : Axis) (s : State) : Motor :=
  match a with RA => ra s | DC => dc s end.

Definition set_motor (a : Axis) (m : Motor) (s : State) : State :=
  match a with RA => set_ra m s | DC => set_dc m s end.

Definition on_motor (a : Axis) (f : Motor -> Motor) (s : State) : State :=
  set_motor a (f (motor a s)) s.

(** Array reads.  The firmware indexes without a bounds check; the default
    only matters outside the invariants under which the theorems are
    stated. *)
Definition accelEntry (m : Motor) (i : Z) : AccelTableStruct :=
  nth (Z.to_nat i) (accelTable m) (mkAccel 0 0).

Definition timerOVF_at (m : Motor) (i : Z) : Z :=
  nth (Z.to_nat i) (timerOVF m) 0.

(** ** Accessors of [synta.h]

    The header that declares the [cmd] structure and its inline setters is
    not among the sources; the setters below follow the specification's
    data model (section 3) and command table (section 6). *)

(** Modelled from the spec: [cmd_setjVal] stores the position ("E: Set
    jVal, atomic write"); the field is read back as [unsigned long]. *)
Definition cmd_setjVal (v : Z) (m : Motor) : Motor := set_jVal (u32 v) m.

(** Modelled from the spec: [cmd_setHVal] "stores HVal", the goto
    distance, read back as [unsigned long]. *)
Definition cmd_setHVal (v : Z) (m : Motor) : Motor := set_HVal (u32 v) m.

(** Modelled from the spec: [cmd_setIVal] sets the requested period ("I:
    Set target period"); [motorStart] reads the field as [unsigned int]. *)
Definition cmd_setIVal (v : Z) (m : Motor) : Motor := set_IVal (u16 v) m.

(** Modelled from the spec: [cmd_setGVal] buffers the mode selector ("G:
    Set mode and direction"); [main] reads it as [signed char]. *)
Definition cmd_setGVal (v : Z) (m : Motor) : Motor := set_GVal (s8 v) m.

(** Modelled from the spec: [cmd_setDir] buffers the commanded direction,
    forward or reverse. *)
Definition cmd_setDir (d : bool) (m : Motor) : Motor := set_dir d m.

(** Modelled from the spec: [cmd_setStopped] writes the flag "engine
    idle". *)
Definition cmd_setStopped (b : bool) (m : Motor) : Motor := set_stopped b m.

(** Modelled from the spec: [cmd_setGotoEn] writes the goto-mode flag
    reported by the [f] status word. *)
Definition cmd_setGotoEn (b : bool) (m : Motor) : Motor := set_gotoEn b m.

(** Modelled from the spec: [cmd_setFVal] marks the axis enabled or
    disabled. *)
Definition cmd_setFVal (b : bool) (m : Motor) : Motor := set_FVal b m.

(** Modelled from the spec: [cmd_updateStepDir] sets [stepDir], the
    "signed position delta per completed step", to the given magnitude
    with the sign of the commanded direction. *)
Definition cmd_updateStepDir (stepSize : Z) (m : Motor) : Motor :=
  if dir m then set_stepDir (s8 (- (u8 stepSize))) m
  else set_stepDir (s8 (u8 stepSize)) m.

(** Modelled from the spec: the configuration setters [cmd_setaVal],
    [cmd_setbVal], [cmd_setsVal] store the per-axis longs, and
    [cmd_setsideIVal] the per-axis word "sidereal-I". *)
Definition cmd_setaVal (v : Z) (m : Motor) : Motor := set_aVal (u32 v) m.
Definition cmd_setbVal (v : Z) (m : Motor) : Motor := set_bVal (u32 v) m.
Definition cmd_setsVal (v : Z) (m : Motor) : Motor := set_sVal (u32 v) m.
Definition cmd_setsideIVal (v : Z) (m : Motor) : Motor := set_siderealIVal (u16 v) m.

(** ** System initialisation routines *)

(** The loop of [calculateDecelerationLength]: it walks the table from
    index 0, stops at the first entry whose speed is at most [gotoSpeed],
    and adds [repeats + 1] for every entry it passes.  [numberOfSteps] is an
    [unsigned int]. *)
Fixpoint decelerationSteps (table : list AccelTableStruct)
    (gotoSpeed numberOfSteps : Z) : Z :=
  match table with
  | [] => numberOfSteps
  | e :: rest =>
      if speed e <=? gotoSpeed then numberOfSteps
      else decelerationSteps rest gotoSpeed (u16 (numberOfSteps + repeats e + 1))
  end.

(** [calculateDecelerationLength]: the scan covers the [AccelTableLength]
    entries of the array. *)
Definition calculateDecelerationLength (m : Motor) : Motor :=
  let gotoSpeed := u16 (normalGotoSpeed m) in
  set_gotoDecelerationLength
    (decelerationSteps (firstn (Z.to_nat AccelTableLength) (accelTable m))
       gotoSpeed 0) m.

(** ** Motor controller *)

(** [timerEnable]: selects the undivided clock. *)
Definition timerEnable (m : Motor) : Motor := set_timerClockOn true m.

(** [timerDisable]: masks the capture interrupt and stops the clock. *)
Definition timerDisable (m : Motor) : Motor :=
  set_timerClockOn false (set_timerIrqEnabled false m).

(** [motorStartRA] / [motorStartDC]. *)
Definition motorStart (m : Motor) : Motor :=
  let IVal' := u16 (IVal m) in
  let currentIVal' := currentMotorSpeed m in
  let stoppingSpeed :=
    if minSpeed m <? IVal' then IVal' else minSpeed m in
  let startSpeed :=
    if stopped m then stoppingSpeed
    else if currentIVal' <? minSpeed m then currentIVal'
    else stoppingSpeed in
  let m1 := set_timerIrqEnabled false m in
  let m2 := set_currentIVal (u16 (IVal m1)) m1 in
  let m3 := set_currentMotorSpeed startSpeed m2 in
  let m4 := set_stopSpeed stoppingSpeed m3 in
  let m5 := set_dirPin (xorb (encodeDirection m4) (dir m4)) m4 in
  let m6 :=
    if stopped m5 then
      let a1 := set_irqToNextStep 1 m5 in
      let a2 := set_accelTableRepeatsLeft (repeats (accelEntry a1 0)) a1 in
      let a3 := set_accelTableIndex 0 a2 in
      let a4 := set_distributionSegment 0 a3 in
      let a5 := set_timerCountRegister 0 a4 in
      let a6 := set_interruptOVFCount (timerOVF_at a5 0) a5 in
      let a7 := timerEnable a6 in
      cmd_setStopped CMD_RUNNING a7
    else m5 in
  set_timerIrqEnabled true m6.

(** [slewMode]. *)
Definition slewMode (m : Motor) : Motor := motorStart m.

(** The locals of [gotoMode] after its planning arithmetic: the goto
    distance as masked, the deceleration length as clamped, and the motor
    with [HVal] raised where the source raises it. *)
Record GotoPlan : Type := mkGotoPlan {
  plan_motor : Motor;
  plan_dirMagnitude : Z;
  plan_HVal : Z;                 (* HVal after the mask *)
  plan_halfHVal : Z;             (* halfHVal after the mask *)
  plan_decelerationLength : Z    (* decelerationLength after the clamp *)
}.

Definition gotoPlan (m : Motor) : GotoPlan :=
  let decelerationLength := gotoDecelerationLength m in
  let decelerationLength :=
    if highSpeedMode m then u16 (decelerationLength * 3)
    else decelerationLength in
  let dirMagnitude := u8 (Z.abs (stepDir m)) in
  let m1 :=
    if HVal m <? 2 * dirMagnitude then cmd_setHVal (2 * dirMagnitude) m
    else m in
  let decelerationLength := u16 (decelerationLength * dirMagnitude) in
  let HVal0 := HVal m1 in
  let halfHVal := Z.shiftr HVal0 1 in
  let HVal1 :=
    if dirMagnitude =? 8 then Z.land HVal0 4294967288 else HVal0 in
  let halfHVal :=
    if dirMagnitude =? 8 then Z.land halfHVal 4294967288 else halfHVal in
  let decelerationLength :=
    if halfHVal <? decelerationLength then u16 halfHVal
    else decelerationLength in
  mkGotoPlan m1 dirMagnitude HVal1 halfHVal decelerationLength.

(** [gotoMode]. *)
Definition gotoMode (m : Motor) : Motor :=
  let p := gotoPlan m in
  let m1 := plan_motor p in
  let dir' := dir m in
  let gotoSpeed := u16 (normalGotoSpeed m1) in
  let HVal' := u32 (plan_HVal p - plan_decelerationLength p) in
  let m2 :=
    set_gotoPosn
      (u32 (jVal m1 + (if Bool.eqb dir' CMD_REVERSE then u32 (- HVal') else HVal')))
      m1 in
  let m3 := cmd_setIVal gotoSpeed m2 in
  let m4 := set_gotoDecelerating false m3 in
  let m5 := set_gotoRunning true m4 in
  motorStart m5.

(** [motorStopRA] / [motorStopDC]. *)
Definition motorStop (emergency : bool) (m : Motor) : Motor :=
  if emergency then
    let m1 := timerDisable m in
    let m2 := cmd_setGotoEn CMD_DISABLED m1 in
    let m3 := cmd_setStopped CMD_STOPPED m2 in
    let m4 := cmd_setGVal 0 m3 in
    let m5 := set_readyToGo 0 m4 in
    set_gotoRunning false m5
  else if negb (stopped m) then
    let m1 := cmd_setGotoEn CMD_DISABLED m in
    let m2 := set_gotoRunning false m1 in
    let m3 := cmd_setGVal 0 m2 in
    let m4 := set_timerIrqEnabled false m3 in
    let m5 :=
      if currentIVal m4 <? minSpeed m4 then
        if minSpeed m4 <? stopSpeed m4 then set_stopSpeed (minSpeed m4) m4
        else m4
      else m4 in
    let m6 := set_currentIVal (u16 (stopSpeed m5 + 1)) m5 in
    set_timerIrqEnabled true m6
  else m.

(** [configureTimer]: both capture interrupts are masked and both timers
    put in CTC mode with no clock selected. *)
Definition configureTimer (s : State) : State :=
  let off := fun m => set_timerClockOn false (set_timerIrqEnabled false m) in
  set_ra (off (ra s)) (set_dc (off (dc s)) s).

(** [motorEnable]. *)
Definition motorEnable (a : Axis) (s : State) : State :=
  let s1 := on_motor a (fun m => cmd_setFVal CMD_ENABLED (set_enablePin LOW m)) s in
  configureTimer s1.

(** [motorDisable]. *)
Definition motorDisable (a : Axis) (s : State) : State :=
  on_motor a (fun m => cmd_setFVal CMD_DISABLED (set_enablePin HIGH m)) s.

(** ** Step engine: the timer capture interrupt

    [ISR(TIMER1_CAPT_vect)] for RA and [ISR(TIMER3_CAPT_vect)] for DC. *)

(** The repeats count loaded when the walk adopts table entry [accelIndex];
    the product is computed as an [int] and stored into the [byte] array
    [accelTableRepeatsLeft]. *)
Definition reloadRepeats (m : Motor) (accelIndex : Z) : Z :=
  if highSpeedMode m then u8 (repeats (accelEntry m accelIndex) * 3 + 2)
  else u8 (repeats (accelEntry m accelIndex)).

(** The branch taken when the step pin is high: the pulse is completed. *)
Definition stepFalling (m : Motor) (currentSpeed : Z) : Motor :=
  let m1 := set_stepPin LOW m in
  let jVal' := u32 (jVal m1 + stepDir m1) in
  let m2 := set_jVal jVal' m1 in
  let m3 :=
    if gotoRunning m2 && negb (gotoDecelerating m2) then
      if gotoPosn m2 =? jVal' then
        let d1 := set_gotoDecelerating true m2 in
        let d2 := set_currentIVal (u16 (stopSpeed d1 + 1)) d1 in
        set_accelTableRepeatsLeft 0 d2
      else m2
    else m2 in
  if stopSpeed m3 <? currentSpeed then
    let m4 :=
      if gotoRunning m3 then set_gotoRunning false (cmd_setGotoEn CMD_DISABLED m3)
      else m3 in
    let m5 := cmd_setStopped CMD_STOPPED m4 in
    timerDisable m5
  else m3.

(** The branch taken when the step pin is low: the next pulse is started
    and the acceleration table is walked. *)
Definition stepRising (m : Motor) (currentSpeed : Z) : Motor :=
  let m1 := set_stepPin HIGH m in
  let repeatsReqd := accelTableRepeatsLeft m1 in
  if repeatsReqd =? 0 then
    let targetSpeed := currentIVal m1 in
    if targetSpeed <? currentSpeed then
      (* going too slow *)
      let accelIndex := accelTableIndex m1 in
      if AccelTableLength - 1 <=? accelIndex then
        set_currentMotorSpeed targetSpeed m1
      else
        let accelIndex := u8 (accelIndex + 1) in
        let m2 := set_accelTableIndex accelIndex m1 in
        let currentSpeed := speed (accelEntry m2 accelIndex) in
        if currentSpeed <=? targetSpeed then
          set_currentMotorSpeed targetSpeed m2
        else
          let m3 := set_accelTableRepeatsLeft (reloadRepeats m2 accelIndex) m2 in
          set_currentMotorSpeed currentSpeed m3
    else if currentSpeed <? targetSpeed then
      (* going too fast *)
      let accelIndex := accelTableIndex m1 in
      if accelIndex =? 0 then
        set_currentMotorSpeed targetSpeed m1
      else
        let accelIndex := u8 (accelIndex - 1) in
        let m2 := set_accelTableIndex accelIndex m1 in
        let currentSpeed := speed (accelEntry m2 accelIndex) in
        if targetSpeed <=? currentSpeed then
          set_currentMotorSpeed targetSpeed m2
        else
          let m3 := set_accelTableRepeatsLeft (reloadRepeats m2 accelIndex) m2 in
          set_currentMotorSpeed currentSpeed m3
    else set_currentMotorSpeed currentSpeed m1
  else set_accelTableRepeatsLeft (u8 (repeatsReqd - 1)) m1.

(** The interrupt body.  The period table is read through a byte offset,
    [*(int* )((byte* )timerOVF[axis] + index)] with
    [index = ((DecimalDistnWidth-1) << 1) & timeSegment], that is element
    [index / 2] of the array. *)
Definition TIMER_CAPT_vect (m : Motor) : Motor :=
  let irqToNext := u16 (irqToNextStep m - 1) in
  if irqToNext =? 0 then
    let timeSegment := distributionSegment m in
    let index := Z.land (Z.shiftl (DecimalDistnWidth - 1) 1) timeSegment in
    let m1 := set_interruptOVFCount (timerOVF_at m (index / 2)) m in
    let m2 := set_distributionSegment (u8 (timeSegment + 1)) m1 in
    let currentSpeed := currentMotorSpeed m2 in
    let m3 := set_irqToNextStep currentSpeed m2 in
    if stepPin m3 then stepFalling m3 currentSpeed
    else stepRising m3 currentSpeed
  else set_irqToNextStep irqToNext m.

(** ** EEPROM validation and programming routines *)

(** [checkEEPROM].  The comparison of the stored identification string
    with ["AstroEQ"] is the flag [ee_magic]. *)
Definition checkEEPROM (hdr : Header) (s : State) : bool :=
  if negb (ee_magic (eeprom s)) then false
  else if DRV8834 hdr <? driverVersion s then false
  else if (driverVersion s =? A498x hdr) && (16 <? microstepConf s) then false
  else if 32 <? microstepConf s then false
  else if (1200 <? siderealIVal (ra s)) || (siderealIVal (ra s) <? MIN_IVAL hdr)
  then false
  else if (1200 <? siderealIVal (dc s)) || (siderealIVal (dc s) <? MIN_IVAL hdr)
  then false
  else if normalGotoSpeed (ra s) =? 0 then false
  else if normalGotoSpeed (dc s) =? 0 then false
  else true.

(** [buildEEPROM] writes the identification string. *)
Definition buildEEPROM (s : State) : State :=
  let e := eeprom s in
  set_eeprom (mkEEPROM true (ee_scalars e) (ee_tableRA e) (ee_tableDC e)) s.

Definition Z_of_bool (b : bool) : Z := if b then 1 else 0.

(** [storeEEPROM] writes the configuration, in the order of the source. *)
Definition storeEEPROM (s : State) : State :=
  let e := eeprom s in
  set_eeprom
    (mkEEPROM (ee_magic e)
       [ aVal (ra s); aVal (dc s); bVal (ra s); bVal (dc s);
         sVal (ra s); sVal (dc s);
         Z_of_bool (encodeDirection (ra s)); Z_of_bool (encodeDirection (dc s));
         driverVersion s; microstepConf s;
         u8 (normalGotoSpeed (ra s)); u8 (normalGotoSpeed (dc s));
         siderealIVal (ra s); siderealIVal (dc s);
         Z_of_bool (negb (disableGearChange s));
         Z_of_bool (negb (allowAdvancedHCDetection s)) ]
       (accelTable (ra s)) (accelTable (dc s))) s.

(** ** Command decoder *)

(** A received packet as [decodeCommand] consumes it: the command letter
    together with what the source extracts from the payload buffer
    ([synta_hexToLong(buffer)], [synta_hexToByte(buffer)], or the
    characters [buffer[0]], [buffer[1]]).  [Cmd_J], [Cmd_R] and [Cmd_other]
    are the letters that reach the [default] label of the switch. *)
Inductive Command : Type :=
| Cmd_e | Cmd_a | Cmd_b | Cmd_g | Cmd_s | Cmd_f | Cmd_j
| Cmd_K | Cmd_L
| Cmd_G (buffer0 buffer1 : Z)
| Cmd_H (hexToLong : Z)
| Cmd_I (hexToLong : Z)
| Cmd_E (hexToLong : Z)
| Cmd_F
| Cmd_A (hexToLong : Z)
| Cmd_B (hexToLong : Z)
| Cmd_S (hexToLong : Z)
| Cmd_n
| Cmd_N (hexToLong : Z)
| Cmd_d
| Cmd_D (hexToByte : Z)
| Cmd_z
| Cmd_Z (hexToByte : Z)
| Cmd_c
| Cmd_C (buffer0 : Z)
| Cmd_q
| Cmd_Q (hexToByte : Z)
| Cmd_x
| Cmd_X (hexToLong : Z)
| Cmd_Y (hexToByte : Z)
| Cmd_O (buffer0 : Z)
| Cmd_T
| Cmd_J | Cmd_R | Cmd_other.

(** The character code of ['0']. *)
Definition char0 : Z := 48.

(** What a call of [decodeCommand] leaves behind: the state, whether the
    assembled response is a data packet ([command] still non-zero when
    [synta_assembleResponse] is called) or an error packet, the response
    data, and the returned truth value. *)
Record Decoded : Type := mkDecoded {
  dec_state : State;
  dec_ok : bool;
  dec_responseData : Z;
  dec_return : bool
}.

(** Writing element [i] of an array held as a list. *)
Fixpoint list_update {A : Type} (l : list A) (i : nat) (x : A) : list A :=
  match l, i with
  | [], _ => []
  | _ :: t, O => x :: t
  | h :: t, S j => h :: list_update t j x
  end.

(** The [accelTableIndex[axis]++] with wrap-around shared by the [x] and
    [X] cases. *)
Definition advanceAccelTableIndex (m : Motor) : Motor :=
  let i := u8 (accelTableIndex m + 1) in
  if AccelTableLength <=? i then set_accelTableIndex 0 m
  else set_accelTableIndex i m.

(** The switch of [decodeCommand]: the state after the case body, the
    response data, and whether [command] was left non-zero.  [None] is
    undefined behaviour of the C source: an access beyond the end of the
    acceleration table, or a division by zero. *)
Definition decodeSwitch (hdr : Header) (command : Command) (axis : Axis)
    (s : State) : option (State * Z * bool) :=
  let m := motor axis s in
  match command with
  | Cmd_e => Some (s, eVal m, true)
  | Cmd_a => Some (s, aVal m, true)
  | Cmd_b =>
      if progMode s =? 0 then
        let correction := u16 (Z.shiftl (siderealIVal m) 1) in
        if correction =? 0 then None
        else Some (s, u32 (bVal m * u16 (correction + 1)) / correction, true)
      else Some (s, bVal m, true)
  | Cmd_g => Some (s, gVal m, true)
  | Cmd_s => Some (s, sVal m, true)
  | Cmd_f => Some (s, cmd_fVal hdr m, true)
  | Cmd_j => Some (s, jVal m, true)
  | Cmd_K =>
      Some (on_motor axis (fun m => set_readyToGo 0 (motorStop false m)) s, 0, true)
  | Cmd_L =>
      Some (motorDisable axis (on_motor axis (motorStop true) s), 0, true)
  | Cmd_G buffer0 buffer1 =>
      Some (on_motor axis
              (fun m =>
                 set_readyToGo 0
                   (cmd_setDir (if buffer1 =? char0 then CMD_FORWARD else CMD_REVERSE)
                      (cmd_setGVal (buffer0 - char0) m))) s, 0, true)
  | Cmd_H hexToLong =>
      Some (on_motor axis (fun m => set_readyToGo 0 (cmd_setHVal hexToLong m)) s,
            0, true)
  | Cmd_I hexToLong =>
      let fastest := speed (accelEntry m (AccelTableLength - 1)) in
      let responseData := if hexToLong <? fastest then fastest else hexToLong in
      let m1 := cmd_setIVal responseData m in
      let m2 := if readyToGo m1 =? 2 then motorStart m1 else set_readyToGo 0 m1 in
      Some (set_motor axis m2 s, 0, true)
  | Cmd_E hexToLong => Some (on_motor axis (cmd_setjVal hexToLong) s, 0, true)
  | Cmd_F =>
      if progMode s =? 0 then Some (motorEnable axis s, 0, true)
      else Some (s, 0, false)
  | Cmd_A hexToLong => Some (on_motor axis (cmd_setaVal hexToLong) s, 0, true)
  | Cmd_B hexToLong => Some (on_motor axis (cmd_setbVal hexToLong) s, 0, true)
  | Cmd_S hexToLong => Some (on_motor axis (cmd_setsVal hexToLong) s, 0, true)
  | Cmd_n => Some (s, siderealIVal m, true)
  | Cmd_N hexToLong => Some (on_motor axis (cmd_setsideIVal hexToLong) s, 0, true)
  | Cmd_d =>
      Some (s, match axis with DC => microstepConf s | RA => driverVersion s end, true)
  | Cmd_D hexToByte =>
      match axis with
      | DC =>
          let s1 := set_microstepConf (u8 hexToByte) s in
          Some (set_canJumpToHighspeed (8 <=? microstepConf s1) s1, 0, true)
      | RA => Some (set_driverVersion (u8 hexToByte) s, 0, true)
      end
  | Cmd_z => Some (s, normalGotoSpeed m, true)
  | Cmd_Z hexToByte =>
      Some (on_motor axis (set_normalGotoSpeed (u8 hexToByte)) s, 0, true)
  | Cmd_c => Some (s, Z_of_bool (encodeDirection m), true)
  | Cmd_C buffer0 =>
      Some (on_motor axis (set_encodeDirection (negb (buffer0 - char0 =? 0))) s,
            0, true)
  | Cmd_q =>
      Some (s, match axis with
               | DC => Z_of_bool (disableGearChange s)
               | RA => Z_of_bool (allowAdvancedHCDetection s)
               end, true)
  | Cmd_Q hexToByte =>
      match axis with
      | DC => Some (set_disableGearChange (negb (u8 hexToByte =? 0)) s, 0, true)
      | RA => Some (set_allowAdvancedHCDetection (negb (u8 hexToByte =? 0)) s, 0, true)
      end
  | Cmd_x =>
      if accelTableIndex m <? AccelTableLength then
        let e := accelEntry m (accelTableIndex m) in
        Some (on_motor axis advanceAccelTableIndex s,
              u16 (speed e) + 65536 * u8 (repeats e), true)
      else None
  | Cmd_X hexToLong =>
      if accelTableIndex m <? AccelTableLength then
        let e := mkAccel (u16 hexToLong) (u8 (Z.shiftr hexToLong 16)) in
        let m1 :=
          set_accelTable
            (list_update (accelTable m) (Z.to_nat (accelTableIndex m)) e) m in
        Some (set_motor axis (advanceAccelTableIndex m1) s, 0, true)
      else None
  | Cmd_Y hexToByte =>
      let m1 := set_accelTableIndex (u8 hexToByte) m in
      if AccelTableLength <=? accelTableIndex m1 then
        Some (set_motor axis m1 s, 0, false)
      else Some (set_motor axis m1 s, 0, true)
  | Cmd_O buffer0 =>
      let s1 := set_progMode (u8 (buffer0 - char0)) s in
      if negb (progMode s1 =? 0) then
        let s2 := motorDisable RA (on_motor RA (motorStop true) s1) in
        let s3 := motorDisable DC (on_motor DC (motorStop true) s2) in
        let s4 := on_motor RA (set_readyToGo 0) s3 in
        Some (on_motor DC (set_readyToGo 0) s4, 0, true)
      else Some (s1, 0, true)
  | Cmd_T =>
      if negb (Z.land (progMode s) 2 =? 0) then
        if negb (Z.land (progMode s) 1 =? 0) then Some (buildEEPROM s, 0, true)
        else Some (storeEEPROM s, 0, true)
      else if negb (Z.land (progMode s) 1 =? 0) then
        if negb (checkEEPROM hdr s) then Some (s, 0, false)
        else Some (s, 0, true)
      else Some (s, 0, true)
  | Cmd_J | Cmd_R | Cmd_other => Some (s, 0, true)
  end.

(** [decodeCommand]: the switch, then the handling of [R] and [J] that
    follows the assembly of the response. *)
Definition decodeCommand (hdr : Header) (command : Command) (axis : Axis)
    (s : State) : option Decoded :=
  match decodeSwitch hdr command axis s with
  | None => None
  | Some (s1, responseData, ok) =>
      match command with
      | Cmd_R => Some (mkDecoded (set_wdtArmed true s1) ok responseData false)
      | Cmd_J =>
          if progMode s1 =? 0 then
            let m1 := set_readyToGo 1 (motor axis s1) in
            let m2 :=
              if Z.land (GVal m1) 1 =? 0 then cmd_setGotoEn CMD_ENABLED m1
              else m1 in
            Some (mkDecoded (set_motor axis m2 s1) ok responseData true)
          else Some (mkDecoded s1 ok responseData true)
      | _ => Some (mkDecoded s1 ok responseData true)
      end
  end.

(** ** Mode supervisor: the blocks of the run loop of [main] *)

(** The result of the three-state probe of the ST4 interrupt line. *)
Inductive HCMode : Type := EQMOD_MODE | BASIC_HC_MODE | ADVANCED_HC_MODE.

(** [standaloneModeTest].  [irqPulledLow] and [irqPulledHigh] are the levels
    read from the interrupt pin at the two sampling points of the
    source. *)
Definition standaloneModeTest (irqPulledLow irqPulledHigh : bool) (s : State)
    : HCMode * State :=
  if allowAdvancedHCDetection s then
    (if negb irqPulledHigh then BASIC_HC_MODE else EQMOD_MODE, s)
  else
    let s1 := set_standalonePull LOW s in
    if irqPulledLow then (ADVANCED_HC_MODE, s1)
    else
      let s2 := set_standalonePull HIGH s1 in
      (if negb irqPulledHigh then BASIC_HC_MODE else EQMOD_MODE, s2).

(** Driving the three mode pins of an axis from a mode map. *)
Definition setModePins (state : Z) (m : Motor) : Motor :=
  set_modePin2 (Z.testbit state 2)
    (set_modePin1 (Z.testbit state 1)
       (set_modePin0 (Z.testbit state 0) m)).

(** [Commands_configureST4Speed], through the values the header record
    supplies for it. *)
Definition Commands_configureST4Speed (hdr : Header) (mode : ST4SpeedMode)
    (s : State) : State :=
  match st4Speeds hdr mode (ra s) (dc s) with
  | (raPlus, raMinus, rev, dec) =>
      set_st4DecIVal dec
        (set_st4RAReverse rev (set_st4RAIVal1 raMinus (set_st4RAIVal0 raPlus s)))
  end.

(** The block of the run loop that follows a probe ([loopCount == 0] and
    not yet in standalone mode) whose result is [mode]. *)
Definition main_enterStandalone (hdr : Header) (mode : HCMode) (s : State)
    : State :=
  match mode with
  | EQMOD_MODE => s
  | _ =>
      let s1 := on_motor RA (motorStop true) s in
      let s2 := on_motor DC (motorStop true) s1 in
      let s3 := on_motor RA (cmd_setjVal 8388608) s2 in
      let s4 := on_motor DC (cmd_setjVal 8388608) s3 in
      let s5 := set_serialEnabled false s4 in
      let s6 := set_standaloneMode true s5 in
      match mode with
      | ADVANCED_HC_MODE =>
          let a1 := set_syntaMode true s6 in
          let a2 := set_st4IrqEnabled false a1 in
          set_spiEnabled true a2
      | _ =>
          let b1 := set_syntaMode false s6 in
          let b2 := set_standalonePull HIGH b1 in
          let state :=
            if defaultSpeedState b2 then modeStateFast b2 else modeStateNorm b2 in
          let b3 := on_motor RA (setModePins state) b2 in
          let b4 := on_motor DC (setModePins state) b3 in
          let b5 := set_hcFastSpeed false b4 in
          let b6 := Commands_configureST4Speed hdr CMD_ST4_STANDALONE b5 in
          let b7 := motorEnable DC (motorEnable RA b6) in
          let b8 := on_motor DC (cmd_setGVal 1) (on_motor RA (cmd_setGVal 1) b7) in
          let b9 :=
            on_motor DC (cmd_setDir CMD_FORWARD)
              (on_motor RA (cmd_setDir CMD_FORWARD) b8) in
          on_motor RA
            (fun m => set_readyToGo 1 (cmd_setIVal (siderealIVal m) m)) b9
      end
  end.

(** The basic hand controller's speed switch, run when [syntaMode] is
    false; [speedPin] is the level of [standalonePin[1]]. *)
Definition main_basicSpeed (hdr : Header) (speedPin : bool) (s : State)
    : State :=
  if speedPin then
    if hcFastSpeed s then
      set_hcFastSpeed false (Commands_configureST4Speed hdr CMD_ST4_STANDALONE s)
    else s
  else
    if negb (hcFastSpeed s) then
      set_hcFastSpeed true (Commands_configureST4Speed hdr CMD_ST4_HIGHSPEED s)
    else s.

(** The reconfiguration of microstep mode and [stepDir] from [GVal] inside
    the [readyToGo] block. *)
Definition main_selectSpeed (s : State) (m : Motor) : Motor :=
  let GVal' := GVal m in
  if canJumpToHighspeed s then
    if (GVal' =? 1) || (GVal' =? 2) then
      let state := modeStateNorm s in
      setModePins state (set_highSpeedMode false (cmd_updateStepDir 1 m))
    else
      let state := modeStateFast s in
      setModePins state (set_highSpeedMode true (cmd_updateStepDir (gVal m) m))
  else set_highSpeedMode false (cmd_updateStepDir 1 m).

(** The block [if (readyToGo[axis] == 1) ...] at the end of each pass of
    the run loop, written out in the source once for [RA] and once for
    [DC]. *)
Definition main_readyToGo (axis : Axis) (s : State) : State :=
  let m := motor axis s in
  if readyToGo m =? 1 then
    if stopped m then
      let GVal' := GVal m in
      let m1 := main_selectSpeed s m in
      let m2 :=
        if negb (Z.land GVal' 1 =? 0) then set_readyToGo 2 (slewMode m1)
        else set_readyToGo 0 (gotoMode m1) in
      set_motor axis m2 s
    else s
  else s.

(** ** ST4 handler: the pin change interrupt *)

(** The levels of the four ST4 inputs; a pressed button reads low. *)
Record ST4Pins : Type := mkST4Pins {
  pinRAN : bool;     (* st4Pin[RA][ST4N] *)
  pinRAP : bool;     (* st4Pin[RA][ST4P] *)
  pinDCN : bool;     (* st4Pin[DC][ST4N] *)
  pinDCP : bool      (* st4Pin[DC][ST4P] *)
}.

(** The label [setRASpeed]. *)
Definition st4_setRASpeed (stopped' : bool) (dir' : bool) (stepDir' newSpeed : Z)
    (m : Motor) : Motor :=
  let m1 := set_currentIVal (u16 newSpeed) m in
  if stopped' then
    let m2 := set_stepDir (s8 stepDir') m1 in
    let m3 := set_dir dir' m2 in
    let m4 := set_GVal 1 m3 in
    motorStart m4
  else if stopSpeed m1 <? currentIVal m1 then
    set_stopSpeed (currentIVal m1) m1
  else m1.

(** The RA block of the handler, with its [goto]s resolved. *)
Definition st4_RA (pins : ST4Pins) (s : State) : State :=
  let m := ra s in
  let stopped' := Bool.eqb (stopped m) CMD_STOPPED || Bool.eqb (st4RAReverse s) CMD_REVERSE in
  if dir m && negb stopped' then
    (* ignoreRAST4 *)
    set_ra (st4_setRASpeed stopped' CMD_FORWARD 1 (siderealIVal m) m) s
  else if negb (pinRAN pins) then
    (* RA- *)
    if Bool.eqb (st4RAReverse s) CMD_REVERSE then
      set_ra (st4_setRASpeed stopped' CMD_REVERSE 255 (st4RAIVal1 s) m) s
    else
      set_ra (st4_setRASpeed stopped' CMD_FORWARD 1 (st4RAIVal1 s) m) s
  else if negb (pinRAP pins) then
    (* RA+ *)
    set_ra (st4_setRASpeed stopped' CMD_FORWARD 1 (st4RAIVal0 s) m) s
  else
    (* ignoreRAST4 *)
    set_ra (st4_setRASpeed stopped' CMD_FORWARD 1 (siderealIVal m) m) s.

(** The label [setDECSpeed]. *)
Definition st4_setDECSpeed (dir' : bool) (stepDir' : Z) (s : State) : State :=
  let m := dc s in
  let m1 := set_stepDir (s8 stepDir') m in
  let m2 := set_dir dir' m1 in
  let m3 := set_currentIVal (u16 (st4DecIVal s)) m2 in
  let m4 := set_GVal 1 m3 in
  set_dc (motorStart m4) s.

(** The DEC block of the handler. *)
Definition st4_DEC (pins : ST4Pins) (s : State) : State :=
  if negb (pinDCN pins) then st4_setDECSpeed CMD_REVERSE 255 s
  else if negb (pinDCP pins) then st4_setDECSpeed CMD_FORWARD 1 s
  else
    let m := dc s in
    set_dc (set_currentIVal (u16 (stopSpeed m + 1)) m) s.

(** [ISR(PCINT0_vect)] (or [PCINT2_vect] with the alternate pins). *)
Definition PCINT0_vect (pins : ST4Pins) (s : State) : State :=
  if negb (gotoEn (ra s)) && negb (gotoEn (dc s)) then
    st4_DEC pins (st4_RA pins s)
  else s.

(** ** Rate table builder *)

(** [float] on the AVR: IEEE-754 binary32. *)
Definition f32 : Type := spec_float.
Definition f32_prec : Z := 24.
Definition f32_emax : Z := 128.

(** Conversion of an unsigned integer, rounding to nearest. *)
Definition f32_of_Z (n : Z) : f32 := binary_normalize f32_prec f32_emax n 0 false.
Definition f32_div : f32 -> f32 -> f32 := SFdiv f32_prec f32_emax.
Definition f32_mul : f32 -> f32 -> f32 := SFmul f32_prec f32_emax.
Definition f32_add : f32 -> f32 -> f32 := SFadd f32_prec f32_emax.

(** The literal [0.5f]. *)
Definition f32_half : f32 := S754_finite false 8388608 (-24).

(** Conversion to an integer type: the fraction is discarded. *)
Definition f32_trunc (x : f32) : Z :=
  match x with
  | S754_finite sign mant e =>
      let a :=
        if 0 <=? e then Z.shiftl (Zpos mant) e else Z.shiftr (Zpos mant) (- e) in
      if sign then - a else a
  | _ => 0
  end.

(** [ceil], as the integer it returns. *)
Definition f32_ceil (x : f32) : Z :=
  match x with
  | S754_finite sign mant e =>
      if 0 <=? e then
        (if sign then - Z.shiftl (Zpos mant) e else Z.shiftl (Zpos mant) e)
      else if sign then - Z.shiftr (Zpos mant) (- e)
      else - ((- Zpos mant) / 2 ^ (- e))
  | _ => 0
  end.

(** The number of extra clocks per [DecimalDistnWidth] steps:
    [(unsigned long)((float)remainder / (float)divisor * (float)distWidth
    + 0.5f)]. *)
Definition extraClocks (remainder divisor : Z) : Z :=
  let floatRemainder := f32_div (f32_of_Z remainder) (f32_of_Z divisor) in
  let floatRemainder := f32_mul floatRemainder (f32_of_Z DecimalDistnWidth) in
  u32 (f32_trunc (f32_add floatRemainder f32_half)).

(** The index that receives the [i]-th extra clock:
    [(byte)ceil((float)i * (float)distWidth / (float)remainder)]. *)
Definition distributionIndex (i remainder : Z) : Z :=
  let distn := f32_of_Z i in
  let distn := f32_mul distn (f32_of_Z DecimalDistnWidth) in
  let distn := f32_div distn (f32_of_Z remainder) in
  u8 (f32_ceil distn).

(** The truncation of the quotient "to an unsigned int with a sensible max
    value", and the decrement of the ATmega162 build. *)
Definition baseRate (atmega162 : bool) (rate : Z) : Z :=
  let rate :=
    if negb (u16 (Z.shiftr rate 16) =? 0) then 65535
    else if rate <? 128 then 128
    else rate in
  if atmega162 then u32 (rate - 1) else rate.

(** [timerOVF[axis][index] += 1]. *)
Definition bumpSlot (table : list Z) (index : Z) : list Z :=
  list_update table (Z.to_nat index) (u16 (nth (Z.to_nat index) table 0 + 1)).

(** The second loop of [calculateRate], for [i] from [i0] over [n]
    iterations. *)
Fixpoint distributeClocks (n : nat) (i0 remainder : Z) (table : list Z)
    : list Z :=
  match n with
  | O => table
  | S k =>
      distributeClocks k (i0 + 1) remainder
        (bumpSlot table (distributionIndex i0 remainder))
  end.

(** The table [calculateRate] builds for a divisor; the division by a zero
    divisor is undefined. *)
Definition rateTable (atmega162 : bool) (divisor : Z) : option (list Z) :=
  if divisor =? 0 then None
  else
    let rate := timerCountRate / divisor in
    let remainder := timerCountRate mod divisor in
    let remainder := extraClocks remainder divisor in
    let rate := baseRate atmega162 rate in
    let table := repeat (u16 rate) (Z.to_nat DecimalDistnWidth) in
    Some (distributeClocks (Z.to_nat remainder) 0 remainder table).

(** [calculateRate]. *)
Definition calculateRate (hdr : Header) (m : Motor) : option Motor :=
  match rateTable (ATmega162 hdr) (bVal m) with
  | None => None
  | Some table => Some (set_timerOVF table m)
  end.

(** ** Boot *)

(** What the boot code reads from EEPROM for one axis, and for the mount. *)
Record AxisConfig : Type := mkAxisConfig {
  cfg_aVal : Z;
  cfg_bVal : Z;
  cfg_sVal : Z;
  cfg_reverse : Z;
  cfg_gotoSpeed : Z;
  cfg_siderealIVal : Z;
  cfg_accelTable : list AccelTableStruct
}.

Record Config : Type := mkConfig {
  cfg_magic : bool;
  cfg_RA : AxisConfig;
  cfg_DC : AxisConfig;
  cfg_driver : Z;
  cfg_microstep : Z;
  cfg_gearEnable : Z;
  cfg_advHCEnable : Z
}.

(** [buildModeMapping]: the pair [(modeState[SPEEDNORM],
    modeState[SPEEDFAST])]; bit [MODEn] is bit [n]. *)
Definition buildModeMapping (hdr : Header) (microsteps driverVersion : Z)
    : Z * Z :=
  let microsteps := if microsteps <? 8 then u8 (microsteps * 8) else microsteps in
  if microsteps =? 8 then (3, 0)
  else if microsteps =? 32 then
    if driverVersion =? DRV8834 hdr then
      (Z.lor (Z.shiftl (FLOAT hdr) 2) 2, Z.shiftl (FLOAT hdr) 2)
    else (7, 2)
  else
    if driverVersion =? DRV882x hdr then (1, 4) else (7, 1).

(** Modelled from the spec: [synta_initialise] lives in the Synta library,
    which is not among the sources.  "Motion State is created at boot with
    all axes stopped"; the per-axis configuration is "read once at boot";
    index 0 of the acceleration table "is the slowest (largest period) and
    is the starting point from standstill", which gives [minSpeed]; the
    position starts at mid-range. *)
Definition synta_initialise (gVal' : Z) (c : AxisConfig) : Motor :=
  let slowest := speed (nth 0 (cfg_accelTable c) (mkAccel 0 0)) in
  {| jVal := 8388608; IVal := 0; currentIVal := 0; HVal := 0; GVal := 0;
     FVal := CMD_DISABLED; dir := CMD_FORWARD; stepDir := 1;
     gotoEn := CMD_DISABLED; stopped := CMD_STOPPED; highSpeedMode := false;
     eVal := 0; aVal := cfg_aVal c; bVal := cfg_bVal c; gVal := gVal';
     sVal := cfg_sVal c; siderealIVal := cfg_siderealIVal c;
     normalGotoSpeed := cfg_gotoSpeed c; minSpeed := slowest;
     stopSpeed := slowest; accelTable := cfg_accelTable c;
     readyToGo := 0; gotoPosn := 0; encodeDirection := false; timerOVF := [];
     gotoDecelerationLength := 0; accelTableRepeatsLeft := 0;
     accelTableIndex := 0;
     distributionSegment := 0; currentMotorSpeed := 0; irqToNextStep := 0;
     interruptOVFCount := 0; timerCountRegister := 0;
     timerIrqEnabled := false; timerClockOn := false;
     gotoRunning := false; gotoDecelerating := false;
     stepPin := LOW; dirPin := LOW; enablePin := HIGH;
     modePin0 := false; modePin1 := false; modePin2 := false |}.

(** [systemInitialiser], on the state declared by the global initialisers:
    both motors in reset state, drivers disabled, timers off, the ST4
    interrupt enabled and the serial port initialised.  [None] when
    [calculateRate] divides by zero. *)
Definition systemInitialiser (hdr : Header) (c : Config) : option State :=
  let driverVersion' := u8 (cfg_driver c) in
  let microstepConf' := u8 (cfg_microstep c) in
  let allowAdvancedHCDetection' := cfg_advHCEnable c =? 0 in
  let defaultSpeedState' := if 8 <=? microstepConf' then SPEEDNORM else SPEEDFAST in
  let disableGearChange' := cfg_gearEnable c =? 0 in
  let canJumpToHighspeed' := (8 <=? microstepConf') && negb disableGearChange' in
  let gVal' := if canJumpToHighspeed' then 8 else 1 in
  let init := fun ac =>
    set_encodeDirection (negb (cfg_reverse ac =? 0)) (synta_initialise gVal' ac) in
  let modes := buildModeMapping hdr microstepConf' driverVersion' in
  let s0 :=
    {| ra := init (cfg_RA c); dc := init (cfg_DC c);
       st4RAIVal0 := 0; st4RAIVal1 := 0; st4RAReverse := false; st4DecIVal := 0;
       progMode := 0; microstepConf := microstepConf';
       driverVersion := driverVersion';
       canJumpToHighspeed := canJumpToHighspeed';
       defaultSpeedState := defaultSpeedState';
       disableGearChange := disableGearChange';
       allowAdvancedHCDetection := allowAdvancedHCDetection';
       modeStateNorm := fst modes; modeStateFast := snd modes;
       eeprom := mkEEPROM (cfg_magic c) [] [] []; wdtArmed := false;
       standaloneMode := false; syntaMode := true; hcFastSpeed := false;
       serialEnabled := true; spiEnabled := false; st4IrqEnabled := true;
       standalonePull := HIGH |} in
  let s1 := if negb (checkEEPROM hdr s0) then set_progMode (PROGMODE hdr) s0 else s0 in
  match calculateRate hdr (ra s1), calculateRate hdr (dc s1) with
  | Some r, Some d =>
      let r := calculateDecelerationLength r in
      let d := calculateDecelerationLength d in
      let state := if defaultSpeedState s1 then modeStateFast s1 else modeStateNorm s1 in
      Some (set_dc (setModePins state d) (set_ra (setModePins state r) s1))
  | _, _ => None
  end.

(** ** The firmware as a transition system

    One pass of the run loop executes, in this order, the probe of the
    hand-controller line (when due), the decoding of a received packet or
    the basic hand controller's speed switch, and the two [readyToGo]
    blocks; the three interrupt handlers run between them.  Each of these
    is an event.  After an [R] command [main] leaves the run loop. *)
Inductive Event : Type :=
| Ev_timer (axis : Axis)
| Ev_st4 (pins : ST4Pins)
| Ev_probe (irqPulledLow irqPulledHigh : bool)
| Ev_command (command : Command) (axis : Axis)
| Ev_basicSpeed (speedPin : bool)
| Ev_readyToGo (axis : Axis).

Definition step (hdr : Header) (ev : Event) (s : State) : option State :=
  if wdtArmed s then None
  else
    match ev with
    | Ev_timer axis =>
        let m := motor axis s in
        if timerIrqEnabled m && timerClockOn m
        then Some (on_motor axis TIMER_CAPT_vect s)
        else None
    | Ev_st4 pins =>
        if st4IrqEnabled s then Some (PCINT0_vect pins s) else None
    | Ev_probe irqPulledLow irqPulledHigh =>
        if standaloneMode s then None
        else
          let r := standaloneModeTest irqPulledLow irqPulledHigh s in
          Some (main_enterStandalone hdr (fst r) (snd r))
    | Ev_command command axis =>
        if syntaMode s then
          match decodeCommand hdr command axis s with
          | Some d => Some (dec_state d)
          | None => None
          end
        else None
    | Ev_basicSpeed speedPin =>
        if syntaMode s then None else Some (main_basicSpeed hdr speedPin s)
    | Ev_readyToGo axis => Some (main_readyToGo axis s)
    end.

(** Running a sequence of events. *)
Fixpoint run (hdr : Header) (evs : list Event) (s : State) : option State :=
  match evs with
  | [] => Some s
  | ev :: rest =>
      match step hdr ev s with
      | Some s1 => run hdr rest s1
      | None => None
      end
  end.

(** The states of the executions that start from a boot. *)
Definition reachable (hdr : Header) (s : State) : Prop :=
  exists c s0 evs, systemInitialiser hdr c = Some s0 /\ run hdr evs s0 = Some s.

(** * Invariants and the specification's wording *)

(** ** Typing invariants

    The ranges of the C types of the fields; every store of the embedding
    re-establishes them. *)

Definition typed_entry (e : AccelTableStruct) : bool :=
  is_u16 (speed e) && is_u8 (repeats e).

Definition typed_table (t : list AccelTableStruct) : bool :=
  (Z.of_nat (length t) =? AccelTableLength) && forallb typed_entry t.

Definition typed (m : Motor) : bool :=
  is_u32 (jVal m) && is_u16 (IVal m) && is_u16 (currentIVal m)
  && is_u32 (HVal m) && is_s8 (GVal m) && is_s8 (stepDir m)
  && is_u8 (gVal m) && is_u16 (siderealIVal m) && is_u16 (normalGotoSpeed m)
  && is_u16 (minSpeed m) && is_u16 (stopSpeed m)
  && typed_table (accelTable m)
  && is_u16 (gotoDecelerationLength m)
  && is_u8 (accelTableRepeatsLeft m) && is_u8 (accelTableIndex m)
  && is_u8 (distributionSegment m) && is_u16 (currentMotorSpeed m)
  && is_u16 (irqToNextStep m).

(** The sum of [repeats + 1] over the entries a goto speed leaves behind:
    those whose period is larger than [gotoSpeed]. *)
Fixpoint stepsAbove (gotoSpeed : Z) (t : list AccelTableStruct) : Z :=
  match t with
  | [] => 0
  | e :: rest =>
      (if gotoSpeed <? speed e then repeats e + 1 else 0)
      + stepsAbove gotoSpeed rest
  end.

(** The same sum over the leading entries only, as the source scans. *)
Fixpoint stepsBefore (gotoSpeed : Z) (t : list AccelTableStruct) : Z :=
  match t with
  | [] => 0
  | e :: rest =>
      if speed e <=? gotoSpeed then 0
      else repeats e + 1 + stepsBefore gotoSpeed rest
  end.

(** The table invariant of the specification: periods do not increase
    along the table. *)
Fixpoint monotone (t : list AccelTableStruct) : bool :=
  match t with
  | a :: rest =>
      match rest with
      | b :: _ => (speed b <=? speed a) && monotone rest
      | [] => true
      end
  | [] => true
  end.

(** The deceleration length and marker as the specification words them:
    the sum over the entries whose speed exceeds [normalGotoSpeed], times 3
    in high-speed mode, times the magnitude of [stepDir], clamped to
    [HVal / 2], with the low three bits of [HVal] cleared when the
    magnitude is 8. *)
Definition spec_HVal (m : Motor) : Z :=
  if Z.abs (stepDir m) =? 8 then 8 * (HVal m / 8) else HVal m.

Definition spec_decelerationLength (m : Motor) : Z :=
  Z.min
    (stepsAbove (normalGotoSpeed m) (accelTable m)
     * (if highSpeedMode m then 3 else 1) * Z.abs (stepDir m))
    (spec_HVal m / 2).

Definition spec_gotoTarget (m : Motor) : Z :=
  u32 (jVal m + (if dir m
                 then - (spec_HVal m - spec_decelerationLength m)
                 else spec_HVal m - spec_decelerationLength m)).


(** The target period of an [I] command as the specification words it:
    the payload, never below the speed of the slowest table entry, which
    is the entry at index 0. *)
Definition spec_clampedIVal (m : Motor) (payload : Z) : Z :=
  Z.max payload (speed (accelEntry m 0)).

(** The events that stop an axis at once: the [L] command for the axis, an
    [O] command that enters a programming mode, and a probe of the
    hand-controller line that finds a hand controller. *)
Definition emergencyStop (ev : Event) (axis : Axis) (s : State) : Prop :=
  match ev with
  | Ev_command Cmd_L a => a = axis
  | Ev_command (Cmd_O buffer0) _ => u8 (buffer0 - char0) <> 0
  | Ev_probe irqPulledLow irqPulledHigh =>
      fst (standaloneModeTest irqPulledLow irqPulledHigh s) <> EQMOD_MODE
  | _ => False
  end.

(** The tick that completes a step pulse of an axis whose current speed is
    slower than its stop speed. *)
Definition slowPulseCompletion (ev : Event) (axis : Axis) (s : State) : Prop :=
  ev = Ev_timer axis
  /\ u16 (irqToNextStep (motor axis s) - 1) = 0
  /\ stepPin (motor axis s) = HIGH
  /\ stopSpeed (motor axis s) < currentMotorSpeed (motor axis s).

(** ** The rate table, in the words of the specification *)












(** ** Auxiliary notions of the proofs *)

(** A tick that starts a pulse, as the interrupt runs it: the speed in
    effect is the one in the speed register. *)
Definition risingEdge (m : Motor) : Motor := stepRising m (currentMotorSpeed m).

(** A function on an axis that leaves its [stopped] flag alone. *)
Definition keeps_stopped (f : Motor -> Motor) : Prop :=
  forall m, stopped (f m) = stopped m.


(** ** A mount used by the examples

    A build for the ATmega1280/2560 with a DRV882x driver at 32
    microsteps, gear change enabled, a monotone six-entry acceleration
    table, sidereal divisor 40000 and sidereal period 1000 (scenario S1 of
    the specification), goto period 16 (scenario S2). *)

Definition example_header : Header :=
  {| ATmega162 := false; A498x := 0; DRV882x := 1; DRV8834 := 2; FLOAT := 8;
     MIN_IVAL := 50; PROGMODE := 1;
     cmd_fVal := fun _ => 0;
     st4Speeds := fun _ r d =>
       (siderealIVal r * 4 / 5, siderealIVal r * 4 / 3, false,
        siderealIVal d * 4) |}.

Definition example_table : list AccelTableStruct :=
  [mkAccel 640 3; mkAccel 320 3; mkAccel 160 3; mkAccel 80 3; mkAccel 40 3;
   mkAccel 20 3].

Definition example_axis : AxisConfig :=
  {| cfg_aVal := 9024000; cfg_bVal := 40000; cfg_sVal := 64000;
     cfg_reverse := 0; cfg_gotoSpeed := 16; cfg_siderealIVal := 1000;
     cfg_accelTable := example_table |}.

Definition example_config : Config :=
  {| cfg_magic := true; cfg_RA := example_axis; cfg_DC := example_axis;
     cfg_driver := 1; cfg_microstep := 32; cfg_gearEnable := 1;
     cfg_advHCEnable := 1 |}.

(** The state after [systemInitialiser] on that configuration. *)
Definition example_boot : State :=
  match systemInitialiser example_header example_config with
  | Some s => s
  | None => mkState (synta_initialise 1 example_axis) (synta_initialise 1 example_axis)
              0 0 false 0 0 0 0 false false false false 0 0
              (mkEEPROM false [] [] []) false false true false true false true HIGH
  end.

(** An axis about to start a high-speed goto over 24 position units. *)
Definition example_goto : Motor :=
  set_highSpeedMode true
    (set_stepDir 8 (set_HVal 24 (ra example_boot))).

(** An axis about to start a normal-speed goto of one position unit. *)
Definition example_short_goto : Motor := set_HVal 1 (ra example_boot).

(** The same mount with an acceleration table whose second entry dwells
    for 85 repeats, and its state after boot. *)
Definition example_long_table : list AccelTableStruct :=
  [mkAccel 640 0; mkAccel 320 85; mkAccel 160 3; mkAccel 80 3; mkAccel 40 3;
   mkAccel 20 3].

Definition example_long_axis : AxisConfig :=
  {| cfg_aVal := 9024000; cfg_bVal := 40000; cfg_sVal := 64000;
     cfg_reverse := 0; cfg_gotoSpeed := 16; cfg_siderealIVal := 1000;
     cfg_accelTable := example_long_table |}.

Definition example_long_config : Config :=
  {| cfg_magic := true; cfg_RA := example_long_axis; cfg_DC := example_long_axis;
     cfg_driver := 1; cfg_microstep := 32; cfg_gearEnable := 1;
     cfg_advHCEnable := 1 |}.

Definition example_long_boot : State :=
  match systemInitialiser example_header example_long_config with
  | Some s => s
  | None => example_boot
  end.

(** The packets [:F1], [:G130], [:I<20>], [:J1] followed by the
    [readyToGo] block of RA: a high-speed forward slew at period 20. *)
Definition example_fast_slew : list Event :=
  [Ev_command Cmd_F RA; Ev_command (Cmd_G 51 48) RA; Ev_command (Cmd_I 20) RA;
   Ev_command Cmd_J RA; Ev_readyToGo RA].

(** The packets [:F1], [:G100], [:H<1000>], [:J1]: a goto of 1000 units in
    mode 0, forward. *)
Definition example_mode0_goto : list Event :=
  [Ev_command Cmd_F RA; Ev_command (Cmd_G 48 48) RA;
   Ev_command (Cmd_H 1000) RA; Ev_command Cmd_J RA].

(** All four ST4 buttons released. *)
Definition st4_released : ST4Pins := mkST4Pins HIGH HIGH HIGH HIGH.

(** The packets [:F1], [:G111], [:I<100>], [:J1] followed by the
    [readyToGo] block of RA: a normal-speed reverse slew at period 100. *)
Definition example_reverse_slew : list Event :=
  [Ev_command Cmd_F RA; Ev_command (Cmd_G 49 49) RA; Ev_command (Cmd_I 100) RA;
   Ev_command Cmd_J RA; Ev_readyToGo RA].

(** A goto on DC over two steps during which the host sends a second
    [:J2]: the packets [:F2], [:G220], [:H<2>], [:J2] and a pass of the run
    loop start the goto; [:J2] arrives while it runs; 1921 timer interrupts
    complete it (one starts the first pulse, three half-steps of 640
    interrupts follow); the next pass of the run loop finds
    [readyToGo[DC] == 1] on a stopped axis and starts the queued goto. *)
Definition example_requeued_goto : list Event :=
  [Ev_command Cmd_F DC; Ev_command (Cmd_G 50 48) DC; Ev_command (Cmd_H 2) DC;
   Ev_command Cmd_J DC; Ev_readyToGo RA; Ev_readyToGo DC;
   Ev_command Cmd_J DC; Ev_readyToGo RA; Ev_readyToGo DC]
  ++ repeat (Ev_timer DC) 1921
  ++ [Ev_readyToGo RA; Ev_readyToGo DC].




(** ** Further examples and notions *)

(** The state an event sequence leads to from the booted example mount. *)
Definition state_after (evs : list Event) : State :=
  match run example_header evs example_boot with
  | Some s => s
  | None => example_boot
  end.

(** The axis RA just started on a reverse slew: the first timer interrupt
    is due and no pulse is under way. *)
Definition example_started : Motor := ra (state_after example_reverse_slew).

(** The same axis after that interrupt: a pulse is under way. *)
Definition example_pulse_high : Motor := TIMER_CAPT_vect example_started.

(** The motor as the interrupt hands it to one of the two branches. *)
Definition afterReload (m : Motor) : Motor :=
  set_irqToNextStep (currentMotorSpeed m)
    (set_distributionSegment (u8 (distributionSegment m + 1))
       (set_interruptOVFCount
          (timerOVF_at m
             (Z.land (Z.shiftl (DecimalDistnWidth - 1) 1) (distributionSegment m) / 2))
          m)).

(** The commands that only report a value, and the letters the switch
    does not know. *)
Definition reportsOnly (c : Command) : bool :=
  match c with
  | Cmd_e | Cmd_a | Cmd_b | Cmd_g | Cmd_s | Cmd_f | Cmd_j | Cmd_n | Cmd_d
  | Cmd_z | Cmd_c | Cmd_q | Cmd_other => true
  | _ => false
  end.

(** An axis at rest with no movement requested: stopped, and [readyToGo]
    neither 1 (movement requested) nor 2 (slew with live speed updates). *)
Definition parked (m : Motor) : bool :=
  stopped m && negb (readyToGo m =? 1) && negb (readyToGo m =? 2).

(** A function on an axis under which an axis at rest stays at rest. *)
Definition keeps_parked (f : Motor -> Motor) : Prop :=
  forall m, parked m = true -> parked (f m) = true.

(** The two axes as the entry into standalone mode with a basic hand
    controller leaves them, in terms of the axes before. *)
Definition standaloneBase (m : Motor) : Motor :=
  cmd_setjVal 8388608 (motorStop true m).

Definition timerOff (m : Motor) : Motor :=
  set_timerClockOn false (set_timerIrqEnabled false m).

Definition basicRA (state : Z) (m : Motor) : Motor :=
  let m1 :=
    cmd_setDir CMD_FORWARD
      (cmd_setGVal 1
         (timerOff
            (timerOff
               (cmd_setFVal CMD_ENABLED
                  (set_enablePin LOW (setModePins state (standaloneBase m))))))) in
  set_readyToGo 1 (cmd_setIVal (siderealIVal m1) m1).

Definition basicDC (state : Z) (m : Motor) : Motor :=
  cmd_setDir CMD_FORWARD
    (cmd_setGVal 1
       (timerOff
          (cmd_setFVal CMD_ENABLED
             (set_enablePin LOW
                (timerOff (setModePins state (standaloneBase m))))))).

(** A bound on the number of timer interrupts an axis whose target is
    slower than its stop speed takes to halt: 65536 for every countdown
    still to come (two per repeat left in the table below the current
    entry, and up to three more), plus what is left of the current
    countdown. *)
Definition walkLeft (m : Motor) : Z :=
  256 * accelTableIndex m + accelTableRepeatsLeft m.

Definition countdownsLeft (m : Motor) : Z :=
  if stepPin m then
    if stopSpeed m <? currentMotorSpeed m then 1 else 2 * walkLeft m + 3
  else 2 * walkLeft m + 2.

Definition haltMeasure (m : Motor) : Z :=
  65536 * countdownsLeft m + u16 (irqToNextStep m - 1).

(** The engine is set to halt: its target is slower than the stop speed,
    and the walk state is within the range of its bytes. *)
Definition halting (m : Motor) : Prop :=
  stopSpeed m < currentIVal m /\ 0 <= stopSpeed m < 65535
  /\ 0 <= accelTableIndex m < 256 /\ 0 <= accelTableRepeatsLeft m < 256.

(** An axis slewing towards a faster target: the speed register lies
    between the target and the stop speed, no entry of the acceleration
    table is slower than the stop speed, the walk is inside the table, and
    no goto is running. *)
Definition accelerating (m : Motor) : Prop :=
  currentIVal m <= currentMotorSpeed m <= stopSpeed m
  /\ (forall k, 0 <= k < AccelTableLength ->
        speed (accelEntry m k) <= stopSpeed m)
  /\ 0 <= accelTableIndex m < AccelTableLength
  /\ 0 <= accelTableRepeatsLeft m < 256
  /\ gotoRunning m = false /\ stopped m = false.

(** A bound on the number of timer interrupts such an axis takes to reach
    its target. *)
Definition climbLeft (m : Motor) : Z :=
  256 * (AccelTableLength - 1 - accelTableIndex m) + accelTableRepeatsLeft m.

Definition cruiseMeasure (m : Motor) : Z :=
  65536 * (2 * climbLeft m + (if stepPin m then 2 else 1))
  + u16 (irqToNextStep m - 1).

(** The declination axis of the example just after the timer interrupt
    that meets the deceleration marker of its goto. *)
Definition example_past_marker : Motor :=
  dc (state_after (firstn 650 example_requeued_goto)).

(** * Properties *)

Lemma is_u8_spec x : is_u8 x = true <-> 0 <= x < 256.
Proof. unfold is_u8. rewrite andb_true_iff, Z.leb_le, Z.ltb_lt. tauto. Qed.

Lemma is_u16_spec x : is_u16 x = true <-> 0 <= x < 65536.
Proof. unfold is_u16. rewrite andb_true_iff, Z.leb_le, Z.ltb_lt. tauto. Qed.

Lemma is_u32_spec x : is_u32 x = true <-> 0 <= x < 4294967296.
Proof. unfold is_u32. rewrite andb_true_iff, Z.leb_le, Z.ltb_lt. tauto. Qed.

Lemma is_s8_spec x : is_s8 x = true <-> -128 <= x < 128.
Proof. unfold is_s8. rewrite andb_true_iff, Z.leb_le, Z.ltb_lt. tauto. Qed.

(** The invariant as range facts. *)
Lemma typed_inv (m : Motor) :
  typed m = true ->
  0 <= jVal m < 4294967296 /\ 0 <= IVal m < 65536
  /\ 0 <= currentIVal m < 65536 /\ 0 <= HVal m < 4294967296
  /\ -128 <= GVal m < 128 /\ -128 <= stepDir m < 128
  /\ 0 <= gVal m < 256 /\ 0 <= siderealIVal m < 65536
  /\ 0 <= normalGotoSpeed m < 65536 /\ 0 <= minSpeed m < 65536
  /\ 0 <= stopSpeed m < 65536 /\ typed_table (accelTable m) = true
  /\ 0 <= gotoDecelerationLength m < 65536
  /\ 0 <= accelTableRepeatsLeft m < 256 /\ 0 <= accelTableIndex m < 256
  /\ 0 <= distributionSegment m < 256 /\ 0 <= currentMotorSpeed m < 65536
  /\ 0 <= irqToNextStep m < 65536.
Proof.
  unfold typed. rewrite !andb_true_iff.
  rewrite !is_u8_spec, !is_u16_spec, !is_u32_spec, !is_s8_spec. tauto.
Qed.

Ltac typed_facts H :=
  destruct (typed_inv _ H)
    as (TjVal & TIVal & TcurrentIVal & THVal & TGVal & TstepDir & TgVal
        & Tsidereal & TgotoSpeed & TminSpeed & TstopSpeed & Ttable & TdecelLen
        & TrepeatsLeft & TaccelIndex & Tsegment & Tspeed & Tirq).

Lemma typed_entry_inv (e : AccelTableStruct) :
  typed_entry e = true -> 0 <= speed e < 65536 /\ 0 <= repeats e < 256.
Proof.
  unfold typed_entry. rewrite andb_true_iff, is_u16_spec, is_u8_spec. tauto.
Qed.

Lemma u8_small x : 0 <= x < 256 -> u8 x = x.
Proof. intros; unfold u8; apply Z.mod_small; lia. Qed.

Lemma u16_small x : 0 <= x < 65536 -> u16 x = x.
Proof. intros; unfold u16; apply Z.mod_small; lia. Qed.

Lemma u32_small x : 0 <= x < 4294967296 -> u32 x = x.
Proof. intros; unfold u32; apply Z.mod_small; lia. Qed.

Lemma u8_range x : 0 <= u8 x < 256.
Proof. unfold u8; apply Z.mod_pos_bound; lia. Qed.

Lemma u16_range x : 0 <= u16 x < 65536.
Proof. unfold u16; apply Z.mod_pos_bound; lia. Qed.

Lemma u32_range x : 0 <= u32 x < 4294967296.
Proof. unfold u32; apply Z.mod_pos_bound; lia. Qed.

(** Clearing the three low bits of an [unsigned long]. *)
Lemma mask_low3 (h : Z) :
  0 <= h < 4294967296 -> Z.land h 4294967288 = 8 * (h / 8).
Proof.
  intros Hh.
  change 4294967288 with (Z.ldiff (Z.ones 32) (Z.ones 3)).
  assert (E : Z.land h (Z.ldiff (Z.ones 32) (Z.ones 3))
              = Z.ldiff (Z.land h (Z.ones 32)) (Z.ones 3)).
  { apply Z.bits_inj'; intros n Hn.
    rewrite Z.land_spec, !Z.ldiff_spec, Z.land_spec.
    destruct (Z.testbit h n), (Z.testbit (Z.ones 32) n), (Z.testbit (Z.ones 3) n);
      reflexivity. }
  rewrite E, Z.land_ones by lia.
  change (2 ^ 32) with 4294967296.
  rewrite Z.mod_small by lia.
  rewrite Z.ldiff_ones_r by lia.
  rewrite Z.shiftl_mul_pow2, Z.shiftr_div_pow2 by lia.
  change (2 ^ 3) with 8. lia.
Qed.

Lemma u32_add_opp (j x : Z) : u32 (j + u32 (- x)) = u32 (j - x).
Proof. unfold u32. rewrite Zplus_mod_idemp_r. f_equal. Qed.

(** ** The deceleration length *)

Lemma stepsBefore_bounds g t :
  forallb typed_entry t = true ->
  0 <= stepsBefore g t <= 256 * Z.of_nat (length t).
Proof.
  induction t as [|e t IH]; intros Ht.
  - simpl. lia.
  - cbn [forallb] in Ht. apply andb_prop in Ht. destruct Ht as [He Ht].
    apply typed_entry_inv in He.
    specialize (IH Ht). cbn [stepsBefore length].
    destruct (speed e <=? g); lia.
Qed.

Lemma decelerationSteps_spec g t acc :
  forallb typed_entry t = true ->
  0 <= acc -> acc + 256 * Z.of_nat (length t) < 65536 ->
  decelerationSteps t g acc = acc + stepsBefore g t.
Proof.
  revert acc. induction t as [|e t IH]; intros acc Ht Hacc Hb.
  - simpl. lia.
  - cbn [forallb] in Ht. apply andb_prop in Ht. destruct Ht as [He Ht].
    apply typed_entry_inv in He.
    cbn [decelerationSteps stepsBefore]. cbn [length] in Hb.
    destruct (speed e <=? g); [lia|].
    rewrite u16_small by lia.
    rewrite IH by (auto; lia). lia.
Qed.

Lemma stepsAbove_below g t :
  monotone t = true ->
  (forall e, In e t -> speed e <= g) -> stepsAbove g t = 0.
Proof.
  induction t as [|e t IH]; intros Hm Hall; [reflexivity|].
  cbn [stepsAbove].
  assert (He : speed e <= g) by (apply Hall; left; reflexivity).
  destruct (Z.ltb_spec g (speed e)); [lia|].
  rewrite IH; [reflexivity| |intros; apply Hall; right; assumption].
  cbn [monotone] in Hm. destruct t; [reflexivity|].
  apply andb_prop in Hm. tauto.
Qed.

Lemma monotone_tail_le a t :
  monotone (a :: t) = true -> forall e, In e t -> speed e <= speed a.
Proof.
  revert a. induction t as [|b t IH]; intros a Hm e He; [destruct He|].
  cbn [monotone] in Hm. apply andb_prop in Hm. destruct Hm as [Hba Hm].
  apply Z.leb_le in Hba.
  destruct He as [->|He]; [assumption|].
  specialize (IH b Hm e He). lia.
Qed.

Lemma monotone_tail a t : monotone (a :: t) = true -> monotone t = true.
Proof.
  cbn [monotone]. destruct t; [reflexivity|].
  intros H. apply andb_prop in H. tauto.
Qed.

(** On a monotone table the scan of the source adds up exactly the
    entries whose period exceeds the goto speed. *)
Lemma stepsBefore_stepsAbove g t :
  monotone t = true -> stepsBefore g t = stepsAbove g t.
Proof.
  induction t as [|e t IH]; intros Hm; [reflexivity|].
  cbn [stepsBefore stepsAbove].
  destruct (Z.leb_spec (speed e) g) as [Hle|Hgt].
  - destruct (Z.ltb_spec g (speed e)); [lia|].
    rewrite stepsAbove_below; [reflexivity|eapply monotone_tail; eassumption|].
    intros e' He'. pose proof (monotone_tail_le _ _ Hm _ He'). lia.
  - destruct (Z.ltb_spec g (speed e)); [|lia].
    rewrite IH by (eapply monotone_tail; eassumption). lia.
Qed.

Lemma typed_table_length t :
  typed_table t = true -> length t = Z.to_nat AccelTableLength.
Proof.
  unfold typed_table. intros H. apply andb_prop in H. destruct H as [H _].
  apply Z.eqb_eq in H. lia.
Qed.

Lemma typed_table_entries t :
  typed_table t = true -> forallb typed_entry t = true.
Proof. unfold typed_table. intros H. apply andb_prop in H. tauto. Qed.

(** What [calculateDecelerationLength] stores. *)
Lemma calculateDecelerationLength_spec (m : Motor) :
  typed m = true ->
  gotoDecelerationLength (calculateDecelerationLength m)
  = stepsBefore (normalGotoSpeed m) (accelTable m)
  /\ 0 <= stepsBefore (normalGotoSpeed m) (accelTable m) <= 1536.
Proof.
  intros Ht. typed_facts Ht.
  pose proof (typed_table_length _ Ttable) as Hlen.
  pose proof (typed_table_entries _ Ttable) as Hent.
  unfold calculateDecelerationLength.
  cbn [gotoDecelerationLength set_gotoDecelerationLength].
  rewrite <- Hlen, firstn_all.
  rewrite u16_small by lia.
  pose proof (stepsBefore_bounds (normalGotoSpeed m) _ Hent) as Hb.
  assert (Hl : Z.of_nat (length (accelTable m)) = 6).
  { rewrite Hlen. reflexivity. }
  rewrite decelerationSteps_spec by (auto; lia).
  split; lia.
Qed.

(** ** The goto operation *)

(** What [motorStart] leaves alone, and the target it loads. *)
Lemma motorStart_frame (m : Motor) :
  jVal (motorStart m) = jVal m /\ HVal (motorStart m) = HVal m
  /\ gotoPosn (motorStart m) = gotoPosn m
  /\ gotoRunning (motorStart m) = gotoRunning m
  /\ gotoDecelerating (motorStart m) = gotoDecelerating m
  /\ dir (motorStart m) = dir m /\ stepDir (motorStart m) = stepDir m
  /\ highSpeedMode (motorStart m) = highSpeedMode m
  /\ GVal (motorStart m) = GVal m /\ gotoEn (motorStart m) = gotoEn m
  /\ readyToGo (motorStart m) = readyToGo m
  /\ modePin0 (motorStart m) = modePin0 m
  /\ modePin1 (motorStart m) = modePin1 m
  /\ modePin2 (motorStart m) = modePin2 m
  /\ currentIVal (motorStart m) = u16 (IVal m)
  /\ stopped (motorStart m) = false.
Proof.
  unfold motorStart, timerEnable, cmd_setStopped.
  destruct (stopped m) eqn:E; cbn; rewrite ?E; cbn; repeat split; auto.
Qed.

(** The planning arithmetic of [gotoMode], for any stored state. *)
Lemma gotoPlan_general (m : Motor) :
  typed m = true ->
  let mag := Z.abs (stepDir m) in
  let h := Z.max (HVal m) (2 * mag) in
  let p := gotoPlan m in
  plan_dirMagnitude p = mag
  /\ HVal (plan_motor p) = h
  /\ plan_HVal p = (if mag =? 8 then 8 * (h / 8) else h)
  /\ plan_halfHVal p = (if mag =? 8 then 8 * (h / 2 / 8) else h / 2)
  /\ 0 <= plan_decelerationLength p <= plan_halfHVal p
  /\ plan_halfHVal p <= plan_HVal p < 4294967296
  /\ jVal (plan_motor p) = jVal m /\ dir (plan_motor p) = dir m
  /\ normalGotoSpeed (plan_motor p) = normalGotoSpeed m
  /\ plan_decelerationLength p
     = Z.min (u16 ((if highSpeedMode m then u16 (gotoDecelerationLength m * 3)
                    else gotoDecelerationLength m) * mag))
         (plan_halfHVal p).
Proof.
  intros Ht mag h p. typed_facts Ht.
  assert (Hmb : 0 <= mag <= 128) by (unfold mag; lia).
  assert (Hmag : u8 (Z.abs (stepDir m)) = mag) by (apply u8_small; lia).
  assert (Hhd : h = Z.max (HVal m) (2 * mag)) by reflexivity.
  assert (Hh : 0 <= h < 4294967296) by lia.
  assert (Hm1 : HVal (if HVal m <? 2 * mag then cmd_setHVal (2 * mag) m else m) = h).
  { destruct (Z.ltb_spec (HVal m) (2 * mag)).
    - cbn [HVal cmd_setHVal set_HVal]. rewrite u32_small by lia. lia.
    - lia. }
  subst p. unfold gotoPlan. rewrite Hmag.
  cbn [plan_dirMagnitude plan_motor plan_HVal plan_halfHVal plan_decelerationLength].
  rewrite Hm1. rewrite Z.shiftr_div_pow2 by lia. change (2 ^ 1) with 2.
  assert (Hhalf : 0 <= h / 2 <= h).
  { split; [apply Z.div_pos; lia|]. apply Z.div_le_upper_bound; lia. }
  rewrite !mask_low3 by lia.
  set (half := if mag =? 8 then 8 * (h / 2 / 8) else h / 2).
  set (hm := if mag =? 8 then 8 * (h / 8) else h).
  assert (Hhalf' : 0 <= half <= hm /\ hm < 4294967296).
  { subst half hm. destruct (mag =? 8); [|lia].
    assert (h / 2 / 8 <= h / 8) by (apply Z.div_le_mono; lia).
    assert (0 <= h / 2 / 8) by (apply Z.div_pos; lia).
    assert (8 * (h / 8) <= h) by (apply Z.mul_div_le; lia).
    lia. }
  set (d := u16 (_ * mag)).
  assert (Hd : 0 <= d < 65536) by apply u16_range.
  repeat split; try tauto; try lia.
  - destruct (Z.ltb_spec half d); [rewrite u16_small|]; lia.
  - destruct (Z.ltb_spec half d); [rewrite u16_small|]; lia.
  - destruct (HVal m <? 2 * mag); reflexivity.
  - destruct (HVal m <? 2 * mag); reflexivity.
  - destruct (HVal m <? 2 * mag); reflexivity.
  - destruct (Z.ltb_spec half d); [rewrite u16_small|]; lia.
Qed.

(** The marker [gotoMode] stores, in terms of its plan. *)
Lemma gotoMode_gotoPosn (m : Motor) :
  typed m = true ->
  gotoPosn (gotoMode m)
  = u32 (jVal m + (if dir m
                   then - (plan_HVal (gotoPlan m) - plan_decelerationLength (gotoPlan m))
                   else plan_HVal (gotoPlan m) - plan_decelerationLength (gotoPlan m))).
Proof.
  intros Ht.
  destruct (gotoPlan_general m Ht) as (_ & _ & _ & _ & Hd & Hh & Hj & _).
  unfold gotoMode.
  destruct (motorStart_frame
    (set_gotoRunning true
       (set_gotoDecelerating false
          (cmd_setIVal (u16 (normalGotoSpeed (plan_motor (gotoPlan m))))
             (set_gotoPosn
                (u32 (jVal (plan_motor (gotoPlan m)) +
                   (if Bool.eqb (dir m) CMD_REVERSE
                    then u32 (- u32 (plan_HVal (gotoPlan m) - plan_decelerationLength (gotoPlan m)))
                    else u32 (plan_HVal (gotoPlan m) - plan_decelerationLength (gotoPlan m)))))
                (plan_motor (gotoPlan m)))))))
    as (_ & _ & Hp & _).
  cbv zeta. rewrite Hp. cbn [gotoPosn set_gotoRunning set_gotoDecelerating cmd_setIVal set_IVal set_gotoPosn].
  rewrite Hj. rewrite (u32_small (_ - _)) by lia.
  destruct (dir m); cbn [Bool.eqb CMD_REVERSE].
  - rewrite u32_add_opp. reflexivity.
  - reflexivity.
Qed.

(** C9.  A goto whose requested distance [HVal] is below [2 * |stepDir|]
    first raises [HVal] to exactly [2 * |stepDir|]; the raised value is the
    one the deceleration planning works on, so the distance every goto
    plans, and keeps in [HVal], is at least [2 * |stepDir|]: the marker is
    [jVal] plus or minus the planned distance less a deceleration length of
    at most half of it. *)
Theorem gotoMode_minimum_distance (m : Motor) :
  typed m = true ->
  let mag := Z.abs (stepDir m) in
  let p := gotoPlan m in
  (HVal m < 2 * mag ->
     HVal (plan_motor p) = 2 * mag /\ HVal (gotoMode m) = 2 * mag
     /\ plan_HVal p = 2 * mag)
  /\ 2 * mag <= HVal (gotoMode m)
  /\ 2 * mag <= plan_HVal p
  /\ 0 <= 2 * plan_decelerationLength p <= plan_HVal p
  /\ gotoPosn (gotoMode m)
     = u32 (jVal m + (if dir m
                      then - (plan_HVal p - plan_decelerationLength p)
                      else plan_HVal p - plan_decelerationLength p)).
Proof.
  intros Ht mag p. typed_facts Ht.
  destruct (gotoPlan_general m Ht)
    as (Hmag & Hraise & Hmask & Hhalf & Hd & Hh & _).
  fold mag in Hmag, Hraise, Hmask, Hhalf. fold p in Hmag, Hraise, Hmask, Hhalf, Hd, Hh.
  assert (Hmb : 0 <= mag <= 128) by (unfold mag; lia).
  assert (Hgoto : HVal (gotoMode m) = HVal (plan_motor p)).
  { unfold gotoMode. cbv zeta.
    match goal with |- HVal (motorStart ?x) = _ =>
      destruct (motorStart_frame x) as (_ & E & _); rewrite E end.
    reflexivity. }
  assert (Hplan : 2 * mag <= plan_HVal p).
  { rewrite Hmask. destruct (Z.eqb_spec mag 8) as [E|E]; [|lia].
    assert (2 <= Z.max (HVal m) (2 * mag) / 8)
      by (apply Z.div_le_lower_bound; lia).
    lia. }
  assert (Hdec : 2 * plan_decelerationLength p <= plan_HVal p).
  { rewrite Hmask. rewrite Hhalf in Hd.
    set (h := Z.max (HVal m) (2 * mag)) in *.
    assert (0 <= h) by (unfold h; lia).
    destruct (mag =? 8).
    - assert (8 * (h / 2 / 8) <= h / 2) by (apply Z.mul_div_le; lia).
      assert (2 * (8 * (h / 2 / 8)) <= 8 * (h / 8)).
      { rewrite Z.div_div by lia. change (2 * 8) with 16.
        assert (h / 16 * 2 <= h / 8).
        { apply Z.div_le_lower_bound; [lia|].
          assert (16 * (h / 16) <= h) by (apply Z.mul_div_le; lia). lia. }
        lia. }
      lia.
    - assert (2 * (h / 2) <= h) by (apply Z.mul_div_le; lia). lia. }
  split; [intros Hlt|].
  - assert (E : Z.max (HVal m) (2 * mag) = 2 * mag) by lia.
    rewrite Hgoto, Hraise, Hmask, E.
    repeat split; try reflexivity.
    destruct (Z.eqb_spec mag 8) as [E8|E8]; [|reflexivity].
    rewrite E8. reflexivity.
  - rewrite Hgoto, Hraise. repeat split; try lia.
    apply gotoMode_gotoPosn. assumption.
Qed.

(** C1, as the code has it.  For a goto called on an axis whose stored
    [gotoDecelerationLength] is the one [calculateDecelerationLength] gives
    for its monotone table and goto speed, with a step size of at most 8:
    the deceleration length is the sum of [repeats + 1] over the table
    entries whose speed exceeds [normalGotoSpeed], times 3 in high-speed
    mode, times the magnitude of [stepDir], clamped to half of [HVal]
    ([HVal] being first raised to twice the magnitude when smaller), where
    with magnitude 8 the half itself is rounded down to a multiple of 8; the
    marker [gotoPosn] is [jVal] plus or minus [HVal], its low three bits
    cleared with magnitude 8, less that length; the target period becomes
    [normalGotoSpeed], [gotoDecelerating] is cleared and [gotoRunning]
    set. *)
Theorem gotoMode_deceleration_plan (m : Motor) :
  typed m = true ->
  Z.abs (stepDir m) <= 8 ->
  monotone (accelTable m) = true ->
  gotoDecelerationLength m = gotoDecelerationLength (calculateDecelerationLength m) ->
  let mag := Z.abs (stepDir m) in
  let h := Z.max (HVal m) (2 * mag) in
  let hm := if mag =? 8 then 8 * (h / 8) else h in
  let half := if mag =? 8 then 8 * (h / 2 / 8) else h / 2 in
  let d :=
    Z.min (stepsAbove (normalGotoSpeed m) (accelTable m)
           * (if highSpeedMode m then 3 else 1) * mag) half in
  plan_decelerationLength (gotoPlan m) = d
  /\ gotoPosn (gotoMode m) = u32 (jVal m + (if dir m then - (hm - d) else hm - d))
  /\ currentIVal (gotoMode m) = normalGotoSpeed m
  /\ gotoDecelerating (gotoMode m) = false
  /\ gotoRunning (gotoMode m) = true.
Proof.
  intros Ht Hmag8 Hmono Hfresh mag h hm half d.
  pose proof Ht as Ht'. typed_facts Ht'.
  destruct (calculateDecelerationLength_spec m Ht) as (Hcalc & Hsum).
  rewrite stepsBefore_stepsAbove in Hcalc, Hsum by assumption.
  rewrite Hcalc in Hfresh.
  destruct (gotoPlan_general m Ht)
    as (_ & _ & Hmask & Hhalf & _ & _ & _ & _ & Hspeed & Hmin).
  fold mag in Hmask, Hhalf, Hmin. fold h in Hmask, Hhalf.
  fold hm in Hmask. fold half in Hhalf.
  set (total := stepsAbove (normalGotoSpeed m) (accelTable m)) in *.
  assert (Hmb : 0 <= mag <= 8) by (unfold mag; lia).
  assert (Hd : plan_decelerationLength (gotoPlan m) = d).
  { assert (Hprod : 0 <= total * mag <= 1536 * 8).
    { split; [apply Z.mul_nonneg_nonneg; lia|].
      apply Z.mul_le_mono_nonneg; lia. }
    rewrite Hmin, Hhalf, Hfresh. unfold d. f_equal.
    destruct (highSpeedMode m).
    - rewrite (u16_small (total * 3)) by lia.
      replace (total * 3 * mag) with (3 * (total * mag)) by ring.
      apply u16_small. lia.
    - replace (total * 1 * mag) with (total * mag) by ring.
      apply u16_small. lia. }
  split; [exact Hd|].
  split; [rewrite gotoMode_gotoPosn, Hmask, Hd by assumption; reflexivity|].
  unfold gotoMode. cbv zeta.
  match goal with |- context [motorStart ?x] =>
    destruct (motorStart_frame x)
      as (_ & _ & _ & Hrun & Hdec & _ & _ & _ & _ & _ & _ & _ & _ & _ & Hcur & _)
  end.
  rewrite Hrun, Hdec, Hcur.
  cbn [IVal gotoRunning gotoDecelerating set_gotoRunning set_gotoDecelerating
       cmd_setIVal set_IVal set_gotoPosn].
  rewrite Hspeed. rewrite !(u16_small (normalGotoSpeed m)) by lia.
  repeat split; reflexivity.
Qed.

Lemma gotoMode_deceleration_plan_witness :
  typed example_goto = true
  /\ Z.abs (stepDir example_goto) <= 8
  /\ monotone (accelTable example_goto) = true
  /\ gotoDecelerationLength example_goto
     = gotoDecelerationLength (calculateDecelerationLength example_goto)
  /\ plan_decelerationLength (gotoPlan example_goto) = 8
  /\ gotoPosn (gotoMode example_goto) = 8388608 + 16
  /\ currentIVal (gotoMode example_goto) = 16.
Proof.
  assert (H1 : typed example_goto = true) by reflexivity.
  assert (H2 : Z.abs (stepDir example_goto) <= 8) by (vm_compute; discriminate).
  assert (H3 : monotone (accelTable example_goto) = true) by reflexivity.
  assert (H4 : gotoDecelerationLength example_goto
               = gotoDecelerationLength (calculateDecelerationLength example_goto))
    by reflexivity.
  destruct (gotoMode_deceleration_plan example_goto H1 H2 H3 H4)
    as (A & B & C & _).
  repeat split; try assumption.
Defined.

(** The claim as worded fails on the clamp: with [HVal = 24] in high-speed
    mode the wording gives a deceleration length of 12 and a marker 12
    units ahead, the firmware 8 and 16. *)
Lemma gotoMode_clamp_counterexample :
  typed example_goto = true
  /\ monotone (accelTable example_goto) = true
  /\ spec_decelerationLength example_goto = 12
  /\ plan_decelerationLength (gotoPlan example_goto) = 8
  /\ spec_gotoTarget example_goto = 8388608 + 12
  /\ gotoPosn (gotoMode example_goto) = 8388608 + 16
  /\ gotoPosn (gotoMode example_goto) <> spec_gotoTarget example_goto.
Proof.
  repeat split; try reflexivity.
  vm_compute. discriminate.
Qed.

Lemma gotoMode_minimum_distance_witness :
  typed example_short_goto = true
  /\ HVal example_short_goto < 2 * Z.abs (stepDir example_short_goto)
  /\ HVal (gotoMode example_short_goto) = 2
  /\ plan_HVal (gotoPlan example_short_goto) = 2
  /\ gotoPosn (gotoMode example_short_goto) = 8388608 + 1.
Proof.
  assert (H1 : typed example_short_goto = true) by reflexivity.
  assert (H2 : HVal example_short_goto < 2 * Z.abs (stepDir example_short_goto))
    by reflexivity.
  destruct (gotoMode_minimum_distance example_short_goto H1) as (A & _ & _ & _ & E).
  destruct (A H2) as (_ & B & C).
  repeat split; assumption.
Defined.

(** ** The acceleration walk of the step engine *)

(** While repeats are left a starting pulse only counts one down. *)
Lemma risingEdge_dwell (m : Motor) :
  0 < accelTableRepeatsLeft m < 256 ->
  risingEdge m
  = set_accelTableRepeatsLeft (accelTableRepeatsLeft m - 1) (set_stepPin HIGH m).
Proof.
  intros H. unfold risingEdge, stepRising.
  cbn [accelTableRepeatsLeft set_stepPin].
  destruct (Z.eqb_spec (accelTableRepeatsLeft m) 0); [lia|].
  rewrite u8_small by lia. reflexivity.
Qed.

(** A speed adopted with [n] repeats left is kept over the next [n]
    starting pulses, which bring the count to zero. *)
Lemma risingEdge_hold (n : nat) : forall m : Motor,
  accelTableRepeatsLeft m = Z.of_nat n -> (n < 256)%nat ->
  forall k, (k <= n)%nat ->
  let m' := Nat.iter k risingEdge m in
  accelTableRepeatsLeft m' = Z.of_nat n - Z.of_nat k
  /\ currentMotorSpeed m' = currentMotorSpeed m
  /\ accelTableIndex m' = accelTableIndex m
  /\ currentIVal m' = currentIVal m
  /\ accelTable m' = accelTable m
  /\ highSpeedMode m' = highSpeedMode m.
Proof.
  intros m Hn Hlt k. induction k as [|k IH]; intros Hk m'.
  - subst m'. cbn [Nat.iter nat_rect]. repeat split; try reflexivity. lia.
  - subst m'.
    change (Nat.iter (S k) risingEdge m) with (risingEdge (Nat.iter k risingEdge m)).
    destruct IH as (Hr & Hs & Hi & Ht & Htab & Hhs); [lia|].
    rewrite risingEdge_dwell by lia.
    cbn [accelTableRepeatsLeft currentMotorSpeed accelTableIndex currentIVal
         accelTable highSpeedMode set_accelTableRepeatsLeft set_stepPin].
    repeat split; try assumption. lia.
Qed.

(** With no repeats left and the target faster than the current speed, the
    next starting pulse adopts the following entry and reloads its repeats
    count, unless the table ends or that entry would overshoot, in which
    case the speed becomes the target. *)
Lemma risingEdge_accelerate (m : Motor) :
  0 <= accelTableIndex m < 256 ->
  accelTableRepeatsLeft m = 0 ->
  currentIVal m < currentMotorSpeed m ->
  let i := accelTableIndex m in
  let m' := risingEdge m in
  (AccelTableLength - 1 <= i ->
     currentMotorSpeed m' = currentIVal m /\ accelTableIndex m' = i)
  /\ (i < AccelTableLength - 1 ->
      speed (accelEntry m (i + 1)) <= currentIVal m ->
      currentMotorSpeed m' = currentIVal m /\ accelTableIndex m' = i + 1)
  /\ (i < AccelTableLength - 1 ->
      currentIVal m < speed (accelEntry m (i + 1)) ->
      currentMotorSpeed m' = speed (accelEntry m (i + 1))
      /\ accelTableIndex m' = i + 1
      /\ accelTableRepeatsLeft m' = reloadRepeats m (i + 1)).
Proof.
  intros TaccelIndex Hr Hlt i m'.
  subst m'. unfold risingEdge, stepRising, AccelTableLength.
  cbn [accelTableRepeatsLeft currentIVal accelTableIndex set_stepPin].
  rewrite Hr. cbn [Z.eqb].
  destruct (Z.ltb_spec (currentIVal m) (currentMotorSpeed m)); [|lia].
  fold i.
  assert (Hentry : accelEntry (set_accelTableIndex (i + 1) (set_stepPin HIGH m)) (i + 1)
                   = accelEntry m (i + 1)) by reflexivity.
  split; [|split]; intros Hi; [| intros Hs | intros Hs];
    destruct (Z.leb_spec (6 - 1) i); try lia.
  - split; reflexivity.
  - rewrite u8_small by (unfold i; lia). rewrite Hentry.
    destruct (Z.leb_spec (speed (accelEntry m (i + 1))) (currentIVal m)); [|lia].
    split; reflexivity.
  - rewrite u8_small by (unfold i; lia). rewrite Hentry.
    destruct (Z.leb_spec (speed (accelEntry m (i + 1))) (currentIVal m)); [lia|].
    repeat split; reflexivity.
Qed.

(** Deceleration is the mirror image: the walk steps down the table, and
    snaps to the target at index 0 or when the entry below would be too
    slow. *)
Lemma risingEdge_decelerate (m : Motor) :
  0 <= accelTableIndex m < 256 ->
  accelTableRepeatsLeft m = 0 ->
  currentMotorSpeed m < currentIVal m ->
  let i := accelTableIndex m in
  let m' := risingEdge m in
  (i = 0 -> currentMotorSpeed m' = currentIVal m /\ accelTableIndex m' = 0)
  /\ (0 < i ->
      currentIVal m <= speed (accelEntry m (i - 1)) ->
      currentMotorSpeed m' = currentIVal m /\ accelTableIndex m' = i - 1)
  /\ (0 < i ->
      speed (accelEntry m (i - 1)) < currentIVal m ->
      currentMotorSpeed m' = speed (accelEntry m (i - 1))
      /\ accelTableIndex m' = i - 1
      /\ accelTableRepeatsLeft m' = reloadRepeats m (i - 1)).
Proof.
  intros TaccelIndex Hr Hlt i m'.
  subst m'. unfold risingEdge, stepRising.
  cbn [accelTableRepeatsLeft currentIVal accelTableIndex set_stepPin].
  rewrite Hr. cbn [Z.eqb].
  destruct (Z.ltb_spec (currentIVal m) (currentMotorSpeed m)); [lia|].
  destruct (Z.ltb_spec (currentMotorSpeed m) (currentIVal m)); [|lia].
  fold i.
  assert (Hentry : accelEntry (set_accelTableIndex (i - 1) (set_stepPin HIGH m)) (i - 1)
                   = accelEntry m (i - 1)) by reflexivity.
  split; [intros E; rewrite E; cbn [Z.eqb]; split; [reflexivity|assumption]|].
  split; intros Hi Hs; destruct (Z.eqb_spec i 0); try lia;
    rewrite u8_small by (unfold i; lia); rewrite Hentry.
  - destruct (Z.leb_spec (currentIVal m) (speed (accelEntry m (i - 1)))); [|lia].
    split; reflexivity.
  - destruct (Z.leb_spec (currentIVal m) (speed (accelEntry m (i - 1)))); [lia|].
    repeat split; reflexivity.
Qed.

(** The dwell of the acceleration walk: a speed adopted with [n] repeats
    left is in effect for the [n] starting pulses that count the repeats
    down, and the starting pulse after them adopts the next entry and
    reloads that entry's count.  Counting the pulse that adopted it, the
    engine stays on an entry for its reload value plus one pulses. *)
Lemma risingEdge_hold_then_adopt (n : nat) (m : Motor) :
  0 <= accelTableIndex m < AccelTableLength - 1 ->
  accelTableRepeatsLeft m = Z.of_nat n -> (n < 256)%nat ->
  currentIVal m < currentMotorSpeed m ->
  currentIVal m < speed (accelEntry m (accelTableIndex m + 1)) ->
  (forall k, (k <= n)%nat ->
     currentMotorSpeed (Nat.iter k risingEdge m) = currentMotorSpeed m
     /\ accelTableIndex (Nat.iter k risingEdge m) = accelTableIndex m)
  /\ currentMotorSpeed (Nat.iter (S n) risingEdge m)
     = speed (accelEntry m (accelTableIndex m + 1))
  /\ accelTableIndex (Nat.iter (S n) risingEdge m) = accelTableIndex m + 1
  /\ accelTableRepeatsLeft (Nat.iter (S n) risingEdge m)
     = reloadRepeats m (accelTableIndex m + 1).
Proof.
  intros Hi Hn Hlt Hslow Hnext.
  unfold AccelTableLength in Hi.
  split.
  - intros k Hk.
    destruct (risingEdge_hold n m Hn Hlt k Hk) as (_ & Hs & Hx & _).
    split; assumption.
  - change (Nat.iter (S n) risingEdge m) with (risingEdge (Nat.iter n risingEdge m)).
    destruct (risingEdge_hold n m Hn Hlt n (le_n n))
      as (Hr & Hs & Hx & Ht & Htab & Hhs).
    set (mn := Nat.iter n risingEdge m) in *.
    assert (Hr0 : accelTableRepeatsLeft mn = 0) by lia.
    assert (Hix : 0 <= accelTableIndex mn < 256) by lia.
    assert (Hsl : currentIVal mn < currentMotorSpeed mn) by lia.
    destruct (risingEdge_accelerate mn Hix Hr0 Hsl) as (_ & _ & Hadopt).
    assert (Hentry : accelEntry mn (accelTableIndex mn + 1)
                     = accelEntry m (accelTableIndex m + 1)).
    { unfold accelEntry. rewrite Htab, Hx. reflexivity. }
    rewrite Hentry in Hadopt.
    destruct Hadopt as (A & B & C); [unfold AccelTableLength; lia|lia|].
    rewrite A, B, C, Hx. repeat split.
    unfold reloadRepeats. rewrite Hhs.
    unfold accelEntry. rewrite Htab. reflexivity.
Qed.

(** At the target speed a starting pulse changes neither speed nor
    index. *)
Lemma risingEdge_cruise (m : Motor) :
  accelTableRepeatsLeft m = 0 ->
  currentMotorSpeed m = currentIVal m ->
  currentMotorSpeed (risingEdge m) = currentMotorSpeed m
  /\ accelTableIndex (risingEdge m) = accelTableIndex m.
Proof.
  intros Hr He. unfold risingEdge, stepRising.
  cbn [accelTableRepeatsLeft currentIVal accelTableIndex set_stepPin].
  rewrite Hr, He, Z.ltb_irrefl. cbn [Z.eqb]. split; reflexivity.
Qed.

(** The count the walk reloads: the table value in normal mode; in
    high-speed mode three times the table value plus two, cut to the eight
    bits of [accelTableRepeatsLeft]. *)
Lemma reloadRepeats_spec (m : Motor) (i : Z) :
  0 <= repeats (accelEntry m i) < 256 ->
  reloadRepeats m i
  = if highSpeedMode m then (3 * repeats (accelEntry m i) + 2) mod 256
    else repeats (accelEntry m i).
Proof.
  intros H. unfold reloadRepeats. destruct (highSpeedMode m).
  - unfold u8. f_equal. lia.
  - apply u8_small. assumption.
Qed.

(** C3, where the firmware departs from it.  In high-speed mode the
    reload is meant to be three times the table value plus two; the byte
    it is stored in cannot hold that for table values from 85 up.  On the
    example mount with 85 repeats on the second table entry, the first
    timer interrupt of a high-speed slew adopts that entry and reloads 1
    instead of [3 * 85 + 2 = 257]: its speed is kept for 2 pulses instead
    of 258. *)
Theorem highSpeed_reload_truncated :
  exists s,
    run example_header (example_fast_slew ++ [Ev_timer RA]) example_long_boot
    = Some s
    /\ highSpeedMode (ra s) = true
    /\ accelTableIndex (ra s) = 1
    /\ currentMotorSpeed (ra s) = speed (accelEntry (ra s) 1)
    /\ 3 * repeats (accelEntry (ra s) 1) + 2 = 257
    /\ accelTableRepeatsLeft (ra s) = 1.
Proof.
  eexists. split; [vm_compute; reflexivity|].
  repeat split.
Qed.

(** ** The [readyToGo] blocks of the run loop *)

Lemma land_1_odd (g : Z) : (Z.land g 1 =? 0) = negb (Z.odd g).
Proof.
  change 1 with (Z.ones 1) at 1. rewrite Z.land_ones by lia.
  change (2 ^ 1) with 2. rewrite Zmod_odd.
  destruct (Z.odd g); reflexivity.
Qed.

(** A stopped axis is armed by [motorStart]. *)
Lemma motorStart_arms (m : Motor) :
  timerIrqEnabled (motorStart m) = true
  /\ (stopped m = true -> timerClockOn (motorStart m) = true).
Proof.
  unfold motorStart, timerEnable, cmd_setStopped.
  destruct (stopped m) eqn:E; cbn; rewrite ?E; cbn; split; auto; discriminate.
Qed.

Lemma gotoMode_frame (m : Motor) :
  stopped (gotoMode m) = false
  /\ gotoRunning (gotoMode m) = true
  /\ highSpeedMode (gotoMode m) = highSpeedMode m
  /\ stepDir (gotoMode m) = stepDir m
  /\ timerIrqEnabled (gotoMode m) = true
  /\ (stopped m = true -> timerClockOn (gotoMode m) = true).
Proof.
  unfold gotoMode. cbv zeta.
  match goal with |- context [motorStart ?x] =>
    destruct (motorStart_frame x)
      as (_ & _ & _ & Hrun & _ & _ & Hsd & Hhs & _ & _ & _ & _ & _ & _ & _ & Hst);
    destruct (motorStart_arms x) as (Hirq & Hclk);
    assert (Hx : stopped x = stopped m /\ highSpeedMode x = highSpeedMode m
                 /\ stepDir x = stepDir m)
      by (unfold gotoPlan; destruct (HVal m <? 2 * u8 (Z.abs (stepDir m)));
          repeat split; reflexivity)
  end.
  destruct Hx as (Hx1 & Hx2 & Hx3).
  rewrite Hrun, Hsd, Hhs, Hst, Hirq, Hx2, Hx3.
  repeat split. intros Hs. apply Hclk. rewrite Hx1. assumption.
Qed.

Lemma cmd_updateStepDir_one (m : Motor) :
  Z.abs (stepDir (cmd_updateStepDir 1 m)) = 1
  /\ stepDir (cmd_updateStepDir 1 m) = (if dir m then -1 else 1).
Proof. unfold cmd_updateStepDir. destruct (dir m); split; reflexivity. Qed.

(** The mode selection keeps the axis as it is but for [stepDir],
    [highSpeedMode] and the mode pins. *)
Lemma main_selectSpeed_spec (s : State) (m : Motor) :
  let m1 := main_selectSpeed s m in
  stopped m1 = stopped m /\ gotoRunning m1 = gotoRunning m
  /\ (canJumpToHighspeed s = false \/ GVal m = 1 \/ GVal m = 2 ->
      highSpeedMode m1 = false /\ Z.abs (stepDir m1) = 1)
  /\ (canJumpToHighspeed s = true -> GVal m <> 1 -> GVal m <> 2 ->
      highSpeedMode m1 = true
      /\ stepDir m1 = s8 (if dir m then - u8 (gVal m) else u8 (gVal m))).
Proof.
  unfold main_selectSpeed, setModePins, cmd_updateStepDir.
  destruct (canJumpToHighspeed s);
    destruct (Z.eqb_spec (GVal m) 1); destruct (Z.eqb_spec (GVal m) 2);
    destruct (dir m); cbn [orb];
    (split; [reflexivity|split; [reflexivity|split]]);
    try (intros [?|[?|?]]; try discriminate; try contradiction);
    try (intros ? ? ?; try discriminate; try contradiction);
    split; reflexivity.
Qed.

(** The block, when it fires. *)
Lemma main_readyToGo_fires (axis : Axis) (s : State) :
  readyToGo (motor axis s) = 1 -> stopped (motor axis s) = true ->
  main_readyToGo axis s
  = set_motor axis
      (if Z.odd (GVal (motor axis s))
       then set_readyToGo 2 (motorStart (main_selectSpeed s (motor axis s)))
       else set_readyToGo 0 (gotoMode (main_selectSpeed s (motor axis s)))) s.
Proof.
  intros Hr Hs. unfold main_readyToGo, slewMode.
  destruct (Z.eqb_spec (readyToGo (motor axis s)) 1); [|contradiction].
  rewrite Hs, land_1_odd, negb_involutive. reflexivity.
Qed.

Lemma set_readyToGo_frame (v : Z) (m : Motor) :
  readyToGo (set_readyToGo v m) = v
  /\ stopped (set_readyToGo v m) = stopped m
  /\ timerIrqEnabled (set_readyToGo v m) = timerIrqEnabled m
  /\ timerClockOn (set_readyToGo v m) = timerClockOn m
  /\ gotoRunning (set_readyToGo v m) = gotoRunning m
  /\ highSpeedMode (set_readyToGo v m) = highSpeedMode m
  /\ stepDir (set_readyToGo v m) = stepDir m
  /\ currentIVal (set_readyToGo v m) = currentIVal m
  /\ IVal (set_readyToGo v m) = IVal m.
Proof. repeat split; reflexivity. Qed.

(** C4, as the code has it.  In a pass of the run loop that finds
    [readyToGo[axis] == 1] and the axis stopped: an odd [GVal] starts a slew
    and leaves [readyToGo] at 2, an even one starts a goto and leaves it at
    0; the axis runs in normal-speed mode ([stepDir] of magnitude 1,
    [highSpeedMode] false) when [GVal] is 1 or 2 or the configuration does
    not allow the gear change, and in high-speed mode ([stepDir] of
    magnitude [gVal], [highSpeedMode] true) for every other [GVal], 0
    included, when it does.  When the axis is not stopped, or [readyToGo]
    is not 1, the pass changes nothing. *)
Theorem main_readyToGo_dispatch (axis : Axis) (s : State) :
  let m := motor axis s in
  let m' := motor axis (main_readyToGo axis s) in
  (readyToGo m = 1 -> stopped m = true ->
     (Z.odd (GVal m) = true ->
        readyToGo m' = 2 /\ stopped m' = false
        /\ timerIrqEnabled m' = true /\ timerClockOn m' = true
        /\ gotoRunning m' = gotoRunning m)
     /\ (Z.odd (GVal m) = false ->
        readyToGo m' = 0 /\ stopped m' = false
        /\ timerIrqEnabled m' = true /\ timerClockOn m' = true
        /\ gotoRunning m' = true)
     /\ (canJumpToHighspeed s = false \/ GVal m = 1 \/ GVal m = 2 ->
        highSpeedMode m' = false /\ Z.abs (stepDir m') = 1)
     /\ (canJumpToHighspeed s = true -> GVal m <> 1 -> GVal m <> 2 ->
        highSpeedMode m' = true
        /\ stepDir m' = s8 (if dir m then - u8 (gVal m) else u8 (gVal m))))
  /\ (stopped m = false -> main_readyToGo axis s = s)
  /\ (readyToGo m <> 1 -> main_readyToGo axis s = s).
Proof.
  intros m m'. subst m' m.
  assert (Hget : forall x, motor axis (set_motor axis x s) = x)
    by (intros; destruct axis; reflexivity).
  split; [intros Hr Hs|split; [intros Hs|intros Hr]].
  - rewrite main_readyToGo_fires, Hget by assumption.
    destruct (main_selectSpeed_spec s (motor axis s)) as (Hm1s' & Hm1g & Hnorm & Hfast).
    assert (Hm1s : stopped (main_selectSpeed s (motor axis s)) = true) by congruence.
    destruct (motorStart_frame (main_selectSpeed s (motor axis s)))
      as (_ & _ & _ & Hrun & _ & _ & Hsd & Hhs & _ & _ & _ & _ & _ & _ & _ & Hst).
    destruct (motorStart_arms (main_selectSpeed s (motor axis s))) as (Hirq & Hclk).
    specialize (Hclk Hm1s).
    destruct (gotoMode_frame (main_selectSpeed s (motor axis s)))
      as (Gst & Grun & Ghs & Gsd & Girq & Gclk).
    specialize (Gclk Hm1s).
    destruct (set_readyToGo_frame 2 (motorStart (main_selectSpeed s (motor axis s))))
      as (S1 & S2 & S3 & S4 & S5 & S6 & S7 & _).
    destruct (set_readyToGo_frame 0 (gotoMode (main_selectSpeed s (motor axis s))))
      as (R1 & R2 & R3 & R4 & R5 & R6 & R7 & _).
    split; [|split; [|split]].
    + intros Ho. rewrite Ho, S1, S2, S3, S4, S5, Hst, Hirq, Hrun, Hm1g, Hclk.
      repeat split.
    + intros Ho. rewrite Ho, R1, R2, R3, R4, R5, Gst, Girq, Grun, Gclk.
      repeat split.
    + intros Hmode. destruct (Hnorm Hmode) as (Hh1 & Hs1).
      destruct (Z.odd (GVal (motor axis s)));
        rewrite ?S6, ?S7, ?R6, ?R7, ?Hhs, ?Hsd, ?Ghs, ?Gsd; split; assumption.
    + intros Hc Hn1 Hn2. destruct (Hfast Hc Hn1 Hn2) as (Hh1 & Hs1).
      destruct (Z.odd (GVal (motor axis s)));
        rewrite ?S6, ?S7, ?R6, ?R7, ?Hhs, ?Hsd, ?Ghs, ?Gsd; split; assumption.
  - unfold main_readyToGo. rewrite Hs.
    destruct (readyToGo (motor axis s) =? 1); reflexivity.
  - unfold main_readyToGo.
    destruct (Z.eqb_spec (readyToGo (motor axis s)) 1); [contradiction|reflexivity].
Qed.

Lemma main_readyToGo_dispatch_witness :
  exists s,
    run example_header example_mode0_goto example_boot = Some s
    /\ readyToGo (ra s) = 1 /\ stopped (ra s) = true
    /\ Z.odd (GVal (ra s)) = false
    /\ readyToGo (ra (main_readyToGo RA s)) = 0
    /\ gotoRunning (ra (main_readyToGo RA s)) = true
    /\ highSpeedMode (ra (main_readyToGo RA s)) = true.
Proof.
  eexists. split; [vm_compute; reflexivity|].
  match goal with |- readyToGo (ra ?s) = 1 /\ _ =>
    destruct (main_readyToGo_dispatch RA s) as (H & _)
  end.
  specialize (H eq_refl eq_refl).
  destruct H as (_ & Heven & _ & Hfast).
  destruct (Heven eq_refl) as (A & _ & _ & _ & B).
  destruct Hfast as (C & _); [reflexivity|discriminate|discriminate|].
  repeat split; assumption.
Defined.

(** Mode 0 is at most 2, yet with the gear change allowed it selects
    high-speed mode: after [:G100] and [:J1] the [readyToGo] block sets
    [highSpeedMode] and a [stepDir] of 8. *)
Lemma main_readyToGo_mode0_counterexample :
  exists s,
    run example_header example_mode0_goto example_boot = Some s
    /\ readyToGo (ra s) = 1 /\ stopped (ra s) = true
    /\ canJumpToHighspeed s = true
    /\ GVal (ra s) = 0 /\ GVal (ra s) <= 2
    /\ highSpeedMode (ra (main_readyToGo RA s)) = true
    /\ Z.abs (stepDir (ra (main_readyToGo RA s))) = 8
    /\ ~ (highSpeedMode (ra (main_readyToGo RA s)) = false
          /\ Z.abs (stepDir (ra (main_readyToGo RA s))) = 1).
Proof.
  eexists. split; [vm_compute; reflexivity|].
  repeat split; try reflexivity.
  - vm_compute. discriminate.
  - intros (H & _). vm_compute in H. discriminate.
Qed.

(** ** The command decoder *)

Lemma motor_set_motor (a : Axis) (x : Motor) (s : State) :
  motor a (set_motor a x s) = x.
Proof. destruct a; reflexivity. Qed.

Lemma motor_set_motor_other (a a' : Axis) (x : Motor) (s : State) :
  a' <> a -> motor a' (set_motor a x s) = motor a' s.
Proof. destruct a, a'; intros H; try reflexivity; contradiction H; reflexivity. Qed.

Lemma motor_set_motor_cases (a axis : Axis) (x : Motor) (s : State) :
  motor axis (set_motor a x s)
  = match a, axis with
    | RA, RA | DC, DC => x
    | _, _ => motor axis s
    end.
Proof. destruct a, axis; reflexivity. Qed.

Lemma typed_table_nth (t : list AccelTableStruct) (i : Z) :
  typed_table t = true -> 0 <= i < AccelTableLength ->
  0 <= speed (nth (Z.to_nat i) t (mkAccel 0 0)) < 65536
  /\ 0 <= repeats (nth (Z.to_nat i) t (mkAccel 0 0)) < 256.
Proof.
  intros Ht Hi.
  pose proof (typed_table_length _ Ht) as Hlen.
  pose proof (typed_table_entries _ Ht) as Hent.
  apply typed_entry_inv.
  rewrite forallb_forall in Hent. apply Hent. apply nth_In.
  rewrite Hlen. unfold AccelTableLength in *. lia.
Qed.

Lemma cmd_setIVal_frame (v : Z) (m : Motor) :
  IVal (cmd_setIVal v m) = u16 v
  /\ readyToGo (cmd_setIVal v m) = readyToGo m
  /\ currentIVal (cmd_setIVal v m) = currentIVal m
  /\ highSpeedMode (cmd_setIVal v m) = highSpeedMode m
  /\ stepDir (cmd_setIVal v m) = stepDir m
  /\ dir (cmd_setIVal v m) = dir m
  /\ GVal (cmd_setIVal v m) = GVal m
  /\ modePin0 (cmd_setIVal v m) = modePin0 m
  /\ modePin1 (cmd_setIVal v m) = modePin1 m
  /\ modePin2 (cmd_setIVal v m) = modePin2 m
  /\ stopped (cmd_setIVal v m) = stopped m.
Proof. repeat split; reflexivity. Qed.

Lemma motorStart_IVal (m : Motor) : IVal (motorStart m) = IVal m.
Proof.
  unfold motorStart, timerEnable, cmd_setStopped.
  destruct (stopped m) eqn:E; cbn; rewrite ?E; reflexivity.
Qed.

(** What the [I] case of the decoder computes. *)
Lemma decodeCommand_I_eq (hdr : Header) (axis : Axis) (s : State) (v : Z) :
  decodeCommand hdr (Cmd_I v) axis s
  = Some (mkDecoded
      (set_motor axis
         (let m := motor axis s in
          let fastest := speed (accelEntry m (AccelTableLength - 1)) in
          let m1 := cmd_setIVal (if v <? fastest then fastest else v) m in
          if readyToGo m1 =? 2 then motorStart m1 else set_readyToGo 0 m1) s)
      true 0 true).
Proof. reflexivity. Qed.

(** C6, as the code has it.  An [I] command stores as requested period
    the payload, raised to the speed value of the last entry of the
    acceleration table (the fastest one) when below it.  With
    [readyToGo[axis] == 2] the axis goes through [motorStart], which makes
    the new period the engine's target at once and touches neither
    [readyToGo] nor the mode ([highSpeedMode], [stepDir], direction, [GVal],
    mode pins); otherwise only the requested period changes and
    [readyToGo[axis]] is reset to 0.  The other axis is untouched. *)
Theorem decodeCommand_I_target (hdr : Header) (axis : Axis) (s : State) (v : Z) :
  0 <= v < 65536 ->
  typed (motor axis s) = true ->
  let m := motor axis s in
  let target := Z.max v (speed (accelEntry m (AccelTableLength - 1))) in
  exists d,
    decodeCommand hdr (Cmd_I v) axis s = Some d
    /\ dec_ok d = true
    /\ IVal (motor axis (dec_state d)) = target
    /\ (readyToGo m = 2 ->
        motor axis (dec_state d) = motorStart (cmd_setIVal target m)
        /\ currentIVal (motor axis (dec_state d)) = target
        /\ readyToGo (motor axis (dec_state d)) = 2
        /\ highSpeedMode (motor axis (dec_state d)) = highSpeedMode m
        /\ stepDir (motor axis (dec_state d)) = stepDir m
        /\ dir (motor axis (dec_state d)) = dir m
        /\ GVal (motor axis (dec_state d)) = GVal m
        /\ modePin0 (motor axis (dec_state d)) = modePin0 m
        /\ modePin1 (motor axis (dec_state d)) = modePin1 m
        /\ modePin2 (motor axis (dec_state d)) = modePin2 m)
    /\ (readyToGo m <> 2 ->
        motor axis (dec_state d) = set_readyToGo 0 (cmd_setIVal target m)
        /\ readyToGo (motor axis (dec_state d)) = 0
        /\ currentIVal (motor axis (dec_state d)) = currentIVal m
        /\ stopped (motor axis (dec_state d)) = stopped m)
    /\ (forall a, a <> axis -> motor a (dec_state d) = motor a s).
Proof.
  intros Hv Ht m target. pose proof Ht as Ht'. typed_facts Ht'.
  destruct (typed_table_nth _ (AccelTableLength - 1) Ttable) as (Hfast & _);
    [unfold AccelTableLength; lia|].
  fold (accelEntry (motor axis s) (AccelTableLength - 1)) in Hfast. fold m in Hfast.
  assert (Hclamp : (if v <? speed (accelEntry m (AccelTableLength - 1))
                    then speed (accelEntry m (AccelTableLength - 1)) else v) = target).
  { unfold target.
    destruct (Z.ltb_spec v (speed (accelEntry m (AccelTableLength - 1)))); lia. }
  assert (Htarget : u16 target = target) by (apply u16_small; unfold target; lia).
  destruct (cmd_setIVal_frame target m)
    as (C1 & C2 & C3 & C4 & C5 & C6 & C7 & C8 & C9 & C10 & C11).
  rewrite Htarget in C1.
  destruct (motorStart_frame (cmd_setIVal target m))
    as (_ & _ & _ & _ & _ & M6 & M7 & M8 & M9 & _ & M11 & M12 & M13 & M14 & M15 & _).
  pose proof (motorStart_IVal (cmd_setIVal target m)) as MI.
  destruct (set_readyToGo_frame 0 (cmd_setIVal target m))
    as (R1 & R2 & _ & _ & _ & _ & _ & R8 & R9).
  eexists. split; [apply decodeCommand_I_eq|].
  cbv zeta. fold m. rewrite Hclamp.
  cbn [dec_ok dec_state]. rewrite motor_set_motor, C2.
  split; [reflexivity|].
  split.
  { destruct (readyToGo m =? 2); [rewrite MI|rewrite R9]; exact C1. }
  split; [|split].
  - intros Hr. rewrite Hr. cbn [Z.eqb Pos.eqb].
    rewrite M6, M7, M8, M9, M11, M12, M13, M14, M15.
    rewrite C1, C2, C4, C5, C6, C7, C8, C9, C10, Htarget.
    repeat split; assumption.
  - intros Hr. destruct (Z.eqb_spec (readyToGo m) 2); [contradiction|].
    rewrite R1, R2, R8, C11, C3. repeat split.
  - intros a Ha. apply motor_set_motor_other. assumption.
Qed.

Lemma decodeCommand_I_target_witness :
  0 <= 50 < 65536
  /\ typed (motor RA example_boot) = true
  /\ exists d,
       decodeCommand example_header (Cmd_I 50) RA example_boot = Some d
       /\ IVal (ra (dec_state d)) = 50
       /\ readyToGo (ra (dec_state d)) = 0.
Proof.
  assert (H1 : 0 <= 50 < 65536) by lia.
  assert (H2 : typed (motor RA example_boot) = true) by reflexivity.
  destruct (decodeCommand_I_target example_header RA example_boot 50 H1 H2)
    as (d & E & _ & A & _ & B & _).
  split; [exact H1|]. split; [exact H2|].
  exists d. split; [exact E|]. split; [exact A|].
  destruct B as (_ & B & _); [vm_compute; discriminate|exact B].
Defined.

(** The payload 50 is stored as it is, below the period 640 of the slowest
    table entry: the clamp is against the fastest entry (period 20). *)
Lemma decodeCommand_I_slowest_counterexample :
  exists d,
    decodeCommand example_header (Cmd_I 50) RA example_boot = Some d
    /\ speed (accelEntry (ra example_boot) 0) = 640
    /\ spec_clampedIVal (ra example_boot) 50 = 640
    /\ IVal (ra (dec_state d)) = 50
    /\ IVal (ra (dec_state d)) <> spec_clampedIVal (ra example_boot) 50.
Proof.
  eexists. split; [vm_compute; reflexivity|].
  repeat split. vm_compute. discriminate.
Qed.

(** What the [Y] case of the decoder does with any index: it is stored
    before it is checked. *)
Lemma decodeCommand_Y_stores (hdr : Header) (axis : Axis) (s : State) (b : Z) :
  exists d,
    decodeCommand hdr (Cmd_Y b) axis s = Some d
    /\ accelTableIndex (motor axis (dec_state d)) = u8 b
    /\ dec_ok d = (u8 b <? AccelTableLength).
Proof.
  unfold decodeCommand, decodeSwitch.
  cbn [accelTableIndex set_accelTableIndex].
  destruct (Z.leb_spec AccelTableLength (u8 b)) as [H|H]; eexists;
    (split; [reflexivity|]); cbn [dec_state dec_ok];
    rewrite motor_set_motor; split; try reflexivity.
  - destruct (Z.ltb_spec (u8 b) AccelTableLength); [lia|reflexivity].
  - destruct (Z.ltb_spec (u8 b) AccelTableLength); [reflexivity|lia].
Qed.

(** C8, where the firmware departs from it.  A [Y] command with index 6 on
    the booted example mount is answered with an error packet, but
    [accelTableIndex[RA]], 0 before, is left at 6, beyond the table; an [X]
    command that follows writes through that index. *)
Theorem decodeCommand_Y_out_of_range :
  exists d,
    decodeCommand example_header (Cmd_Y 6) RA example_boot = Some d
    /\ dec_ok d = false
    /\ accelTableIndex (ra example_boot) = 0
    /\ accelTableIndex (ra (dec_state d)) = 6
    /\ AccelTableLength <= accelTableIndex (ra (dec_state d))
    /\ decodeCommand example_header (Cmd_X 0) RA (dec_state d) = None.
Proof.
  eexists. split; [vm_compute; reflexivity|].
  repeat split. vm_compute. discriminate.
Qed.

(** ** The ST4 handler *)




Lemma st4_setRASpeed_running (dir' : bool) (stepDir' newSpeed : Z) (m : Motor) :
  let m' := st4_setRASpeed false dir' stepDir' newSpeed m in
  currentIVal m' = u16 newSpeed
  /\ stopSpeed m' = Z.max (stopSpeed m) (u16 newSpeed)
  /\ dir m' = dir m /\ stepDir m' = stepDir m /\ GVal m' = GVal m
  /\ stopped m' = stopped m /\ IVal m' = IVal m /\ jVal m' = jVal m.
Proof.
  unfold st4_setRASpeed. cbn [stopSpeed currentIVal set_currentIVal].
  destruct (Z.ltb_spec (stopSpeed m) (u16 newSpeed)); cbn; repeat split; lia.
Qed.

Lemma st4_setRASpeed_stopped (dir' : bool) (stepDir' newSpeed : Z) (m : Motor) :
  let m' := st4_setRASpeed true dir' stepDir' newSpeed m in
  dir m' = dir' /\ stepDir m' = s8 stepDir' /\ GVal m' = 1
  /\ stopped m' = false /\ timerIrqEnabled m' = true
  /\ (stopped m = true -> timerClockOn m' = true).
Proof.
  unfold st4_setRASpeed.
  match goal with |- context [motorStart ?x] =>
    destruct (motorStart_frame x)
      as (_ & _ & _ & _ & _ & M6 & M7 & _ & M9 & _ & _ & _ & _ & _ & _ & M16);
    destruct (motorStart_arms x) as (A1 & A2)
  end.
  cbv zeta. rewrite M6, M7, M9, M16, A1. repeat split. exact A2.
Qed.

Lemma ra_st4_DEC (pins : ST4Pins) (s : State) : ra (st4_DEC pins s) = ra s.
Proof.
  unfold st4_DEC, st4_setDECSpeed.
  destruct (pinDCN pins), (pinDCP pins); reflexivity.
Qed.

Lemma st4_RA_frame (pins : ST4Pins) (s : State) :
  dc (st4_RA pins s) = dc s.
Proof.
  unfold st4_RA.
  destruct (dir (ra s) && negb _), (pinRAN pins), (st4RAReverse s), (pinRAP pins);
    reflexivity.
Qed.

(** C10, as the code has it.  For a pin change delivered while no goto is
    enabled, the RA block works on the flag "stopped": RA stopped or
    [st4RAReverse] set.  With the flag clear and neither RA button pressed,
    or RA moving in reverse, the target [currentIVal[RA]] becomes
    [siderealIVal[RA]], [stopSpeed[RA]] is raised to it when lower, and the
    direction, [stepDir] and [GVal] of the moving axis stay as they are (in
    reverse the axis goes on in reverse).  With the flag set and neither RA
    button pressed, the handler sets the forward direction, [stepDir] 1 and
    slew mode and starts RA through [motorStart].  With neither DC button
    pressed, [currentIVal[DC]] becomes [stopSpeed[DC] + 1], nothing else of
    DC changing, for a [stopSpeed[DC]] below 65535. *)
Theorem PCINT0_vect_released (pins : ST4Pins) (s : State) :
  gotoEn (ra s) = false -> gotoEn (dc s) = false ->
  typed (ra s) = true -> typed (dc s) = true ->
  let s' := PCINT0_vect pins s in
  let stopped' := stopped (ra s) || st4RAReverse s in
  (stopped' = false ->
   dir (ra s) = true \/ (pinRAN pins = true /\ pinRAP pins = true) ->
     currentIVal (ra s') = siderealIVal (ra s)
     /\ stopSpeed (ra s') = Z.max (stopSpeed (ra s)) (siderealIVal (ra s))
     /\ dir (ra s') = dir (ra s) /\ stepDir (ra s') = stepDir (ra s)
     /\ GVal (ra s') = GVal (ra s) /\ stopped (ra s') = false)
  /\ (stopped' = true -> pinRAN pins = true -> pinRAP pins = true ->
     dir (ra s') = CMD_FORWARD /\ stepDir (ra s') = 1 /\ GVal (ra s') = 1
     /\ stopped (ra s') = false /\ timerIrqEnabled (ra s') = true)
  /\ (pinDCN pins = true -> pinDCP pins = true -> stopSpeed (dc s) < 65535 ->
     dc s' = set_currentIVal (stopSpeed (dc s) + 1) (dc s)).
Proof.
  intros Hra Hdc Tra Tdc s' stopped'.
  assert (Hs' : s' = st4_DEC pins (st4_RA pins s)).
  { unfold s', PCINT0_vect. rewrite Hra, Hdc. reflexivity. }
  rewrite Hs'. rewrite ra_st4_DEC.
  pose proof Tra as Tra'. typed_facts Tra'.
  assert (Hsid : u16 (siderealIVal (ra s)) = siderealIVal (ra s))
    by (apply u16_small; lia).
  split; [|split].
  - intros Hst Hcase.
    assert (E : ra (st4_RA pins s)
                = st4_setRASpeed false CMD_FORWARD 1 (siderealIVal (ra s)) (ra s)).
    { unfold st4_RA. fold stopped'. unfold Bool.eqb, CMD_STOPPED, CMD_REVERSE.
      assert (Hst2 : (if stopped (ra s) then true else false)
                     || (if st4RAReverse s then true else false) = false).
      { unfold stopped' in Hst. destruct (stopped (ra s)), (st4RAReverse s);
          try discriminate; reflexivity. }
      rewrite Hst2.
      destruct Hcase as [Hd|(Hn & Hp)].
      - rewrite Hd. reflexivity.
      - rewrite Hn, Hp. destruct (dir (ra s)); reflexivity. }
    rewrite E.
    destruct (st4_setRASpeed_running CMD_FORWARD 1 (siderealIVal (ra s)) (ra s))
      as (A1 & A2 & A3 & A4 & A5 & A6 & _).
    rewrite A1, A2, A3, A4, A5, A6, Hsid.
    unfold stopped' in Hst. apply orb_false_elim in Hst.
    repeat split. tauto.
  - intros Hst Hn Hp.
    assert (E : ra (st4_RA pins s)
                = st4_setRASpeed true CMD_FORWARD 1 (siderealIVal (ra s)) (ra s)).
    { unfold st4_RA. unfold Bool.eqb, CMD_STOPPED, CMD_REVERSE.
      assert (Hst2 : (if stopped (ra s) then true else false)
                     || (if st4RAReverse s then true else false) = true).
      { unfold stopped' in Hst. destruct (stopped (ra s)), (st4RAReverse s);
          try discriminate; reflexivity. }
      rewrite Hst2, Hn, Hp, andb_false_r. reflexivity. }
    rewrite E.
    destruct (st4_setRASpeed_stopped CMD_FORWARD 1 (siderealIVal (ra s)) (ra s))
      as (B1 & B2 & B3 & B4 & B5 & _).
    rewrite B1, B2, B3, B4, B5. repeat split.
  - intros Hn Hp Hlt.
    destruct (typed_inv _ Tdc) as (_ & _ & _ & _ & _ & _ & _ & _ & _ & _ & Tss & _).
    unfold st4_DEC. rewrite Hn, Hp. cbn [negb].
    rewrite st4_RA_frame. rewrite u16_small by lia. reflexivity.
Qed.

Lemma PCINT0_vect_released_witness :
  exists s,
    run example_header example_reverse_slew example_boot = Some s
    /\ gotoEn (ra s) = false /\ gotoEn (dc s) = false
    /\ typed (ra s) = true /\ typed (dc s) = true
    /\ stopped (ra s) || st4RAReverse s = false
    /\ dir (ra s) = true
    /\ currentIVal (ra (PCINT0_vect st4_released s)) = 1000
    /\ dir (ra (PCINT0_vect st4_released s)) = true
    /\ dc (PCINT0_vect st4_released s) = set_currentIVal 641 (dc s).
Proof.
  eexists. split; [vm_compute; reflexivity|].
  match goal with |- gotoEn (ra ?s) = false /\ _ =>
    assert (H1 : gotoEn (ra s) = false) by reflexivity;
    assert (H2 : gotoEn (dc s) = false) by reflexivity;
    assert (H3 : typed (ra s) = true) by reflexivity;
    assert (H4 : typed (dc s) = true) by reflexivity;
    assert (H5 : stopped (ra s) || st4RAReverse s = false) by reflexivity;
    assert (H6 : dir (ra s) = true) by reflexivity;
    destruct (PCINT0_vect_released st4_released s H1 H2 H3 H4) as (A & _ & B)
  end.
  destruct (A H5 (or_introl H6)) as (A1 & _ & A3 & _).
  pose proof (B eq_refl eq_refl eq_refl) as B1.
  repeat split; assumption.
Defined.

(** With RA slewing in reverse and the reverse guide direction disabled,
    releasing the buttons sets the target to the sidereal period but leaves
    the direction reverse: the handler assigns direction, [stepDir] and
    mode only under its flag "stopped". *)
Lemma PCINT0_vect_reverse_counterexample :
  exists s,
    run example_header example_reverse_slew example_boot = Some s
    /\ gotoEn (ra s) = false /\ gotoEn (dc s) = false
    /\ stopped (ra s) = false /\ st4RAReverse s = false
    /\ dir (ra s) = CMD_REVERSE
    /\ currentIVal (ra (PCINT0_vect st4_released s)) = siderealIVal (ra s)
    /\ dir (ra (PCINT0_vect st4_released s)) = CMD_REVERSE
    /\ dir (ra (PCINT0_vect st4_released s)) <> CMD_FORWARD.
Proof.
  eexists. split; [vm_compute; reflexivity|].
  repeat split. vm_compute. discriminate.
Qed.

(** ** Where the engine is disarmed *)

(** Decides the conditions of a goal or hypothesis one by one. *)
Ltac split_ifs :=
  repeat match goal with
         | |- context [if ?c then _ else _] => destruct c eqn:?
         | H : context [if ?c then _ else _] |- _ => destruct c eqn:?
         end.

(** The capture interrupt stops a running axis only on the tick that
    completes a pulse with the current speed slower than the stop speed,
    and then switches the timer off. *)
Lemma TIMER_CAPT_vect_disarms (m : Motor) :
  stopped m = false ->
  stopped (TIMER_CAPT_vect m) = true ->
  u16 (irqToNextStep m - 1) = 0 /\ stepPin m = HIGH
  /\ stopSpeed m < currentMotorSpeed m
  /\ timerIrqEnabled (TIMER_CAPT_vect m) = false
  /\ timerClockOn (TIMER_CAPT_vect m) = false.
Proof.
  intros Hrun. unfold TIMER_CAPT_vect.
  destruct (Z.eqb_spec (u16 (irqToNextStep m - 1)) 0) as [Hirq|Hirq];
    [|cbn; congruence].
  cbn [stepPin set_irqToNextStep set_distributionSegment set_interruptOVFCount
       currentMotorSpeed].
  destruct (stepPin m) eqn:Hpin.
  - unfold stepFalling, timerDisable, cmd_setStopped, cmd_setGotoEn.
    cbn [stopSpeed gotoRunning gotoDecelerating gotoPosn jVal stepDir
         set_stepPin set_jVal set_irqToNextStep set_distributionSegment
         set_interruptOVFCount set_gotoDecelerating set_currentIVal
         set_accelTableRepeatsLeft].
    destruct (gotoRunning m) eqn:Hg; destruct (gotoDecelerating m) eqn:Hd;
      cbn [andb negb];
      try destruct (gotoPosn m =? u32 (jVal m + stepDir m)) eqn:Hp;
      cbn [stopSpeed gotoRunning set_gotoDecelerating set_currentIVal
           set_accelTableRepeatsLeft set_stepPin set_jVal set_irqToNextStep
           set_distributionSegment set_interruptOVFCount];
      rewrite ?Hg;
      destruct (Z.ltb_spec (stopSpeed m) (currentMotorSpeed m));
      cbn; intros; repeat split; congruence.
  - unfold stepRising, reloadRepeats.
    cbn [accelTableRepeatsLeft currentIVal accelTableIndex highSpeedMode
         set_stepPin set_irqToNextStep set_distributionSegment
         set_interruptOVFCount set_accelTableIndex].
    split_ifs; cbn; congruence.
Qed.

Lemma motorStop_effect (emergency : bool) (m : Motor) :
  (emergency = true ->
     stopped (motorStop emergency m) = true
     /\ timerIrqEnabled (motorStop emergency m) = false
     /\ timerClockOn (motorStop emergency m) = false)
  /\ (emergency = false -> stopped (motorStop emergency m) = stopped m).
Proof.
  unfold motorStop, timerDisable, cmd_setStopped, cmd_setGotoEn, cmd_setGVal.
  split; intros ->.
  - repeat split.
  - destruct (stopped m) eqn:E; cbn [negb]; [exact E|].
    cbn [currentIVal minSpeed stopSpeed set_timerIrqEnabled set_GVal
         set_gotoRunning set_gotoEn].
    split_ifs; exact E.
Qed.

Lemma st4_setRASpeed_keeps_running (b dir' : bool) (stepDir' newSpeed : Z)
    (m : Motor) :
  stopped m = false ->
  stopped (st4_setRASpeed b dir' stepDir' newSpeed m) = false.
Proof.
  intros H. destruct b.
  - apply (st4_setRASpeed_stopped dir' stepDir' newSpeed m).
  - destruct (st4_setRASpeed_running dir' stepDir' newSpeed m)
      as (_ & _ & _ & _ & _ & E & _).
    rewrite E. exact H.
Qed.

(** The pin change interrupt stops no axis. *)
Lemma PCINT0_vect_keeps_running (pins : ST4Pins) (s : State) (axis : Axis) :
  stopped (motor axis s) = false ->
  stopped (motor axis (PCINT0_vect pins s)) = false.
Proof.
  intros H. unfold PCINT0_vect.
  destruct (negb (gotoEn (ra s)) && negb (gotoEn (dc s))); [|exact H].
  destruct axis; cbn [motor] in *.
  - rewrite ra_st4_DEC. unfold st4_RA.
    destruct (dir (ra s) && negb _), (pinRAN pins),
      (Bool.eqb (st4RAReverse s) CMD_REVERSE), (pinRAP pins);
      cbn [negb ra set_ra]; apply st4_setRASpeed_keeps_running; exact H.
  - unfold st4_DEC, st4_setDECSpeed. rewrite !st4_RA_frame.
    destruct (pinDCN pins), (pinDCP pins); cbn [negb dc set_dc];
      try exact H;
      match goal with |- stopped (motorStart ?x) = false =>
        apply (motorStart_frame x)
      end.
Qed.

Lemma motor_on_motor (a axis : Axis) (f : Motor -> Motor) (s : State) :
  motor axis (on_motor a f s)
  = match a, axis with
    | RA, RA | DC, DC => f (motor axis s)
    | _, _ => motor axis s
    end.
Proof. destruct a, axis; reflexivity. Qed.

(** The [readyToGo] block stops no axis. *)
Lemma main_readyToGo_keeps_running (a axis : Axis) (s : State) :
  stopped (motor axis s) = false ->
  stopped (motor axis (main_readyToGo a s)) = false.
Proof.
  intros H. unfold main_readyToGo.
  destruct (readyToGo (motor a s) =? 1); [|exact H].
  destruct (stopped (motor a s)) eqn:Es; [|exact H].
  destruct a, axis; cbn [motor set_motor ra dc set_ra set_dc] in *;
    try congruence; exact H.
Qed.

(** Loading a set of guide speeds touches no axis. *)
Lemma Commands_configureST4Speed_motor (hdr : Header) (mode : ST4SpeedMode)
    (s : State) (axis : Axis) :
  motor axis (Commands_configureST4Speed hdr mode s) = motor axis s.
Proof.
  unfold Commands_configureST4Speed.
  destruct (st4Speeds hdr mode (ra s) (dc s)) as [[[a b] c] d].
  destruct axis; reflexivity.
Qed.

Lemma main_basicSpeed_motor (hdr : Header) (speedPin : bool) (s : State)
    (axis : Axis) :
  motor axis (main_basicSpeed hdr speedPin s) = motor axis s.
Proof.
  unfold main_basicSpeed.
  destruct speedPin, (hcFastSpeed s); cbn [negb]; try reflexivity;
    (etransitivity; [|apply Commands_configureST4Speed_motor]);
    destruct axis; reflexivity.
Qed.

Lemma on_motor_keeps_stopped (a axis : Axis) (f : Motor -> Motor) (s : State) :
  keeps_stopped f ->
  stopped (motor axis (on_motor a f s)) = stopped (motor axis s).
Proof.
  intros Hf. rewrite motor_on_motor.
  destruct a, axis; try reflexivity; apply Hf.
Qed.

(** Proves [keeps_stopped] for a chain of field updates. *)
Ltac field_updates := intros ?; reflexivity.

Lemma keeps_stopped_K : keeps_stopped (fun m => set_readyToGo 0 (motorStop false m)).
Proof.
  intros m. destruct (set_readyToGo_frame 0 (motorStop false m)) as (_ & E & _).
  rewrite E. apply (motorStop_effect false m). reflexivity.
Qed.

Lemma keeps_stopped_advance : keeps_stopped advanceAccelTableIndex.
Proof.
  intros m. unfold advanceAccelTableIndex.
  destruct (AccelTableLength <=? u8 (accelTableIndex m + 1)); reflexivity.
Qed.

(** The [I] case never stops an axis: it leaves the flag or clears it. *)
Lemma Cmd_I_keeps_running (v : Z) (m : Motor) :
  stopped m = false ->
  stopped (if readyToGo (cmd_setIVal v m) =? 2 then motorStart (cmd_setIVal v m)
           else set_readyToGo 0 (cmd_setIVal v m)) = false.
Proof.
  intros H. destruct (readyToGo (cmd_setIVal v m) =? 2).
  - apply (motorStart_frame (cmd_setIVal v m)).
  - destruct (set_readyToGo_frame 0 (cmd_setIVal v m)) as (_ & E & _).
    rewrite E. exact H.
Qed.

Lemma configureTimer_motor (s : State) (axis : Axis) :
  motor axis (configureTimer s)
  = set_timerClockOn false (set_timerIrqEnabled false (motor axis s)).
Proof. destruct axis; reflexivity. Qed.

Lemma motorEnable_stopped (a axis : Axis) (s : State) :
  stopped (motor axis (motorEnable a s)) = stopped (motor axis s).
Proof.
  unfold motorEnable. rewrite configureTimer_motor.
  transitivity (stopped (motor axis
    (on_motor a (fun m => cmd_setFVal CMD_ENABLED (set_enablePin LOW m)) s))).
  - generalize (motor axis
      (on_motor a (fun m => cmd_setFVal CMD_ENABLED (set_enablePin LOW m)) s)).
    intros m. reflexivity.
  - apply on_motor_keeps_stopped. field_updates.
Qed.

Lemma motorDisable_motor (a axis : Axis) (s : State) :
  stopped (motor axis (motorDisable a s)) = stopped (motor axis s)
  /\ timerIrqEnabled (motor axis (motorDisable a s)) = timerIrqEnabled (motor axis s)
  /\ timerClockOn (motor axis (motorDisable a s)) = timerClockOn (motor axis s).
Proof.
  unfold motorDisable. rewrite motor_on_motor.
  destruct a, axis; repeat split; try reflexivity.
Qed.

(** Field updates that leave the engine's arming alone. *)
Lemma on_motor_engine (a axis : Axis) (f : Motor -> Motor) (s : State) :
  (forall m, timerIrqEnabled (f m) = timerIrqEnabled m
             /\ timerClockOn (f m) = timerClockOn m) ->
  timerIrqEnabled (motor axis (on_motor a f s)) = timerIrqEnabled (motor axis s)
  /\ timerClockOn (motor axis (on_motor a f s)) = timerClockOn (motor axis s).
Proof.
  intros Hf. rewrite motor_on_motor.
  destruct a, axis; try (split; reflexivity); apply Hf.
Qed.

(** An emergency stop of one axis, seen from either axis. *)
Lemma emergency_on_motor (a axis : Axis) (s : State) :
  (a = axis ->
     timerIrqEnabled (motor axis (on_motor a (motorStop true) s)) = false
     /\ timerClockOn (motor axis (on_motor a (motorStop true) s)) = false)
  /\ (a <> axis ->
      motor axis (on_motor a (motorStop true) s) = motor axis s).
Proof.
  rewrite motor_on_motor.
  destruct (motorStop_effect true (motor axis s)) as (E & _).
  destruct (E eq_refl) as (_ & E1 & E2).
  split.
  - intros ->. destruct axis; split; assumption.
  - intros Hne. destruct a, axis; try reflexivity; contradiction Hne; reflexivity.
Qed.

Lemma Some_state {A B C : Type} (a a' : A) (b b' : B) (c c' : C) :
  Some (a, b, c) = Some (a', b', c') -> a' = a.
Proof. congruence. Qed.

(** Replaces the resulting state by the term the decoder computed. *)
Ltac take_state H := apply Some_state in H; subst.

(** Closes a case of the decoder in which the axes keep their [stopped]
    flags: the command updates fields of one axis through [on_motor]. *)
Ltac kept_by_on_motor Hstop :=
  exfalso; rewrite on_motor_keeps_stopped in Hstop by field_updates; congruence.

(** The same for a command that writes shared globals only. *)
Ltac kept_by_shared Hstop :=
  exfalso;
  match type of Hstop with
  | stopped (motor ?axis ?t) = true =>
      match goal with
      | Hrun : stopped (motor axis ?s) = false |- _ =>
          let E := fresh "E" in
          assert (E : motor axis t = motor axis s)
            by (generalize s; intros ?; destruct axis; reflexivity);
          rewrite E in Hstop; congruence
      end
  end.

(** Among the commands only [L] on the axis and [O] with a non-zero mode
    stop a running axis, and they switch its timer off. *)
Lemma decodeSwitch_disarms (hdr : Header) (c : Command) (a axis : Axis)
    (s s1 : State) (r : Z) (ok : bool) :
  decodeSwitch hdr c a s = Some (s1, r, ok) ->
  stopped (motor axis s) = false ->
  stopped (motor axis s1) = true ->
  emergencyStop (Ev_command c a) axis s
  /\ timerIrqEnabled (motor axis s1) = false
  /\ timerClockOn (motor axis s1) = false.
Proof.
  intros H Hrun Hstop.
  destruct c; unfold decodeSwitch in H; cbv beta iota zeta in H.
  - (* e *) take_state H. congruence.
  - (* a *) take_state H. congruence.
  - (* b *) split_ifs; try discriminate; take_state H; congruence.
  - (* g *) take_state H. congruence.
  - (* s *) take_state H. congruence.
  - (* f *) take_state H. congruence.
  - (* j *) take_state H. congruence.
  - (* K *) take_state H. exfalso.
    rewrite on_motor_keeps_stopped in Hstop by apply keeps_stopped_K.
    congruence.
  - (* L *) take_state H. cbn [emergencyStop].
    destruct (motorDisable_motor a axis (on_motor a (motorStop true) s))
      as (D1 & D2 & D3).
    rewrite D1 in Hstop. rewrite D2, D3.
    destruct (emergency_on_motor a axis s) as (Eq & Ene).
    destruct a, axis;
      try (rewrite Ene in Hstop by discriminate; congruence);
      (split; [reflexivity|exact (Eq eq_refl)]).
  - (* G *) take_state H. kept_by_on_motor Hstop.
  - (* H *) take_state H. kept_by_on_motor Hstop.
  - (* I *) take_state H. exfalso.
    rewrite motor_set_motor_cases in Hstop.
    destruct a, axis; try congruence;
      rewrite Cmd_I_keeps_running in Hstop by assumption; discriminate.
  - (* E *) take_state H. kept_by_on_motor Hstop.
  - (* F *) destruct (progMode s =? 0); take_state H; exfalso;
      [rewrite motorEnable_stopped in Hstop|]; congruence.
  - (* A *) take_state H. kept_by_on_motor Hstop.
  - (* B *) take_state H. kept_by_on_motor Hstop.
  - (* S *) take_state H. kept_by_on_motor Hstop.
  - (* n *) take_state H. congruence.
  - (* N *) take_state H. kept_by_on_motor Hstop.
  - (* d *) take_state H. congruence.
  - (* D *) destruct a; take_state H; kept_by_shared Hstop.
  - (* z *) take_state H. congruence.
  - (* Z *) take_state H. kept_by_on_motor Hstop.
  - (* c *) take_state H. congruence.
  - (* C *) take_state H. kept_by_on_motor Hstop.
  - (* q *) take_state H. congruence.
  - (* Q *) destruct a; take_state H; kept_by_shared Hstop.
  - (* x *) destruct (accelTableIndex (motor a s) <? AccelTableLength);
      [|discriminate].
    take_state H. exfalso.
    rewrite on_motor_keeps_stopped in Hstop by apply keeps_stopped_advance.
    congruence.
  - (* X *) destruct (accelTableIndex (motor a s) <? AccelTableLength);
      [|discriminate].
    take_state H. exfalso.
    rewrite motor_set_motor_cases in Hstop.
    destruct a, axis; try congruence;
      rewrite keeps_stopped_advance in Hstop;
      cbn [stopped set_accelTable motor] in *; congruence.
  - (* Y *) destruct (AccelTableLength <=? _); take_state H; exfalso;
      rewrite motor_set_motor_cases in Hstop;
      destruct a, axis; cbn [stopped set_accelTableIndex motor] in *; congruence.
  - (* O *) cbn [emergencyStop].
    destruct (Z.eqb_spec (progMode (set_progMode (u8 (buffer0 - char0)) s)) 0)
      as [E|E]; cbn [negb] in H; take_state H.
    + kept_by_shared Hstop.
    + split; [exact E|].
      match goal with
      | |- context [on_motor DC (set_readyToGo 0) ?S] =>
          destruct (on_motor_engine DC axis (set_readyToGo 0) S) as (A1 & A2);
          [intros; split; reflexivity|]; rewrite A1, A2; clear A1 A2
      end.
      match goal with
      | |- context [on_motor RA (set_readyToGo 0) ?S] =>
          destruct (on_motor_engine RA axis (set_readyToGo 0) S) as (A1 & A2);
          [intros; split; reflexivity|]; rewrite A1, A2; clear A1 A2
      end.
      destruct (motorDisable_motor DC axis
                  (on_motor DC (motorStop true)
                     (motorDisable RA
                        (on_motor RA (motorStop true)
                           (set_progMode (u8 (buffer0 - char0)) s)))))
        as (_ & D2 & D3).
      rewrite D2, D3.
      destruct (emergency_on_motor DC axis
                  (motorDisable RA
                     (on_motor RA (motorStop true)
                        (set_progMode (u8 (buffer0 - char0)) s))))
        as (Eq & Ene).
      destruct axis; [|exact (Eq eq_refl)].
      rewrite Ene by discriminate.
      destruct (motorDisable_motor RA RA
                  (on_motor RA (motorStop true)
                     (set_progMode (u8 (buffer0 - char0)) s)))
        as (_ & D4 & D5).
      rewrite D4, D5.
      destruct (emergency_on_motor RA RA (set_progMode (u8 (buffer0 - char0)) s))
        as (Eq2 & _).
      exact (Eq2 eq_refl).
  - (* T *) unfold buildEEPROM, storeEEPROM in H.
    split_ifs; take_state H; first [congruence|kept_by_shared Hstop].
  - (* J *) take_state H. congruence.
  - (* R *) take_state H. congruence.
  - (* other *) take_state H. congruence.
Qed.

Lemma motor_set_wdtArmed (b : bool) (s : State) (axis : Axis) :
  motor axis (set_wdtArmed b s) = motor axis s.
Proof. destruct axis; reflexivity. Qed.

(** The decoder as a whole: the handling of [J] and [R] after the switch
    stops nothing. *)
Lemma decodeCommand_disarms (hdr : Header) (c : Command) (a axis : Axis)
    (s : State) (d : Decoded) :
  decodeCommand hdr c a s = Some d ->
  stopped (motor axis s) = false ->
  stopped (motor axis (dec_state d)) = true ->
  emergencyStop (Ev_command c a) axis s
  /\ timerIrqEnabled (motor axis (dec_state d)) = false
  /\ timerClockOn (motor axis (dec_state d)) = false.
Proof.
  intros H Hrun Hstop. unfold decodeCommand in H.
  destruct (decodeSwitch hdr c a s) as [[[s1 r] ok]|] eqn:Hsw; [|discriminate].
  assert (Hother : stopped (motor axis s1) = true ->
                   emergencyStop (Ev_command c a) axis s
                   /\ timerIrqEnabled (motor axis s1) = false
                   /\ timerClockOn (motor axis s1) = false)
    by (apply (decodeSwitch_disarms hdr c a axis s s1 r ok); assumption).
  destruct c; try (injection H as <-; cbn [dec_state] in *; auto; fail).
  (* J: the only case left *)
  unfold decodeSwitch in Hsw. apply Some_state in Hsw. subst s1.
  exfalso.
    assert (E : stopped (motor axis (dec_state d)) = stopped (motor axis s)).
    { destruct (progMode s =? 0); injection H as <-; cbn [dec_state];
        [|reflexivity].
      rewrite motor_set_motor_cases.
      destruct a, axis; try reflexivity;
        match goal with
        | |- context [if ?c then _ else _] => destruct c
        end; reflexivity. }
    congruence.
Qed.

Lemma motorEnable_engine (a axis : Axis) (s : State) :
  timerIrqEnabled (motor axis (motorEnable a s)) = false
  /\ timerClockOn (motor axis (motorEnable a s)) = false.
Proof.
  unfold motorEnable. rewrite configureTimer_motor.
  generalize (motor axis
    (on_motor a (fun m => cmd_setFVal CMD_ENABLED (set_enablePin LOW m)) s)).
  intros m. split; reflexivity.
Qed.

Lemma emergency_both (axis : Axis) (s : State) :
  timerIrqEnabled
    (motor axis (on_motor DC (motorStop true) (on_motor RA (motorStop true) s)))
  = false
  /\ timerClockOn
       (motor axis (on_motor DC (motorStop true) (on_motor RA (motorStop true) s)))
     = false.
Proof.
  destruct (emergency_on_motor DC axis (on_motor RA (motorStop true) s))
    as (Eq & Ene).
  destruct axis; [|exact (Eq eq_refl)].
  rewrite Ene by discriminate.
  apply (emergency_on_motor RA RA s). reflexivity.
Qed.

(** Rewrites the engine flags of an axis through one [on_motor] whose
    function only updates other fields. *)
Ltac through_on_motor :=
  match goal with
  | |- context [motor ?axis (on_motor ?a ?f ?S)] =>
      let A1 := fresh "A" in
      let A2 := fresh "A" in
      destruct (on_motor_engine a axis f S) as (A1 & A2);
      [intros; split; reflexivity|]; rewrite A1, A2; clear A1 A2
  end.

(** Entering standalone mode leaves both timers off. *)
Lemma main_enterStandalone_engine (hdr : Header) (mode : HCMode) (s : State)
    (axis : Axis) :
  mode <> EQMOD_MODE ->
  timerIrqEnabled (motor axis (main_enterStandalone hdr mode s)) = false
  /\ timerClockOn (motor axis (main_enterStandalone hdr mode s)) = false.
Proof.
  intros Hmode. unfold main_enterStandalone.
  destruct mode; [contradiction Hmode; reflexivity| |]; cbv zeta.
  - (* basic hand controller *)
    do 5 through_on_motor.
    apply motorEnable_engine.
  - (* advanced hand controller *)
    match goal with
    | |- context [motor axis (set_spiEnabled ?b1 (set_st4IrqEnabled ?b2
                    (set_syntaMode ?b3 (set_standaloneMode ?b4
                       (set_serialEnabled ?b5 ?S)))))] =>
        assert (E : motor axis (set_spiEnabled b1 (set_st4IrqEnabled b2
                      (set_syntaMode b3 (set_standaloneMode b4
                         (set_serialEnabled b5 S)))))
                    = motor axis S)
          by (generalize S; intros ?; destruct axis; reflexivity)
    end.
    rewrite E. do 2 through_on_motor.
    apply emergency_both.
Qed.

Lemma standaloneModeTest_motor (irqPulledLow irqPulledHigh : bool) (s : State)
    (axis : Axis) :
  motor axis (snd (standaloneModeTest irqPulledLow irqPulledHigh s))
  = motor axis s.
Proof.
  unfold standaloneModeTest.
  destruct (allowAdvancedHCDetection s), irqPulledLow, irqPulledHigh, axis;
    reflexivity.
Qed.

(** C5, as the code has it.  In every step of every execution, if an axis
    that was running is stopped afterwards, then its timer is disabled
    (capture interrupt masked, clock off) and the step is either the timer
    tick of that axis that completes a step pulse (step pin high, the
    interrupt countdown expiring) with [currentSpeed > stopSpeed], or an
    emergency stop: an [L] command for the axis, an [O] command that enters
    a programming mode, or the entry into standalone mode after the
    hand-controller probe.  No other transition (graceful stop, another
    command, the run loop's [readyToGo] blocks, the ST4 handler, the other
    axis' timer) disarms the engine. *)
Theorem disarmed_only_by_slow_pulse_or_emergency (hdr : Header) (ev : Event)
    (s s' : State) (axis : Axis) :
  step hdr ev s = Some s' ->
  stopped (motor axis s) = false ->
  stopped (motor axis s') = true ->
  (timerIrqEnabled (motor axis s') = false
   /\ timerClockOn (motor axis s') = false)
  /\ (slowPulseCompletion ev axis s \/ emergencyStop ev axis s).
Proof.
  intros Hstep Hrun Hstop. unfold step in Hstep.
  destruct (wdtArmed s); [discriminate|].
  destruct ev as [a|pins|lo hi|c a|pin|a].
  - (* timer tick *)
    destruct (timerIrqEnabled (motor a s) && timerClockOn (motor a s));
      [|discriminate].
    injection Hstep as <-.
    rewrite motor_on_motor in *.
    destruct a, axis; try congruence;
      match type of Hstop with
      | stopped (TIMER_CAPT_vect ?m) = true =>
          destruct (TIMER_CAPT_vect_disarms m Hrun Hstop)
            as (H1 & H2 & H3 & H4 & H5)
      end;
      (split; [split; assumption|]); left; unfold slowPulseCompletion;
      repeat split; assumption.
  - (* ST4 pin change *)
    destruct (st4IrqEnabled s); [|discriminate].
    injection Hstep as <-.
    rewrite PCINT0_vect_keeps_running in Hstop by assumption. discriminate.
  - (* probe of the hand-controller line *)
    destruct (standaloneMode s); [discriminate|].
    injection Hstep as <-.
    destruct (fst (standaloneModeTest lo hi s)) eqn:Emode.
    + exfalso. unfold main_enterStandalone in Hstop.
      rewrite standaloneModeTest_motor in Hstop. congruence.
    + split; [apply main_enterStandalone_engine; discriminate|].
      right. cbn [emergencyStop]. rewrite Emode. discriminate.
    + split; [apply main_enterStandalone_engine; discriminate|].
      right. cbn [emergencyStop]. rewrite Emode. discriminate.
  - (* command *)
    destruct (syntaMode s); [|discriminate].
    destruct (decodeCommand hdr c a s) as [d|] eqn:Hd; [|discriminate].
    injection Hstep as <-.
    destruct (decodeCommand_disarms hdr c a axis s d Hd Hrun Hstop)
      as (H1 & H2 & H3).
    split; [split; assumption|right; assumption].
  - (* basic hand controller speed switch *)
    destruct (syntaMode s); [discriminate|].
    injection Hstep as <-.
    rewrite main_basicSpeed_motor in Hstop. congruence.
  - (* readyToGo block *)
    injection Hstep as <-.
    rewrite main_readyToGo_keeps_running in Hstop by assumption. discriminate.
Qed.

Lemma disarmed_only_by_slow_pulse_or_emergency_witness :
  exists s s',
    run example_header (firstn 1929 example_requeued_goto) example_boot = Some s
    /\ step example_header (Ev_timer DC) s = Some s'
    /\ stopped (motor DC s) = false
    /\ stopped (motor DC s') = true
    /\ (timerIrqEnabled (motor DC s') = false
        /\ timerClockOn (motor DC s') = false)
    /\ (slowPulseCompletion (Ev_timer DC) DC s
        \/ emergencyStop (Ev_timer DC) DC s).
Proof.
  eexists. eexists.
  split; [vm_compute; reflexivity|].
  split; [vm_compute; reflexivity|].
  match goal with |- stopped (motor DC ?s) = false /\ stopped (motor DC ?s') = true /\ _ =>
    assert (H1 : step example_header (Ev_timer DC) s = Some s')
      by (vm_compute; reflexivity);
    assert (H2 : stopped (motor DC s) = false) by reflexivity;
    assert (H3 : stopped (motor DC s') = true) by reflexivity;
    pose proof (disarmed_only_by_slow_pulse_or_emergency
                  example_header (Ev_timer DC) s s' DC H1 H2 H3) as H
  end.
  split; [reflexivity|]. split; [reflexivity|]. exact H.
Defined.

(** An [L] command is not a timer tick, and it disarms a running axis: RA
    slews in reverse at period 100, no pulse is under way, and the command
    sets [stopped] and switches the timer off at once. *)
Lemma emergency_stop_counterexample :
  exists s s',
    run example_header example_reverse_slew example_boot = Some s
    /\ step example_header (Ev_command Cmd_L RA) s = Some s'
    /\ stopped (motor RA s) = false
    /\ timerIrqEnabled (motor RA s) = true
    /\ timerClockOn (motor RA s) = true
    /\ stopped (motor RA s') = true
    /\ timerIrqEnabled (motor RA s') = false
    /\ timerClockOn (motor RA s') = false
    /\ ~ slowPulseCompletion (Ev_command Cmd_L RA) RA s.
Proof.
  eexists. eexists.
  split; [vm_compute; reflexivity|].
  split; [vm_compute; reflexivity|].
  repeat split.
  intros (E & _). discriminate E.
Qed.

(** * The rate table *)





















(** In the clamped range the increment of a period that was clamped to
    65535 wraps to zero: with divisor 122 (quotient 65573, 25 extra ticks)
    25 of the 32 periods are 0. *)
Lemma rateTable_clamped_wraps :
  rateTable false 122
  = Some [0; 65535; 0; 0; 0; 65535; 0; 0; 0; 0; 65535; 0; 0; 0; 65535; 0; 0;
          0; 0; 65535; 0; 0; 0; 65535; 0; 0; 0; 0; 65535; 0; 0; 0].
Proof. vm_compute. reflexivity. Qed.

(** * Further properties *)

(** ** The step engine, tick by tick *)

(** Reduces the projections of field updates. *)
Ltac motor_fields :=
  cbn [jVal IVal currentIVal HVal GVal FVal dir stepDir gotoEn stopped
       highSpeedMode eVal aVal bVal gVal sVal siderealIVal normalGotoSpeed
       minSpeed stopSpeed accelTable readyToGo gotoPosn encodeDirection
       timerOVF gotoDecelerationLength accelTableRepeatsLeft
       accelTableIndex distributionSegment currentMotorSpeed irqToNextStep
       interruptOVFCount timerCountRegister timerIrqEnabled timerClockOn
       gotoRunning gotoDecelerating stepPin dirPin enablePin modePin0
       modePin1 modePin2 set_jVal set_IVal set_currentIVal set_HVal
       set_GVal set_FVal set_dir set_stepDir set_gotoEn set_stopped
       set_highSpeedMode set_aVal set_bVal set_sVal set_siderealIVal
       set_normalGotoSpeed set_stopSpeed set_accelTable set_readyToGo
       set_gotoPosn set_encodeDirection set_timerOVF
       set_gotoDecelerationLength set_accelTableRepeatsLeft
       set_accelTableIndex set_distributionSegment set_currentMotorSpeed
       set_irqToNextStep set_interruptOVFCount set_timerCountRegister
       set_timerIrqEnabled set_timerClockOn set_gotoRunning
       set_gotoDecelerating set_stepPin set_dirPin set_enablePin
       set_modePin0 set_modePin1 set_modePin2
       andb orb negb].

(** What the pulse-completing branch leaves alone. *)
Lemma stepFalling_frame (m : Motor) (c : Z) :
  jVal (stepFalling m c) = u32 (jVal m + stepDir m)
  /\ stepPin (stepFalling m c) = LOW
  /\ stepDir (stepFalling m c) = stepDir m
  /\ accelTableIndex (stepFalling m c) = accelTableIndex m
  /\ interruptOVFCount (stepFalling m c) = interruptOVFCount m
  /\ distributionSegment (stepFalling m c) = distributionSegment m
  /\ irqToNextStep (stepFalling m c) = irqToNextStep m
  /\ currentMotorSpeed (stepFalling m c) = currentMotorSpeed m
  /\ readyToGo (stepFalling m c) = readyToGo m
  /\ stopSpeed (stepFalling m c) = stopSpeed m.
Proof.
  unfold stepFalling, timerDisable, cmd_setStopped, cmd_setGotoEn. cbv zeta.
  destruct (gotoRunning (set_jVal (u32 (jVal (set_stepPin LOW m)
                                         + stepDir (set_stepPin LOW m)))
                           (set_stepPin LOW m))
            && negb (gotoDecelerating
                       (set_jVal (u32 (jVal (set_stepPin LOW m)
                                       + stepDir (set_stepPin LOW m)))
                          (set_stepPin LOW m))));
    [destruct (gotoPosn _ =? _)|];
    (destruct (stopSpeed _ <? c); [destruct (gotoRunning _)|]);
    repeat split.
Qed.

(** What the pulse-starting branch leaves alone. *)
Lemma stepRising_frame (m : Motor) (c : Z) :
  jVal (stepRising m c) = jVal m
  /\ stepPin (stepRising m c) = HIGH
  /\ stepDir (stepRising m c) = stepDir m
  /\ interruptOVFCount (stepRising m c) = interruptOVFCount m
  /\ distributionSegment (stepRising m c) = distributionSegment m
  /\ irqToNextStep (stepRising m c) = irqToNextStep m
  /\ currentIVal (stepRising m c) = currentIVal m
  /\ stopped (stepRising m c) = stopped m
  /\ timerIrqEnabled (stepRising m c) = timerIrqEnabled m
  /\ timerClockOn (stepRising m c) = timerClockOn m
  /\ gotoRunning (stepRising m c) = gotoRunning m
  /\ gotoDecelerating (stepRising m c) = gotoDecelerating m
  /\ gotoEn (stepRising m c) = gotoEn m
  /\ readyToGo (stepRising m c) = readyToGo m
  /\ stopSpeed (stepRising m c) = stopSpeed m.
Proof.
  unfold stepRising. cbv zeta.
  repeat match goal with
         | |- context [if ?b then _ else _] => destruct b
         end;
    repeat split.
Qed.

Lemma TIMER_CAPT_vect_expired (m : Motor) :
  u16 (irqToNextStep m - 1) = 0 ->
  TIMER_CAPT_vect m
  = if stepPin m then stepFalling (afterReload m) (currentMotorSpeed m)
    else stepRising (afterReload m) (currentMotorSpeed m).
Proof.
  intros E. unfold TIMER_CAPT_vect. rewrite E. reflexivity.
Qed.

Lemma TIMER_CAPT_vect_waiting (m : Motor) :
  u16 (irqToNextStep m - 1) <> 0 ->
  TIMER_CAPT_vect m = set_irqToNextStep (u16 (irqToNextStep m - 1)) m.
Proof.
  intros E. unfold TIMER_CAPT_vect.
  destruct (Z.eqb_spec (u16 (irqToNextStep m - 1)) 0); [contradiction|reflexivity].
Qed.

(** X1.  The pulse train.  The step pin toggles exactly on the interrupts
    at which the countdown [irqToNextStep] expires; the position [jVal]
    changes only on those of them that complete a pulse (pin high before),
    by [stepDir] modulo 2^32; the countdown is reloaded with the speed that
    was in the speed register when the interrupt began, and otherwise
    counts down by one. *)
Theorem TIMER_CAPT_vect_pulse_train (m : Motor) :
  let expired := u16 (irqToNextStep m - 1) =? 0 in
  stepPin (TIMER_CAPT_vect m) = (if expired then negb (stepPin m) else stepPin m)
  /\ jVal (TIMER_CAPT_vect m)
     = (if expired && stepPin m then u32 (jVal m + stepDir m) else jVal m)
  /\ stepDir (TIMER_CAPT_vect m) = stepDir m
  /\ irqToNextStep (TIMER_CAPT_vect m)
     = (if expired then currentMotorSpeed m else u16 (irqToNextStep m - 1)).
Proof.
  intros expired. unfold expired.
  destruct (Z.eqb_spec (u16 (irqToNextStep m - 1)) 0) as [E|E].
  - rewrite (TIMER_CAPT_vect_expired m E).
    destruct (stepPin m) eqn:Hpin; cbn [negb andb].
    + destruct (stepFalling_frame (afterReload m) (currentMotorSpeed m))
        as (A1 & A2 & A3 & _ & _ & _ & A7 & _).
      rewrite A1, A2, A3, A7. repeat split.
    + destruct (stepRising_frame (afterReload m) (currentMotorSpeed m))
        as (A1 & A2 & A3 & _ & _ & A6 & _).
      rewrite A1, A2, A3, A6. repeat split.
  - rewrite (TIMER_CAPT_vect_waiting m E). repeat split.
Qed.

Lemma slot_of_segment (t : Z) :
  0 <= t < 256 ->
  Z.land (Z.shiftl (DecimalDistnWidth - 1) 1) t / 2 = (t / 2) mod 32.
Proof.
  intros H.
  assert (A : forallb
                (fun n => Z.land (Z.shiftl (DecimalDistnWidth - 1) 1) (Z.of_nat n) / 2
                          =? (Z.of_nat n / 2) mod 32)
                (seq 0 256) = true) by (vm_compute; reflexivity).
  rewrite forallb_forall in A.
  specialize (A (Z.to_nat t)). rewrite Z2Nat.id in A by lia.
  apply Z.eqb_eq, A, in_seq. lia.
Qed.

(** X2.  The dithered period.  On every interrupt at which the countdown
    expires the timer period is reloaded from slot [(segment / 2) mod 32]
    of the rate table and the segment counter advances by one modulo 256:
    each of the 32 slots serves the two halves of one step, and the table
    is walked cyclically.  Between expiries neither changes. *)
Theorem TIMER_CAPT_vect_period_slot (m : Motor) :
  0 <= distributionSegment m < 256 ->
  let m' := TIMER_CAPT_vect m in
  (u16 (irqToNextStep m - 1) = 0 ->
     interruptOVFCount m' = timerOVF_at m ((distributionSegment m / 2) mod 32)
     /\ distributionSegment m' = (distributionSegment m + 1) mod 256)
  /\ (u16 (irqToNextStep m - 1) <> 0 ->
      interruptOVFCount m' = interruptOVFCount m
      /\ distributionSegment m' = distributionSegment m).
Proof.
  intros Hseg m'. unfold m'. split; intros E.
  - rewrite (TIMER_CAPT_vect_expired m E).
    rewrite <- (slot_of_segment _ Hseg).
    destruct (stepPin m).
    + destruct (stepFalling_frame (afterReload m) (currentMotorSpeed m))
        as (_ & _ & _ & _ & A5 & A6 & _).
      rewrite A5, A6. split; reflexivity.
    + destruct (stepRising_frame (afterReload m) (currentMotorSpeed m))
        as (_ & _ & _ & A4 & A5 & _).
      rewrite A4, A5. split; reflexivity.
  - rewrite (TIMER_CAPT_vect_waiting m E). split; reflexivity.
Qed.

Lemma TIMER_CAPT_vect_period_slot_witness :
  0 <= distributionSegment example_started < 256
  /\ u16 (irqToNextStep example_started - 1) = 0
  /\ interruptOVFCount (TIMER_CAPT_vect example_started) = 200
  /\ distributionSegment (TIMER_CAPT_vect example_started) = 1.
Proof.
  assert (H : 0 <= distributionSegment example_started < 256)
    by (vm_compute; split; [discriminate|reflexivity]).
  assert (E : u16 (irqToNextStep example_started - 1) = 0) by reflexivity.
  destruct (TIMER_CAPT_vect_period_slot example_started H) as (A & _).
  destruct (A E) as (A1 & A2).
  split; [exact H|]. split; [exact E|]. split; [exact A1|exact A2].
Defined.

Lemma afterReload_frame (m : Motor) :
  accelTableIndex (afterReload m) = accelTableIndex m
  /\ accelTableRepeatsLeft (afterReload m) = accelTableRepeatsLeft m
  /\ currentIVal (afterReload m) = currentIVal m
  /\ currentMotorSpeed (afterReload m) = currentMotorSpeed m
  /\ stopSpeed (afterReload m) = stopSpeed m
  /\ jVal (afterReload m) = jVal m /\ stepDir (afterReload m) = stepDir m
  /\ gotoRunning (afterReload m) = gotoRunning m
  /\ gotoDecelerating (afterReload m) = gotoDecelerating m
  /\ gotoPosn (afterReload m) = gotoPosn m
  /\ gotoEn (afterReload m) = gotoEn m
  /\ stopped (afterReload m) = stopped m
  /\ timerIrqEnabled (afterReload m) = timerIrqEnabled m
  /\ timerClockOn (afterReload m) = timerClockOn m
  /\ readyToGo (afterReload m) = readyToGo m.
Proof. repeat split. Qed.

(** The walk of the acceleration table on a starting pulse. *)
Lemma stepRising_walk (m : Motor) :
  0 <= accelTableIndex m < AccelTableLength ->
  let m' := stepRising m (currentMotorSpeed m) in
  let i := accelTableIndex m in
  let cur := currentMotorSpeed m in
  let target := currentIVal m in
  0 <= accelTableIndex m' < AccelTableLength
  /\ (accelTableRepeatsLeft m <> 0 ->
      currentMotorSpeed m' = cur /\ accelTableIndex m' = i
      /\ accelTableRepeatsLeft m' = u8 (accelTableRepeatsLeft m - 1))
  /\ (accelTableRepeatsLeft m = 0 ->
      (target < cur ->
         target <= currentMotorSpeed m' /\ i <= accelTableIndex m' <= i + 1)
      /\ (cur < target ->
          currentMotorSpeed m' <= target /\ i - 1 <= accelTableIndex m' <= i)
      /\ (cur = target ->
          currentMotorSpeed m' = cur /\ accelTableIndex m' = i)).
Proof.
  intros Hi m' i cur target.
  unfold m', stepRising, i, cur, target. cbv zeta. motor_fields.
  unfold AccelTableLength in *.
  destruct (Z.eqb_spec (accelTableRepeatsLeft m) 0) as [Hr|Hr].
  - destruct (Z.ltb_spec (currentIVal m) (currentMotorSpeed m)) as [Hs|Hs].
    + destruct (Z.leb_spec (6 - 1) (accelTableIndex m)) as [Ht|Ht].
      * motor_fields. repeat split; try lia; congruence.
      * rewrite (u8_small (accelTableIndex m + 1)) by lia.
        unfold accelEntry. motor_fields.
        destruct (Z.leb_spec
                    (speed (nth (Z.to_nat (accelTableIndex m + 1)) (accelTable m)
                              (mkAccel 0 0)))
                    (currentIVal m));
          motor_fields; repeat split; try lia; congruence.
    + destruct (Z.ltb_spec (currentMotorSpeed m) (currentIVal m)) as [Hf|Hf].
      * destruct (Z.eqb_spec (accelTableIndex m) 0) as [Hz|Hz].
        -- motor_fields. repeat split; try lia; congruence.
        -- rewrite (u8_small (accelTableIndex m - 1)) by lia.
           unfold accelEntry. motor_fields.
           destruct (Z.leb_spec (currentIVal m)
                       (speed (nth (Z.to_nat (accelTableIndex m - 1)) (accelTable m)
                                 (mkAccel 0 0))));
             motor_fields; repeat split; try lia; congruence.
      * motor_fields. repeat split; try lia; congruence.
  - motor_fields. repeat split; try lia; congruence.
Qed.



(** X4.  The table index stays inside the table: no interrupt takes
    [accelTableIndex] out of [0, AccelTableLength), so the engine reads
    the acceleration table within its bounds. *)
Theorem TIMER_CAPT_vect_index_in_table (m : Motor) :
  0 <= accelTableIndex m < AccelTableLength ->
  0 <= accelTableIndex (TIMER_CAPT_vect m) < AccelTableLength.
Proof.
  intros Hi.
  destruct (Z.eqb_spec (u16 (irqToNextStep m - 1)) 0) as [E|E].
  - rewrite (TIMER_CAPT_vect_expired m E).
    destruct (afterReload_frame m) as (F1 & _ & _ & F4 & _).
    destruct (stepPin m).
    + destruct (stepFalling_frame (afterReload m) (currentMotorSpeed m))
        as (_ & _ & _ & A4 & _).
      rewrite A4, F1. exact Hi.
    + assert (Hi' : 0 <= accelTableIndex (afterReload m) < AccelTableLength)
        by (rewrite F1; exact Hi).
      pose proof (stepRising_walk (afterReload m) Hi') as W.
      cbv zeta in W. rewrite F4 in W. exact (proj1 W).
  - rewrite (TIMER_CAPT_vect_waiting m E). exact Hi.
Qed.

Lemma TIMER_CAPT_vect_index_in_table_witness :
  0 <= accelTableIndex example_started < AccelTableLength
  /\ 0 <= accelTableIndex (TIMER_CAPT_vect example_started) < AccelTableLength.
Proof.
  assert (I : 0 <= accelTableIndex example_started < AccelTableLength)
    by (vm_compute; split; [discriminate|reflexivity]).
  split; [exact I|]. exact (TIMER_CAPT_vect_index_in_table example_started I).
Defined.

(** The end of a pulse: halting, and the deceleration marker. *)
Lemma stepFalling_halt (m : Motor) (c : Z) :
  (stopSpeed m < c ->
     stopped (stepFalling m c) = true
     /\ timerIrqEnabled (stepFalling m c) = false
     /\ timerClockOn (stepFalling m c) = false
     /\ gotoRunning (stepFalling m c) = false
     /\ gotoEn (stepFalling m c) = (if gotoRunning m then false else gotoEn m))
  /\ (c <= stopSpeed m ->
      stopped (stepFalling m c) = stopped m
      /\ timerIrqEnabled (stepFalling m c) = timerIrqEnabled m
      /\ timerClockOn (stepFalling m c) = timerClockOn m
      /\ gotoRunning (stepFalling m c) = gotoRunning m
      /\ gotoEn (stepFalling m c) = gotoEn m).
Proof.
  unfold stepFalling, timerDisable, cmd_setStopped, cmd_setGotoEn. cbv zeta.
  motor_fields.
  destruct (gotoRunning m) eqn:Hg; destruct (gotoDecelerating m) eqn:Hd;
    motor_fields;
    try destruct (gotoPosn m =? u32 (jVal m + stepDir m));
    motor_fields; rewrite ?Hg;
    destruct (Z.ltb_spec (stopSpeed m) c);
    motor_fields; (split; intros; [|try lia]); try lia;
    repeat split; assumption.
Qed.

Lemma stepFalling_marker (m : Motor) (c : Z) :
  gotoRunning m = true -> gotoDecelerating m = false ->
  (gotoPosn m = u32 (jVal m + stepDir m) ->
     gotoDecelerating (stepFalling m c) = true
     /\ currentIVal (stepFalling m c) = u16 (stopSpeed m + 1)
     /\ accelTableRepeatsLeft (stepFalling m c) = 0)
  /\ (gotoPosn m <> u32 (jVal m + stepDir m) ->
      gotoDecelerating (stepFalling m c) = false
      /\ currentIVal (stepFalling m c) = currentIVal m
      /\ accelTableRepeatsLeft (stepFalling m c) = accelTableRepeatsLeft m).
Proof.
  intros Hg Hd.
  unfold stepFalling, timerDisable, cmd_setStopped, cmd_setGotoEn. cbv zeta.
  motor_fields. rewrite Hg, Hd. motor_fields.
  destruct (Z.eqb_spec (gotoPosn m) (u32 (jVal m + stepDir m)));
    motor_fields; rewrite ?Hg;
    destruct (stopSpeed m <? c);
    motor_fields; (split; intros; [|try contradiction]); try contradiction;
    repeat split; assumption.
Qed.

(** X5.  The end of a movement.  On the interrupt that completes a pulse
    (countdown expired, step pin high) with the speed register slower than
    [stopSpeed], the axis is marked stopped and its timer is switched off;
    a goto that was running is ended, which also clears the goto flag
    [gotoEn], while a slew that halts leaves [gotoEn] as it is, so that a
    goto requested in the meantime stays requested.  With the speed
    register at [stopSpeed] or faster the pulse ends and the axis runs
    on. *)
Theorem TIMER_CAPT_vect_halt (m : Motor) :
  u16 (irqToNextStep m - 1) = 0 -> stepPin m = HIGH ->
  let m' := TIMER_CAPT_vect m in
  (stopSpeed m < currentMotorSpeed m ->
     stopped m' = true /\ timerIrqEnabled m' = false /\ timerClockOn m' = false
     /\ gotoRunning m' = false
     /\ gotoEn m' = (if gotoRunning m then false else gotoEn m))
  /\ (currentMotorSpeed m <= stopSpeed m ->
      stopped m' = stopped m /\ timerIrqEnabled m' = timerIrqEnabled m
      /\ timerClockOn m' = timerClockOn m /\ gotoRunning m' = gotoRunning m
      /\ gotoEn m' = gotoEn m)
  /\ jVal m' = u32 (jVal m + stepDir m)
  /\ readyToGo m' = readyToGo m.
Proof.
  intros E Hpin m'. unfold m'.
  rewrite (TIMER_CAPT_vect_expired m E), Hpin. unfold LOW, HIGH. cbv iota.
  destruct (afterReload_frame m)
    as (_ & _ & _ & _ & F5 & F6 & F7 & F8 & _ & _ & F11 & F12 & F13 & F14 & F15).
  destruct (stepFalling_halt (afterReload m) (currentMotorSpeed m)) as (H1 & H2).
  rewrite F5, F8, F11 in H1. rewrite F5, F8, F11, F12, F13, F14 in H2.
  destruct (stepFalling_frame (afterReload m) (currentMotorSpeed m))
    as (A1 & _ & _ & _ & _ & _ & _ & _ & A9 & _).
  rewrite F6, F7 in A1. rewrite F15 in A9.
  split; [exact H1|]. split; [exact H2|]. split; assumption.
Qed.

Lemma TIMER_CAPT_vect_halt_witness :
  exists m,
    dc (state_after (firstn 1929 example_requeued_goto)) = m
    /\ u16 (irqToNextStep m - 1) = 0 /\ stepPin m = HIGH
    /\ stopSpeed m < currentMotorSpeed m
    /\ gotoRunning m = true
    /\ stopped (TIMER_CAPT_vect m) = true
    /\ gotoEn (TIMER_CAPT_vect m) = false
    /\ jVal (TIMER_CAPT_vect m) = u32 (jVal m + stepDir m).
Proof.
  eexists. split; [vm_compute; reflexivity|].
  match goal with |- u16 (irqToNextStep ?m - 1) = 0 /\ _ =>
    assert (E : u16 (irqToNextStep m - 1) = 0) by (vm_compute; reflexivity);
    assert (P : stepPin m = HIGH) by (vm_compute; reflexivity);
    assert (S : stopSpeed m < currentMotorSpeed m) by (vm_compute; reflexivity);
    assert (G : gotoRunning m = true) by (vm_compute; reflexivity);
    destruct (TIMER_CAPT_vect_halt m E P) as (A & _ & B & _)
  end.
  destruct (A S) as (A1 & _ & _ & _ & A5). rewrite G in A5.
  split; [exact E|]. split; [exact P|]. split; [exact S|]. split; [exact G|].
  split; [exact A1|]. split; [exact A5|exact B].
Defined.

(** X6.  The deceleration marker.  During a goto that has not begun to
    decelerate, the interrupt that completes a pulse compares the new
    position with [gotoPosn]: when they are equal it marks the goto as
    decelerating, makes [stopSpeed + 1] the target and drops the repeats
    that were left; when they differ it touches none of the three. *)
Theorem TIMER_CAPT_vect_marker (m : Motor) :
  u16 (irqToNextStep m - 1) = 0 -> stepPin m = HIGH ->
  gotoRunning m = true -> gotoDecelerating m = false ->
  let m' := TIMER_CAPT_vect m in
  (gotoPosn m = u32 (jVal m + stepDir m) ->
     gotoDecelerating m' = true
     /\ currentIVal m' = u16 (stopSpeed m + 1)
     /\ accelTableRepeatsLeft m' = 0)
  /\ (gotoPosn m <> u32 (jVal m + stepDir m) ->
      gotoDecelerating m' = false
      /\ currentIVal m' = currentIVal m
      /\ accelTableRepeatsLeft m' = accelTableRepeatsLeft m).
Proof.
  intros E Hpin Hg Hd m'. unfold m'.
  rewrite (TIMER_CAPT_vect_expired m E), Hpin. unfold LOW, HIGH. cbv iota.
  destruct (afterReload_frame m)
    as (_ & F2 & F3 & _ & F5 & F6 & F7 & F8 & F9 & F10 & _).
  assert (Hg' : gotoRunning (afterReload m) = true) by (rewrite F8; exact Hg).
  assert (Hd' : gotoDecelerating (afterReload m) = false) by (rewrite F9; exact Hd).
  destruct (stepFalling_marker (afterReload m) (currentMotorSpeed m) Hg' Hd')
    as (M1 & M2).
  rewrite F10, F6, F7, F5 in M1. rewrite F10, F6, F7, F3, F2 in M2.
  split; assumption.
Qed.

Lemma TIMER_CAPT_vect_marker_witness :
  exists m,
    dc (state_after (firstn 649 example_requeued_goto)) = m
    /\ u16 (irqToNextStep m - 1) = 0 /\ stepPin m = HIGH
    /\ gotoRunning m = true /\ gotoDecelerating m = false
    /\ gotoPosn m = u32 (jVal m + stepDir m)
    /\ gotoDecelerating (TIMER_CAPT_vect m) = true
    /\ currentIVal (TIMER_CAPT_vect m) = u16 (stopSpeed m + 1).
Proof.
  eexists. split; [vm_compute; reflexivity|].
  match goal with |- u16 (irqToNextStep ?m - 1) = 0 /\ _ =>
    assert (E : u16 (irqToNextStep m - 1) = 0) by (vm_compute; reflexivity);
    assert (P : stepPin m = HIGH) by (vm_compute; reflexivity);
    assert (G : gotoRunning m = true) by (vm_compute; reflexivity);
    assert (D : gotoDecelerating m = false) by (vm_compute; reflexivity);
    assert (M : gotoPosn m = u32 (jVal m + stepDir m)) by (vm_compute; reflexivity);
    destruct (TIMER_CAPT_vect_marker m E P G D) as (A & _)
  end.
  destruct (A M) as (A1 & A2 & _).
  split; [exact E|]. split; [exact P|]. split; [exact G|]. split; [exact D|].
  split; [exact M|]. split; [exact A1|exact A2].
Defined.

(** ** The motor controller *)

(** X7.  Starting.  [motorStart] makes the requested period [IVal] the
    target and the slower of [IVal] and [minSpeed] the stop speed, drives
    the direction pin, and leaves the axis running with its capture
    interrupt enabled.  From standstill the walk is armed at entry 0 of the
    acceleration table with that entry's repeats, the first slot of the
    rate table, a countdown of one and the stop speed as first speed; on a
    running axis the walk, the countdown, the timer period and the clock
    are kept, and the speed register is kept too when it is faster than
    [minSpeed] and set to the stop speed otherwise. *)
Theorem motorStart_effect (m : Motor) :
  let m' := motorStart m in
  let stoppingSpeed := Z.max (u16 (IVal m)) (minSpeed m) in
  currentIVal m' = u16 (IVal m)
  /\ stopSpeed m' = stoppingSpeed
  /\ dirPin m' = xorb (encodeDirection m) (dir m)
  /\ stopped m' = false /\ timerIrqEnabled m' = true
  /\ jVal m' = jVal m
  /\ (stopped m = true ->
      accelTableIndex m' = 0
      /\ accelTableRepeatsLeft m' = repeats (accelEntry m 0)
      /\ distributionSegment m' = 0 /\ irqToNextStep m' = 1
      /\ interruptOVFCount m' = timerOVF_at m 0
      /\ currentMotorSpeed m' = stoppingSpeed
      /\ timerClockOn m' = true)
  /\ (stopped m = false ->
      accelTableIndex m' = accelTableIndex m
      /\ accelTableRepeatsLeft m' = accelTableRepeatsLeft m
      /\ distributionSegment m' = distributionSegment m
      /\ irqToNextStep m' = irqToNextStep m
      /\ interruptOVFCount m' = interruptOVFCount m
      /\ currentMotorSpeed m'
         = (if currentMotorSpeed m <? minSpeed m then currentMotorSpeed m
            else stoppingSpeed)
      /\ timerClockOn m' = timerClockOn m).
Proof.
  intros m' stoppingSpeed.
  assert (Hs : (if minSpeed m <? u16 (IVal m) then u16 (IVal m) else minSpeed m)
               = stoppingSpeed).
  { unfold stoppingSpeed. destruct (Z.ltb_spec (minSpeed m) (u16 (IVal m))); lia. }
  unfold m', motorStart, timerEnable, cmd_setStopped, accelEntry, timerOVF_at.
  cbv zeta. motor_fields. rewrite Hs.
  destruct (stopped m) eqn:Hst; motor_fields; rewrite ?Hst;
    repeat split; intros; try discriminate; reflexivity.
Qed.

Lemma motorStart_effect_witness :
  stopped (ra example_boot) = true
  /\ stopped (motorStart (ra example_boot)) = false
  /\ accelTableIndex (motorStart (ra example_boot)) = 0
  /\ accelTableRepeatsLeft (motorStart (ra example_boot)) = 3
  /\ irqToNextStep (motorStart (ra example_boot)) = 1
  /\ timerClockOn (motorStart (ra example_boot)) = true
  /\ stopped example_started = false
  /\ irqToNextStep (motorStart example_pulse_high)
     = irqToNextStep example_pulse_high
  /\ accelTableRepeatsLeft (motorStart example_pulse_high)
     = accelTableRepeatsLeft example_pulse_high.
Proof.
  assert (S : stopped (ra example_boot) = true) by reflexivity.
  assert (R : stopped example_pulse_high = false) by reflexivity.
  destruct (motorStart_effect (ra example_boot))
    as (_ & _ & _ & A4 & _ & _ & A & _).
  destruct (A S) as (A1 & A2 & _ & A5 & _ & _ & A8).
  destruct (motorStart_effect example_pulse_high)
    as (_ & _ & _ & _ & _ & _ & _ & B).
  destruct (B R) as (_ & B2 & _ & B4 & _).
  split; [exact S|]. split; [exact A4|]. split; [exact A1|].
  split; [exact A2|]. split; [exact A5|]. split; [exact A8|].
  split; [reflexivity|]. split; [exact B4|exact B2].
Defined.

(** The graceful stop on one axis. *)
Lemma motorStop_graceful (m : Motor) :
  let m' := motorStop false m in
  (stopped m = true -> m' = m)
  /\ (stopped m = false ->
      let stopSpeed' :=
        if (currentIVal m <? minSpeed m) && (minSpeed m <? stopSpeed m)
        then minSpeed m else stopSpeed m in
      currentIVal m' = u16 (stopSpeed' + 1)
      /\ stopSpeed m' = stopSpeed'
      /\ gotoEn m' = false /\ gotoRunning m' = false /\ GVal m' = 0
      /\ stopped m' = false /\ timerIrqEnabled m' = true
      /\ timerClockOn m' = timerClockOn m
      /\ currentMotorSpeed m' = currentMotorSpeed m
      /\ jVal m' = jVal m /\ readyToGo m' = readyToGo m
      /\ accelTableIndex m' = accelTableIndex m
      /\ accelTableRepeatsLeft m' = accelTableRepeatsLeft m).
Proof.
  intros m'. unfold m', motorStop, cmd_setGotoEn, cmd_setGVal. split; intros Hs.
  - rewrite Hs. reflexivity.
  - rewrite Hs. cbv zeta. motor_fields.
    destruct (currentIVal m <? minSpeed m); motor_fields;
      [destruct (minSpeed m <? stopSpeed m)|]; motor_fields;
      repeat split; assumption.
Qed.

Lemma motor_on_motor_same (a : Axis) (f : Motor -> Motor) (s : State) :
  motor a (on_motor a f s) = f (motor a s).
Proof. rewrite motor_on_motor. destruct a; reflexivity. Qed.

Lemma motor_on_motor_other (a b : Axis) (f : Motor -> Motor) (s : State) :
  a <> b -> motor b (on_motor a f s) = motor b s.
Proof.
  intros H. rewrite motor_on_motor.
  destruct a, b; try reflexivity; contradiction H; reflexivity.
Qed.

(** X8.  The [K] command.  On a stopped axis it only clears [readyToGo].
    On a running axis it requests the deceleration to a halt: the target
    becomes one more than the stop speed (which is first lowered to
    [minSpeed] when the target was faster than [minSpeed] and the stop speed
    slower), goto mode is left, [readyToGo] is cleared, and the axis keeps
    running with its position, speed register and timer as they are.  The
    other axis is not touched. *)
Theorem decodeCommand_K_effect (hdr : Header) (axis : Axis) (s : State) :
  exists d,
    decodeCommand hdr Cmd_K axis s = Some d
    /\ dec_ok d = true
    /\ (forall a, a <> axis -> motor a (dec_state d) = motor a s)
    /\ (let m := motor axis s in
        let m' := motor axis (dec_state d) in
        readyToGo m' = 0
        /\ (stopped m = true -> m' = set_readyToGo 0 m)
        /\ (stopped m = false ->
            let stopSpeed' :=
              if (currentIVal m <? minSpeed m) && (minSpeed m <? stopSpeed m)
              then minSpeed m else stopSpeed m in
            currentIVal m' = u16 (stopSpeed' + 1)
            /\ stopSpeed m' = stopSpeed'
            /\ gotoEn m' = false /\ gotoRunning m' = false /\ GVal m' = 0
            /\ stopped m' = false
            /\ timerClockOn m' = timerClockOn m
            /\ currentMotorSpeed m' = currentMotorSpeed m
            /\ jVal m' = jVal m)).
Proof.
  eexists. split; [reflexivity|]. cbn [dec_state dec_ok].
  split; [reflexivity|]. split.
  - intros a Ha. apply motor_on_motor_other. congruence.
  - cbv zeta. rewrite motor_on_motor_same.
    destruct (motorStop_graceful (motor axis s)) as (G1 & G2). cbv zeta in G1, G2.
    split; [reflexivity|]. split.
    + intros Hs. rewrite (G1 Hs). reflexivity.
    + intros Hs.
      destruct (G2 Hs) as (A1 & A2 & A3 & A4 & A5 & A6 & _ & A8 & A9 & A10 & _).
      motor_fields. repeat split; assumption.
Qed.

Lemma decodeCommand_K_effect_witness :
  exists s d,
    state_after example_reverse_slew = s
    /\ decodeCommand example_header Cmd_K RA s = Some d
    /\ stopped (motor RA s) = false
    /\ currentIVal (motor RA (dec_state d)) = 641
    /\ stopped (motor RA (dec_state d)) = false
    /\ readyToGo (motor RA (dec_state d)) = 0.
Proof.
  eexists. 
  destruct (decodeCommand_K_effect example_header RA
              (state_after example_reverse_slew)) as (d & E & _ & _ & A).
  exists d. cbv zeta in A. destruct A as (A1 & _ & A3).
  assert (R : stopped (motor RA (state_after example_reverse_slew)) = false)
    by reflexivity.
  destruct (A3 R) as (B1 & _ & _ & _ & _ & B6 & _).
  split; [reflexivity|]. split; [exact E|]. split; [exact R|].
  split; [rewrite B1; reflexivity|]. split; [exact B6|exact A1].
Defined.

(** X9.  The [L] command.  Whatever the axis is doing, afterwards it is
    stopped with its timer off and its driver disabled, goto mode and
    [readyToGo] are cleared, and the position is kept; the [readyToGo]
    block of the run loop then finds nothing to start.  The other axis is
    not touched. *)
Theorem decodeCommand_L_effect (hdr : Header) (axis : Axis) (s : State) :
  exists d,
    decodeCommand hdr Cmd_L axis s = Some d
    /\ dec_ok d = true
    /\ (forall a, a <> axis -> motor a (dec_state d) = motor a s)
    /\ (let m' := motor axis (dec_state d) in
        stopped m' = true /\ timerIrqEnabled m' = false
        /\ timerClockOn m' = false
        /\ FVal m' = CMD_DISABLED /\ enablePin m' = HIGH
        /\ readyToGo m' = 0 /\ gotoEn m' = false /\ gotoRunning m' = false
        /\ GVal m' = 0 /\ jVal m' = jVal (motor axis s))
    /\ main_readyToGo axis (dec_state d) = dec_state d.
Proof.
  eexists. split; [reflexivity|]. cbn [dec_state dec_ok].
  split; [reflexivity|].
  assert (M : motor axis (motorDisable axis (on_motor axis (motorStop true) s))
              = cmd_setFVal CMD_DISABLED
                  (set_enablePin HIGH (motorStop true (motor axis s)))).
  { unfold motorDisable. rewrite !motor_on_motor_same. reflexivity. }
  split; [|split].
  - intros a Ha. unfold motorDisable.
    rewrite !motor_on_motor_other by congruence. reflexivity.
  - cbv zeta. rewrite M. repeat split.
  - unfold main_readyToGo. rewrite M. reflexivity.
Qed.

(** X10.  The [F] command.  Outside programming mode it enables the
    driver of the axis and, through [configureTimer], masks the capture
    interrupt and stops the clock of both timers while leaving both
    [stopped] flags as they are: an axis that was running, the other one
    included, receives no further step interrupt.  In programming mode the
    command is answered with an error and changes nothing. *)
Theorem decodeCommand_F_effect (hdr : Header) (axis : Axis) (s : State) :
  exists d,
    decodeCommand hdr Cmd_F axis s = Some d
    /\ (progMode s = 0 ->
        dec_ok d = true
        /\ FVal (motor axis (dec_state d)) = CMD_ENABLED
        /\ enablePin (motor axis (dec_state d)) = LOW
        /\ (forall a,
              stopped (motor a (dec_state d)) = stopped (motor a s)
              /\ timerIrqEnabled (motor a (dec_state d)) = false
              /\ timerClockOn (motor a (dec_state d)) = false
              /\ (wdtArmed s = false ->
                  step hdr (Ev_timer a) (dec_state d) = None)))
    /\ (progMode s <> 0 -> dec_ok d = false /\ dec_state d = s).
Proof.
  unfold decodeCommand, decodeSwitch.
  destruct (Z.eqb_spec (progMode s) 0) as [Hp|Hp]; eexists;
    (split; [reflexivity|]); cbn [dec_state dec_ok];
    (split; [|intros; try contradiction; split; reflexivity]);
    intros Hp'; try contradiction.
  split; [reflexivity|].
  assert (Hw : wdtArmed (motorEnable axis s) = wdtArmed s)
    by (destruct axis; reflexivity).
  split; [|split].
  - unfold motorEnable. rewrite configureTimer_motor, motor_on_motor_same.
    reflexivity.
  - unfold motorEnable. rewrite configureTimer_motor, motor_on_motor_same.
    reflexivity.
  - intros a. destruct (motorEnable_engine axis a s) as (E1 & E2).
    split; [apply motorEnable_stopped|]. split; [exact E1|]. split; [exact E2|].
    intros W. unfold step. rewrite Hw, W. cbv zeta. rewrite E1. reflexivity.
Qed.

Lemma decodeCommand_F_effect_witness :
  exists s d,
    state_after example_reverse_slew = s
    /\ decodeCommand example_header Cmd_F DC s = Some d
    /\ progMode s = 0 /\ wdtArmed s = false
    /\ stopped (motor RA s) = false /\ timerIrqEnabled (motor RA s) = true
    /\ stopped (motor RA (dec_state d)) = false
    /\ timerIrqEnabled (motor RA (dec_state d)) = false
    /\ step example_header (Ev_timer RA) (dec_state d) = None.
Proof.
  eexists.
  destruct (decodeCommand_F_effect example_header DC
              (state_after example_reverse_slew)) as (d & E & A & _).
  exists d.
  assert (P : progMode (state_after example_reverse_slew) = 0) by reflexivity.
  assert (W : wdtArmed (state_after example_reverse_slew) = false) by reflexivity.
  destruct (A P) as (_ & _ & _ & B). destruct (B RA) as (B1 & B2 & _ & B4).
  split; [reflexivity|]. split; [exact E|]. split; [exact P|]. split; [exact W|].
  split; [reflexivity|]. split; [reflexivity|].
  split; [rewrite B1; reflexivity|]. split; [exact B2|exact (B4 W)].
Defined.

(** ** The command decoder *)

(** X11.  The reporting commands [e a b g s f j n d z c q], and every
    letter the switch does not know, leave the whole state as it is and are
    answered with a data packet; none of them asks for a reset. *)
Theorem decodeCommand_reports_only (hdr : Header) (c : Command) (axis : Axis)
    (s : State) (d : Decoded) :
  reportsOnly c = true ->
  decodeCommand hdr c axis s = Some d ->
  dec_state d = s /\ dec_ok d = true /\ dec_return d = true.
Proof.
  intros Hc H. unfold decodeCommand, decodeSwitch in H.
  destruct c; try discriminate Hc;
    try (injection H as <-; repeat split; fail).
  destruct (progMode s =? 0);
    [destruct (u16 (Z.shiftl (siderealIVal (motor axis s)) 1) =? 0);
       [discriminate|]|];
    injection H as <-; repeat split.
Qed.

Lemma decodeCommand_reports_only_witness :
  exists d,
    reportsOnly Cmd_j = true
    /\ decodeCommand example_header Cmd_j RA example_boot = Some d
    /\ dec_state d = example_boot /\ dec_responseData d = 8388608.
Proof.
  eexists.
  assert (C : reportsOnly Cmd_j = true) by reflexivity.
  assert (E : decodeCommand example_header Cmd_j RA example_boot
              = Some (mkDecoded example_boot true (jVal (ra example_boot)) true))
    by reflexivity.
  destruct (decodeCommand_reports_only _ _ _ _ _ C E) as (A & _).
  split; [exact C|]. split; [exact E|]. split; [exact A|reflexivity].
Defined.

(** X12.  Configuration bytes read back.  After [Z] the command [z]
    reports the byte that was stored as goto speed; after [C] the command
    [c] reports 1 when the payload character was not ['0'] and 0 when it
    was; after [Q] the command [q] reports 1 for a non-zero byte and 0 for
    zero, the flag being [disableGearChange] on DC and
    [allowAdvancedHCDetection] on RA.  The reading command changes
    nothing. *)
Theorem configuration_bytes_read_back (hdr : Header) (axis : Axis) (s : State)
    (v : Z) :
  (exists d1 d2,
     decodeCommand hdr (Cmd_Z v) axis s = Some d1
     /\ decodeCommand hdr Cmd_z axis (dec_state d1) = Some d2
     /\ dec_responseData d2 = u8 v /\ dec_state d2 = dec_state d1)
  /\ (exists d1 d2,
        decodeCommand hdr (Cmd_C v) axis s = Some d1
        /\ decodeCommand hdr Cmd_c axis (dec_state d1) = Some d2
        /\ dec_responseData d2 = (if v =? char0 then 0 else 1)
        /\ dec_state d2 = dec_state d1)
  /\ (exists d1 d2,
        decodeCommand hdr (Cmd_Q v) axis s = Some d1
        /\ decodeCommand hdr Cmd_q axis (dec_state d1) = Some d2
        /\ dec_responseData d2 = (if u8 v =? 0 then 0 else 1)
        /\ dec_state d2 = dec_state d1
        /\ disableGearChange (dec_state d1)
           = match axis with
             | DC => negb (u8 v =? 0)
             | RA => disableGearChange s
             end
        /\ allowAdvancedHCDetection (dec_state d1)
           = match axis with
             | RA => negb (u8 v =? 0)
             | DC => allowAdvancedHCDetection s
             end).
Proof.
  split; [|split].
  - eexists. eexists. split; [reflexivity|]. cbn [dec_state].
    unfold decodeCommand, decodeSwitch. split; [reflexivity|].
    cbn [dec_responseData dec_state]. rewrite motor_on_motor_same.
    split; reflexivity.
  - eexists. eexists. split; [reflexivity|]. cbn [dec_state].
    unfold decodeCommand, decodeSwitch. split; [reflexivity|].
    cbn [dec_responseData dec_state]. rewrite motor_on_motor_same.
    split; [|reflexivity]. motor_fields. unfold Z_of_bool, char0.
    destruct (Z.eqb_spec (v - 48) 0), (Z.eqb_spec v 48); try lia; reflexivity.
  - destruct axis; eexists; eexists; (split; [reflexivity|]); cbn [dec_state];
      unfold decodeCommand, decodeSwitch; (split; [reflexivity|]);
      cbn [dec_responseData dec_state]; unfold Z_of_bool;
      destruct (u8 v =? 0); repeat split.
Qed.

(** X13.  Driver bytes read back, and the gear flag.  After [D] the
    command [d] reports the stored byte: the driver family on RA, the
    microstep count on DC.  Storing the microstep count also recomputes
    [canJumpToHighspeed] as "at least 8 microsteps", whatever
    [disableGearChange] says; on RA the flag is left alone. *)
Theorem driver_bytes_read_back (hdr : Header) (axis : Axis) (s : State) (v : Z) :
  exists d1 d2,
    decodeCommand hdr (Cmd_D v) axis s = Some d1
    /\ decodeCommand hdr Cmd_d axis (dec_state d1) = Some d2
    /\ dec_responseData d2 = u8 v /\ dec_state d2 = dec_state d1
    /\ canJumpToHighspeed (dec_state d1)
       = match axis with
         | DC => 8 <=? u8 v
         | RA => canJumpToHighspeed s
         end
    /\ disableGearChange (dec_state d1) = disableGearChange s
    /\ (forall a, motor a (dec_state d1) = motor a s).
Proof.
  destruct axis; eexists; eexists; (split; [reflexivity|]); cbn [dec_state];
    unfold decodeCommand, decodeSwitch; (split; [reflexivity|]);
    cbn [dec_responseData dec_state]; repeat split; intros a; destruct a;
    reflexivity.
Qed.

Lemma list_update_nth_same {A : Type} (l : list A) (i : nat) (x d : A) :
  (i < length l)%nat -> nth i (list_update l i x) d = x.
Proof.
  revert i. induction l as [|h t IH]; intros i Hi; cbn in Hi; [lia|].
  destruct i as [|i]; cbn; [reflexivity|]. apply IH. lia.
Qed.

Lemma list_update_nth_other {A : Type} (l : list A) (i j : nat) (x d : A) :
  i <> j -> nth j (list_update l i x) d = nth j l d.
Proof.
  revert i j. induction l as [|h t IH]; intros i j Hij.
  - destruct i; reflexivity.
  - destruct i as [|i], j as [|j]; cbn; try reflexivity; try congruence.
    apply IH. congruence.
Qed.

Lemma advanceAccelTableIndex_spec (m : Motor) :
  0 <= accelTableIndex m < AccelTableLength ->
  accelTableIndex (advanceAccelTableIndex m)
  = (accelTableIndex m + 1) mod AccelTableLength
  /\ accelTable (advanceAccelTableIndex m) = accelTable m.
Proof.
  unfold advanceAccelTableIndex, AccelTableLength. intros H. cbv zeta.
  rewrite u8_small by lia.
  destruct (Z.leb_spec 6 (accelTableIndex m + 1)); motor_fields.
  - replace (accelTableIndex m + 1) with 6 by lia. split; reflexivity.
  - rewrite Z.mod_small by lia. split; reflexivity.
Qed.

Lemma packed_entry (v : Z) :
  0 <= v -> u16 v + 65536 * u8 (Z.shiftr v 16) = v mod 16777216.
Proof.
  intros Hv. unfold u16, u8. rewrite Z.shiftr_div_pow2 by lia.
  change (2 ^ 16) with 65536. change 16777216 with (65536 * 256).
  rewrite Z.rem_mul_r by lia. reflexivity.
Qed.

(** X14.  Programming the acceleration table.  With the index set by [Y]
    to a slot [i] of the table, [X] stores the low 16 bits of its payload
    as the speed and bits 16 to 23 as the repeats of that slot, leaves the
    other slots alone and moves the index to the next slot, wrapping from
    the last to the first; [Y] to the same slot and [x] then report the
    payload modulo 2^24, and move the index on in the same way. *)
Theorem accelTable_programming (hdr : Header) (axis : Axis) (s : State)
    (i v : Z) :
  0 <= i < AccelTableLength -> 0 <= v ->
  Z.of_nat (length (accelTable (motor axis s))) = AccelTableLength ->
  exists d1 d2 d3 d4,
    decodeCommand hdr (Cmd_Y i) axis s = Some d1
    /\ decodeCommand hdr (Cmd_X v) axis (dec_state d1) = Some d2
    /\ decodeCommand hdr (Cmd_Y i) axis (dec_state d2) = Some d3
    /\ decodeCommand hdr Cmd_x axis (dec_state d3) = Some d4
    /\ dec_ok d1 = true /\ dec_ok d2 = true /\ dec_ok d3 = true
    /\ dec_ok d4 = true
    /\ accelEntry (motor axis (dec_state d2)) i
       = mkAccel (u16 v) (u8 (Z.shiftr v 16))
    /\ (forall k, 0 <= k -> k <> i ->
          accelEntry (motor axis (dec_state d2)) k = accelEntry (motor axis s) k)
    /\ accelTableIndex (motor axis (dec_state d2)) = (i + 1) mod AccelTableLength
    /\ dec_responseData d4 = v mod 16777216
    /\ accelTableIndex (motor axis (dec_state d4)) = (i + 1) mod AccelTableLength
    /\ accelTable (motor axis (dec_state d4)) = accelTable (motor axis (dec_state d2)).
Proof.
  intros Hi Hv Hlen. pose proof Hi as Hi6. unfold AccelTableLength in Hi6.
  assert (Hu : u8 i = i) by (apply u8_small; lia).
  (* Y *)
  assert (E1 : decodeCommand hdr (Cmd_Y i) axis s
               = Some (mkDecoded
                         (set_motor axis (set_accelTableIndex i (motor axis s)) s)
                         true 0 true)).
  { unfold decodeCommand, decodeSwitch. cbv zeta. motor_fields. rewrite Hu.
    destruct (Z.leb_spec AccelTableLength i); [lia|reflexivity]. }
  set (m1 := set_accelTableIndex i (motor axis s)).
  set (s1 := set_motor axis m1 s) in *.
  assert (M1 : motor axis s1 = m1) by apply motor_set_motor.
  (* X *)
  set (m2 := advanceAccelTableIndex
               (set_accelTable
                  (list_update (accelTable m1) (Z.to_nat i)
                     (mkAccel (u16 v) (u8 (Z.shiftr v 16)))) m1)).
  set (s2 := set_motor axis m2 s1).
  assert (E2 : decodeCommand hdr (Cmd_X v) axis s1
               = Some (mkDecoded s2 true 0 true)).
  { unfold decodeCommand, decodeSwitch. cbv zeta. rewrite M1.
    assert (I1 : accelTableIndex m1 = i) by reflexivity. rewrite I1.
    destruct (Z.ltb_spec i AccelTableLength); [reflexivity|lia]. }
  assert (M2 : motor axis s2 = m2) by apply motor_set_motor.
  assert (T1 : accelTable m1 = accelTable (motor axis s)) by reflexivity.
  destruct (advanceAccelTableIndex_spec
              (set_accelTable
                 (list_update (accelTable m1) (Z.to_nat i)
                    (mkAccel (u16 v) (u8 (Z.shiftr v 16)))) m1)) as (A1 & A2);
    [exact Hi|]. fold m2 in A1, A2.
  assert (I2 : accelTableIndex m2 = (i + 1) mod AccelTableLength) by exact A1.
  assert (T2 : accelTable m2
               = list_update (accelTable (motor axis s)) (Z.to_nat i)
                   (mkAccel (u16 v) (u8 (Z.shiftr v 16)))).
  { rewrite A2. reflexivity. }
  (* Y again *)
  set (m3 := set_accelTableIndex i m2).
  set (s3 := set_motor axis m3 s2).
  assert (E3 : decodeCommand hdr (Cmd_Y i) axis s2
               = Some (mkDecoded s3 true 0 true)).
  { unfold decodeCommand, decodeSwitch. cbv zeta. rewrite M2. motor_fields.
    rewrite Hu. destruct (Z.leb_spec AccelTableLength i); [lia|reflexivity]. }
  assert (M3 : motor axis s3 = m3) by apply motor_set_motor.
  assert (T3 : accelTable m3 = accelTable m2) by reflexivity.
  assert (N : accelEntry m3 i = mkAccel (u16 v) (u8 (Z.shiftr v 16))).
  { unfold accelEntry. rewrite T3, T2. apply list_update_nth_same. lia. }
  (* x *)
  assert (E4 : decodeCommand hdr Cmd_x axis s3
               = Some (mkDecoded (on_motor axis advanceAccelTableIndex s3) true
                         (u16 (u16 v) + 65536 * u8 (u8 (Z.shiftr v 16))) true)).
  { unfold decodeCommand, decodeSwitch. cbv zeta. rewrite M3.
    assert (I3 : accelTableIndex m3 = i) by reflexivity. rewrite I3, N.
    destruct (Z.ltb_spec i AccelTableLength); [reflexivity|lia]. }
  destruct (advanceAccelTableIndex_spec m3) as (B1 & B2); [exact Hi|].
  exists (mkDecoded s1 true 0 true), (mkDecoded s2 true 0 true),
    (mkDecoded s3 true 0 true),
    (mkDecoded (on_motor axis advanceAccelTableIndex s3) true
       (u16 (u16 v) + 65536 * u8 (u8 (Z.shiftr v 16))) true).
  cbn [dec_state dec_ok dec_responseData].
  split; [exact E1|]. split; [exact E2|]. split; [exact E3|]. split; [exact E4|].
  split; [reflexivity|]. split; [reflexivity|]. split; [reflexivity|].
  split; [reflexivity|].
  rewrite M2, motor_on_motor_same, M3.
  split; [unfold accelEntry; rewrite T2; apply list_update_nth_same; lia|].
  split.
  { intros k Hk Hne. unfold accelEntry. rewrite T2.
    apply list_update_nth_other. intros Heq. apply Hne.
    apply Z2Nat.inj; lia. }
  split; [exact I2|].
  split.
  { rewrite (u16_small (u16 v)) by apply u16_range.
    rewrite (u8_small (u8 _)) by apply u8_range. apply packed_entry. exact Hv. }
  split; [exact B1|]. rewrite B2. exact T3.
Qed.

Lemma accelTable_programming_witness :
  0 <= 5 < AccelTableLength /\ 0 <= 196628
  /\ Z.of_nat (length (accelTable (motor RA example_boot))) = AccelTableLength
  /\ exists d1 d2 d3 d4,
       decodeCommand example_header (Cmd_Y 5) RA example_boot = Some d1
       /\ decodeCommand example_header (Cmd_X 196628) RA (dec_state d1) = Some d2
       /\ decodeCommand example_header (Cmd_Y 5) RA (dec_state d2) = Some d3
       /\ decodeCommand example_header Cmd_x RA (dec_state d3) = Some d4
       /\ accelEntry (motor RA (dec_state d2)) 5 = mkAccel 20 3
       /\ accelTableIndex (motor RA (dec_state d2)) = 0
       /\ dec_responseData d4 = 196628.
Proof.
  assert (H1 : 0 <= 5 < AccelTableLength) by (unfold AccelTableLength; lia).
  assert (H2 : 0 <= 196628) by lia.
  assert (H3 : Z.of_nat (length (accelTable (motor RA example_boot)))
               = AccelTableLength) by reflexivity.
  destruct (accelTable_programming example_header RA example_boot 5 196628
              H1 H2 H3)
    as (d1 & d2 & d3 & d4 & E1 & E2 & E3 & E4 & _ & _ & _ & _ & A & _ & B & C & _).
  split; [exact H1|]. split; [exact H2|]. split; [exact H3|].
  exists d1, d2, d3, d4.
  split; [exact E1|]. split; [exact E2|]. split; [exact E3|]. split; [exact E4|].
  split; [exact A|]. split; [exact B|exact C].
Defined.

Lemma parked_inv (m : Motor) :
  parked m = true -> stopped m = true /\ readyToGo m <> 1 /\ readyToGo m <> 2.
Proof.
  unfold parked. rewrite !andb_true_iff, !negb_true_iff, !Z.eqb_neq. tauto.
Qed.

Lemma parked_intro (m : Motor) :
  stopped m = true -> readyToGo m <> 1 -> readyToGo m <> 2 -> parked m = true.
Proof.
  unfold parked. rewrite !andb_true_iff, !negb_true_iff, !Z.eqb_neq. tauto.
Qed.

Lemma parked_same (m m' : Motor) :
  stopped m' = stopped m -> readyToGo m' = readyToGo m -> parked m' = parked m.
Proof. unfold parked. intros -> ->. reflexivity. Qed.

Lemma parked_on_motor (a b : Axis) (f : Motor -> Motor) (s : State) :
  keeps_parked f ->
  parked (motor b s) = true -> parked (motor b (on_motor a f s)) = true.
Proof.
  intros Hf H. rewrite motor_on_motor.
  destruct a, b; try exact H; apply Hf; exact H.
Qed.

Lemma parked_set_motor (a b : Axis) (x : Motor) (s : State) :
  parked x = true ->
  parked (motor b s) = true -> parked (motor b (set_motor a x s)) = true.
Proof.
  intros Hx H. rewrite motor_set_motor_cases.
  destruct a, b; assumption.
Qed.

(** Field updates that touch neither [stopped] nor [readyToGo]. *)
Ltac parked_by_fields :=
  let m := fresh "m" in
  let H := fresh "H" in
  intros m H; rewrite <- H; apply parked_same; reflexivity.

(** Updates that clear [readyToGo] and keep [stopped]. *)
Ltac parked_by_clearing :=
  let m := fresh "m" in
  let H := fresh "H" in
  intros m H; apply parked_inv in H; destruct H as (H & _);
  apply parked_intro; [exact H|discriminate|discriminate].

Lemma keeps_parked_K : keeps_parked (fun m => set_readyToGo 0 (motorStop false m)).
Proof.
  intros m H. apply parked_inv in H. destruct H as (H & _).
  unfold motorStop. rewrite H. cbn [negb].
  apply parked_intro; [exact H|discriminate|discriminate].
Qed.

Lemma parked_emergency (m : Motor) : parked (motorStop true m) = true.
Proof. reflexivity. Qed.

Lemma keeps_parked_advance : keeps_parked advanceAccelTableIndex.
Proof.
  intros m H. rewrite <- H. apply parked_same;
    unfold advanceAccelTableIndex; cbv zeta;
    destruct (AccelTableLength <=? u8 (accelTableIndex m + 1)); reflexivity.
Qed.

Lemma parked_I (v : Z) (m : Motor) :
  parked m = true ->
  parked (if readyToGo (cmd_setIVal v m) =? 2 then motorStart (cmd_setIVal v m)
          else set_readyToGo 0 (cmd_setIVal v m)) = true.
Proof.
  intros H. apply parked_inv in H. destruct H as (H1 & _ & H3).
  assert (R : readyToGo (cmd_setIVal v m) = readyToGo m) by reflexivity.
  rewrite R. destruct (Z.eqb_spec (readyToGo m) 2); [contradiction|].
  apply parked_intro; [exact H1|discriminate|discriminate].
Qed.

Lemma parked_shared (f : State -> State) (s : State) (b : Axis) :
  (forall a, motor a (f s) = motor a s) ->
  parked (motor b s) = true -> parked (motor b (f s)) = true.
Proof. intros E H. rewrite E. exact H. Qed.

(** The switch of the decoder leaves axes at rest at rest. *)
Lemma decodeSwitch_keeps_parked (hdr : Header) (c : Command) (a : Axis)
    (s s1 : State) (r : Z) (ok : bool) :
  decodeSwitch hdr c a s = Some (s1, r, ok) ->
  (forall b, parked (motor b s) = true) ->
  forall b, parked (motor b s1) = true.
Proof.
  intros H P b. pose proof (P b) as Pb.
  destruct c; unfold decodeSwitch in H; cbv beta iota zeta in H.
  - (* e *) take_state H. exact Pb.
  - (* a *) take_state H. exact Pb.
  - (* b *) split_ifs; try discriminate; take_state H; exact Pb.
  - (* g *) take_state H. exact Pb.
  - (* s *) take_state H. exact Pb.
  - (* f *) take_state H. exact Pb.
  - (* j *) take_state H. exact Pb.
  - (* K *) take_state H. apply parked_on_motor; [apply keeps_parked_K|exact Pb].
  - (* L *) take_state H. unfold motorDisable.
    apply parked_on_motor; [parked_by_fields|].
    apply parked_on_motor; [intros m _; apply parked_emergency|exact Pb].
  - (* G *) take_state H. apply parked_on_motor; [parked_by_clearing|exact Pb].
  - (* H *) take_state H. apply parked_on_motor; [parked_by_clearing|exact Pb].
  - (* I *) take_state H. apply parked_set_motor; [|exact Pb].
    apply parked_I. apply P.
  - (* E *) take_state H. apply parked_on_motor; [parked_by_fields|exact Pb].
  - (* F *) destruct (progMode s =? 0); take_state H; [|exact Pb].
    apply parked_intro.
    + rewrite motorEnable_stopped. apply (parked_inv _ Pb).
    + unfold motorEnable. rewrite configureTimer_motor. motor_fields.
      rewrite motor_on_motor.
      destruct a, b; motor_fields; apply (parked_inv _ Pb).
    + unfold motorEnable. rewrite configureTimer_motor. motor_fields.
      rewrite motor_on_motor.
      destruct a, b; motor_fields; apply (parked_inv _ Pb).
  - (* A *) take_state H. apply parked_on_motor; [parked_by_fields|exact Pb].
  - (* B *) take_state H. apply parked_on_motor; [parked_by_fields|exact Pb].
  - (* S *) take_state H. apply parked_on_motor; [parked_by_fields|exact Pb].
  - (* n *) take_state H. exact Pb.
  - (* N *) take_state H. apply parked_on_motor; [parked_by_fields|exact Pb].
  - (* d *) take_state H. exact Pb.
  - (* D *) destruct a; take_state H;
      (apply parked_shared; [intros x; destruct x; reflexivity|exact Pb]).
  - (* z *) take_state H. exact Pb.
  - (* Z *) take_state H. apply parked_on_motor; [parked_by_fields|exact Pb].
  - (* c *) take_state H. exact Pb.
  - (* C *) take_state H. apply parked_on_motor; [parked_by_fields|exact Pb].
  - (* q *) take_state H. exact Pb.
  - (* Q *) destruct a; take_state H;
      (apply parked_shared; [intros x; destruct x; reflexivity|exact Pb]).
  - (* x *) destruct (accelTableIndex (motor a s) <? AccelTableLength);
      [|discriminate].
    take_state H. apply parked_on_motor; [apply keeps_parked_advance|exact Pb].
  - (* X *) destruct (accelTableIndex (motor a s) <? AccelTableLength);
      [|discriminate].
    take_state H. apply parked_set_motor; [|exact Pb].
    apply keeps_parked_advance.
    rewrite <- (P a). apply parked_same; reflexivity.
  - (* Y *) destruct (AccelTableLength <=? _); take_state H;
      (apply parked_set_motor; [|exact Pb]);
      rewrite <- (P a); apply parked_same; reflexivity.
  - (* O *)
    destruct (negb (progMode (set_progMode (u8 (buffer0 - char0)) s) =? 0));
      take_state H.
    + apply parked_on_motor; [parked_by_clearing|].
      apply parked_on_motor; [parked_by_clearing|].
      unfold motorDisable.
      apply parked_on_motor; [parked_by_fields|].
      apply parked_on_motor; [intros m _; apply parked_emergency|].
      apply parked_on_motor; [parked_by_fields|].
      apply parked_on_motor; [intros m _; apply parked_emergency|].
      apply parked_shared; [intros x; destruct x; reflexivity|exact Pb].
    + apply parked_shared; [intros x; destruct x; reflexivity|exact Pb].
  - (* T *) split_ifs; take_state H; try exact Pb;
      (apply parked_shared; [intros x; destruct x; reflexivity|exact Pb]).
  - (* J *) take_state H. exact Pb.
  - (* R *) take_state H. exact Pb.
  - (* other *) take_state H. exact Pb.
Qed.

(** X15.  Axes at rest.  With both axes at rest (stopped, and [readyToGo]
    neither 1 nor 2), no command except [J] outside programming mode
    changes that: whatever is sent, both axes are at rest afterwards, and
    the [readyToGo] blocks of the run loop leave the state as it is.  In
    programming mode this holds for every command. *)
Theorem commands_keep_axes_parked (hdr : Header) (c : Command) (a : Axis)
    (s : State) (d : Decoded) :
  (forall b, parked (motor b s) = true) ->
  c <> Cmd_J \/ progMode s <> 0 ->
  decodeCommand hdr c a s = Some d ->
  (forall b, parked (motor b (dec_state d)) = true)
  /\ (forall b, main_readyToGo b (dec_state d) = dec_state d).
Proof.
  intros P Hc H.
  assert (Q : forall b, parked (motor b (dec_state d)) = true).
  { unfold decodeCommand in H.
    destruct (decodeSwitch hdr c a s) as [[[s1 r] ok]|] eqn:Hsw; [|discriminate].
    pose proof (decodeSwitch_keeps_parked hdr c a s s1 r ok Hsw P) as P1.
    destruct c; try (injection H as <-; exact P1).
    (* J: the only case left *)
    destruct Hc as [Hc|Hc]; [contradiction Hc; reflexivity|].
    unfold decodeSwitch in Hsw. apply Some_state in Hsw. subst s1.
    destruct (Z.eqb_spec (progMode s) 0); [contradiction|].
    injection H as <-. exact P. }
  split; [exact Q|].
  intros b. unfold main_readyToGo.
  destruct (parked_inv _ (Q b)) as (_ & R1 & _).
  destruct (Z.eqb_spec (readyToGo (motor b (dec_state d))) 1);
    [contradiction|reflexivity].
Qed.

Lemma commands_keep_axes_parked_witness :
  exists d,
    (forall b, parked (motor b example_boot) = true)
    /\ decodeCommand example_header (Cmd_G 49 48) RA example_boot = Some d
    /\ (forall b, parked (motor b (dec_state d)) = true)
    /\ main_readyToGo RA (dec_state d) = dec_state d.
Proof.
  assert (P : forall b, parked (motor b example_boot) = true)
    by (intros b; destruct b; reflexivity).
  assert (C : Cmd_G 49 48 <> Cmd_J \/ progMode example_boot <> 0)
    by (left; discriminate).
  eexists.
  assert (E : decodeCommand example_header (Cmd_G 49 48) RA example_boot
              = Some (mkDecoded
                        (on_motor RA
                           (fun m => set_readyToGo 0
                              (cmd_setDir CMD_FORWARD (cmd_setGVal 1 m)))
                           example_boot) true 0 true))
    by reflexivity.
  destruct (commands_keep_axes_parked _ _ _ _ _ P C E) as (A & B).
  split; [exact P|]. split; [exact E|]. split; [exact A|exact (B RA)].
Defined.

(** X16.  The [O] command.  It stores the payload digit as [progMode].
    For a digit other than 0 (entering programming mode) both axes come to
    rest at once, whatever they were doing: stopped, timer off, driver
    disabled, goto mode and [readyToGo] cleared, position kept.  For the
    digit 0 nothing but [progMode] changes. *)
Theorem decodeCommand_O_effect (hdr : Header) (buffer0 : Z) (a : Axis)
    (s : State) :
  exists d,
    decodeCommand hdr (Cmd_O buffer0) a s = Some d
    /\ dec_ok d = true
    /\ progMode (dec_state d) = u8 (buffer0 - char0)
    /\ (u8 (buffer0 - char0) <> 0 ->
        forall x,
          motor x (dec_state d)
          = set_readyToGo 0
              (cmd_setFVal CMD_DISABLED
                 (set_enablePin HIGH (motorStop true (motor x s))))
          /\ stopped (motor x (dec_state d)) = true
          /\ timerIrqEnabled (motor x (dec_state d)) = false
          /\ timerClockOn (motor x (dec_state d)) = false
          /\ FVal (motor x (dec_state d)) = CMD_DISABLED
          /\ readyToGo (motor x (dec_state d)) = 0
          /\ gotoEn (motor x (dec_state d)) = false
          /\ jVal (motor x (dec_state d)) = jVal (motor x s))
    /\ (u8 (buffer0 - char0) = 0 ->
        forall x, motor x (dec_state d) = motor x s).
Proof.
  unfold decodeCommand, decodeSwitch. cbv zeta.
  assert (Hp : progMode (set_progMode (u8 (buffer0 - char0)) s)
               = u8 (buffer0 - char0)) by reflexivity.
  rewrite Hp.
  destruct (Z.eqb_spec (u8 (buffer0 - char0)) 0) as [E|E]; cbn [negb];
    eexists; (split; [reflexivity|]); cbn [dec_state dec_ok];
    (split; [reflexivity|]).
  - split; [destruct a; reflexivity|].
    split; [intros; contradiction|].
    intros _ x. destruct x; reflexivity.
  - split; [reflexivity|]. split; [|intros; contradiction].
    intros _ x.
    assert (M : motor x
                  (on_motor DC (set_readyToGo 0)
                     (on_motor RA (set_readyToGo 0)
                        (motorDisable DC
                           (on_motor DC (motorStop true)
                              (motorDisable RA
                                 (on_motor RA (motorStop true)
                                    (set_progMode (u8 (buffer0 - char0)) s)))))))
                = set_readyToGo 0
                    (cmd_setFVal CMD_DISABLED
                       (set_enablePin HIGH (motorStop true (motor x s))))).
    { unfold motorDisable. rewrite !motor_on_motor. destruct x; reflexivity. }
    rewrite M. repeat split.
Qed.

Lemma decodeCommand_O_effect_witness :
  exists s d,
    state_after example_reverse_slew = s
    /\ decodeCommand example_header (Cmd_O 49) RA s = Some d
    /\ stopped (motor RA s) = false
    /\ progMode (dec_state d) = 1
    /\ stopped (motor RA (dec_state d)) = true
    /\ timerClockOn (motor RA (dec_state d)) = false.
Proof.
  eexists.
  destruct (decodeCommand_O_effect example_header 49 RA
              (state_after example_reverse_slew)) as (d & E & _ & P & A & _).
  exists d.
  assert (N : u8 (49 - char0) <> 0) by (vm_compute; discriminate).
  destruct (A N RA) as (_ & A1 & _ & A3 & _).
  split; [reflexivity|]. split; [exact E|]. split; [reflexivity|].
  split; [exact P|]. split; [exact A1|exact A3].
Defined.

(** X17.  The [b] command.  In programming mode it reports the divisor
    [bVal] as stored.  In normal operation it reports
    [bVal * (2 * siderealIVal + 1) / (2 * siderealIVal)], which for a
    sidereal period below 32768 and a product that fits 32 bits is
    [bVal + bVal / (2 * siderealIVal)]; with a sidereal period of 0 the
    computation divides by zero. *)
Theorem decodeCommand_b_response (hdr : Header) (axis : Axis) (s : State) :
  let m := motor axis s in
  (progMode s <> 0 ->
     decodeCommand hdr Cmd_b axis s = Some (mkDecoded s true (bVal m) true))
  /\ (progMode s = 0 -> 0 < siderealIVal m < 32768 -> 0 <= bVal m ->
      bVal m * (2 * siderealIVal m + 1) < 4294967296 ->
      decodeCommand hdr Cmd_b axis s
      = Some (mkDecoded s true (bVal m + bVal m / (2 * siderealIVal m)) true))
  /\ (progMode s = 0 -> siderealIVal m = 0 ->
      decodeCommand hdr Cmd_b axis s = None).
Proof.
  intros m. unfold decodeCommand, decodeSwitch. fold m. cbv zeta.
  split; [|split].
  - intros Hp. destruct (Z.eqb_spec (progMode s) 0); [contradiction|reflexivity].
  - intros Hp HI Hb Hprod. rewrite Hp. cbn [Z.eqb].
    rewrite Z.shiftl_mul_pow2 by lia. change (2 ^ 1) with 2.
    rewrite (u16_small (siderealIVal m * 2)) by lia.
    destruct (Z.eqb_spec (siderealIVal m * 2) 0); [lia|].
    rewrite (u16_small (siderealIVal m * 2 + 1)) by lia.
    rewrite u32_small by nia.
    replace (bVal m * (siderealIVal m * 2 + 1))
      with (bVal m * (siderealIVal m * 2) + bVal m) by ring.
    rewrite Z.div_add_l by lia.
    replace (siderealIVal m * 2) with (2 * siderealIVal m) by ring. reflexivity.
  - intros Hp HI. rewrite Hp, HI. reflexivity.
Qed.

Lemma decodeCommand_b_response_witness :
  progMode example_boot = 0
  /\ 0 < siderealIVal (motor RA example_boot) < 32768
  /\ decodeCommand example_header Cmd_b RA example_boot
     = Some (mkDecoded example_boot true 40020 true).
Proof.
  assert (P : progMode example_boot = 0) by reflexivity.
  assert (I : 0 < siderealIVal (motor RA example_boot) < 32768)
    by (vm_compute; split; reflexivity).
  assert (B : 0 <= bVal (motor RA example_boot)) by (vm_compute; discriminate).
  assert (M : bVal (motor RA example_boot)
              * (2 * siderealIVal (motor RA example_boot) + 1) < 4294967296)
    by (vm_compute; reflexivity).
  destruct (decodeCommand_b_response example_header RA example_boot)
    as (_ & A & _).
  split; [exact P|]. split; [exact I|]. exact (A P I B M).
Defined.

(** X18.  Requesting a movement.  Outside programming mode [J] marks the
    axis ready ([readyToGo] 1) and, for an even mode [GVal], sets the goto
    flag; it starts nothing itself.  The next [readyToGo] block of the run
    loop starts the axis when it is stopped, as a slew ([readyToGo] 2) for
    an odd mode and as a goto ([readyToGo] 0) for an even one, and leaves
    the request pending while the axis is still running. *)
Theorem decodeCommand_J_then_run_loop (hdr : Header) (axis : Axis) (s : State) :
  progMode s = 0 ->
  let m := motor axis s in
  exists d,
    decodeCommand hdr Cmd_J axis s = Some d
    /\ dec_ok d = true
    /\ (let m1 := motor axis (dec_state d) in
        readyToGo m1 = 1
        /\ gotoEn m1 = (if Z.odd (GVal m) then gotoEn m else true)
        /\ stopped m1 = stopped m
        /\ timerIrqEnabled m1 = timerIrqEnabled m
        /\ timerClockOn m1 = timerClockOn m
        /\ currentIVal m1 = currentIVal m /\ jVal m1 = jVal m)
    /\ (let m2 := motor axis (main_readyToGo axis (dec_state d)) in
        (stopped m = true ->
           stopped m2 = false /\ timerIrqEnabled m2 = true
           /\ readyToGo m2 = (if Z.odd (GVal m) then 2 else 0)
           /\ gotoRunning m2 = (if Z.odd (GVal m) then gotoRunning m else true))
        /\ (stopped m = false ->
            main_readyToGo axis (dec_state d) = dec_state d)).
Proof.
  intros Hp m. unfold decodeCommand, decodeSwitch. rewrite Hp. cbn [Z.eqb].
  eexists. split; [reflexivity|]. cbn [dec_state dec_ok].
  split; [reflexivity|].
  rewrite motor_set_motor. fold m. cbv zeta.
  assert (G : GVal (set_readyToGo 1 m) = GVal m) by reflexivity.
  rewrite G, land_1_odd.
  set (m1 := if negb (Z.odd (GVal m))
             then cmd_setGotoEn CMD_ENABLED (set_readyToGo 1 m)
             else set_readyToGo 1 m).
  assert (F : readyToGo m1 = 1 /\ stopped m1 = stopped m /\ GVal m1 = GVal m
              /\ gotoRunning m1 = gotoRunning m).
  { unfold m1. destruct (Z.odd (GVal m)); repeat split. }
  destruct F as (F1 & F2 & F3 & F4).
  split.
  { unfold m1. destruct (Z.odd (GVal m)); repeat split. }
  split.
  - intros Hs.
    assert (R : readyToGo (motor axis (set_motor axis m1 s)) = 1)
      by (rewrite motor_set_motor; exact F1).
    assert (S : stopped (motor axis (set_motor axis m1 s)) = true)
      by (rewrite motor_set_motor, F2; exact Hs).
    rewrite (main_readyToGo_fires axis _ R S).
    rewrite !motor_set_motor. rewrite F3.
    destruct (main_selectSpeed_spec (set_motor axis m1 s) m1) as (Q1 & Q2 & _).
    cbv zeta in Q1, Q2.
    destruct (Z.odd (GVal m)).
    + destruct (set_readyToGo_frame 2
                  (motorStart (main_selectSpeed (set_motor axis m1 s) m1)))
        as (B1 & B2 & B3 & _ & B5 & _).
      rewrite B1, B2, B3, B5.
      destruct (motorStart_frame (main_selectSpeed (set_motor axis m1 s) m1))
        as (_ & _ & _ & C4 & _ & _ & _ & _ & _ & _ & _ & _ & _ & _ & _ & C16).
      destruct (motorStart_arms (main_selectSpeed (set_motor axis m1 s) m1))
        as (D1 & _).
      rewrite C16, D1, C4, Q2, F4. repeat split.
    + destruct (set_readyToGo_frame 0
                  (gotoMode (main_selectSpeed (set_motor axis m1 s) m1)))
        as (B1 & B2 & B3 & _ & B5 & _).
      rewrite B1, B2, B3, B5.
      destruct (gotoMode_frame (main_selectSpeed (set_motor axis m1 s) m1))
        as (C1 & C2 & _ & _ & C5 & _).
      rewrite C1, C2, C5. repeat split.
  - intros Hs. unfold main_readyToGo. rewrite motor_set_motor, F1, F2, Hs.
    reflexivity.
Qed.

Lemma decodeCommand_J_then_run_loop_witness :
  exists d,
    progMode example_boot = 0
    /\ decodeCommand example_header Cmd_J RA example_boot = Some d
    /\ stopped (motor RA example_boot) = true
    /\ readyToGo (motor RA (dec_state d)) = 1
    /\ stopped (motor RA (main_readyToGo RA (dec_state d))) = false.
Proof.
  assert (P : progMode example_boot = 0) by reflexivity.
  destruct (decodeCommand_J_then_run_loop example_header RA example_boot P)
    as (d & E & _ & A & B & _).
  exists d. cbv zeta in A, B. destruct A as (A1 & _).
  assert (S : stopped (motor RA example_boot) = true) by reflexivity.
  destruct (B S) as (B1 & _).
  split; [exact P|]. split; [exact E|]. split; [exact S|].
  split; [exact A1|exact B1].
Defined.

(** ** The rate table for any divisor *)





(** ** The run loop *)

Lemma motor_set_hcFastSpeed (v : bool) (s : State) (a : Axis) :
  motor a (set_hcFastSpeed v s) = motor a s.
Proof. destruct a; reflexivity. Qed.

Lemma motor_set_standalonePull (v : bool) (s : State) (a : Axis) :
  motor a (set_standalonePull v s) = motor a s.
Proof. destruct a; reflexivity. Qed.

Lemma motor_set_syntaMode (v : bool) (s : State) (a : Axis) :
  motor a (set_syntaMode v s) = motor a s.
Proof. destruct a; reflexivity. Qed.

Lemma motor_set_standaloneMode (v : bool) (s : State) (a : Axis) :
  motor a (set_standaloneMode v s) = motor a s.
Proof. destruct a; reflexivity. Qed.

Lemma motor_set_serialEnabled (v : bool) (s : State) (a : Axis) :
  motor a (set_serialEnabled v s) = motor a s.
Proof. destruct a; reflexivity. Qed.

Lemma motor_set_st4IrqEnabled (v : bool) (s : State) (a : Axis) :
  motor a (set_st4IrqEnabled v s) = motor a s.
Proof. destruct a; reflexivity. Qed.

Lemma motor_set_spiEnabled (v : bool) (s : State) (a : Axis) :
  motor a (set_spiEnabled v s) = motor a s.
Proof. destruct a; reflexivity. Qed.

(** X20.  The speed switch of the basic hand controller.  After the block
    has run, [hcFastSpeed] is the opposite of the level of the speed pin
    (low selects the fast speeds); the ST4 speeds are reloaded only when
    the pin has changed, so running the block again with the same level
    changes nothing; the axes are never touched. *)
Theorem main_basicSpeed_follows_pin (hdr : Header) (speedPin : bool) (s : State) :
  hcFastSpeed (main_basicSpeed hdr speedPin s) = negb speedPin
  /\ main_basicSpeed hdr speedPin (main_basicSpeed hdr speedPin s)
     = main_basicSpeed hdr speedPin s
  /\ (hcFastSpeed s = negb speedPin -> main_basicSpeed hdr speedPin s = s)
  /\ (forall a, motor a (main_basicSpeed hdr speedPin s) = motor a s).
Proof.
  assert (F : hcFastSpeed (main_basicSpeed hdr speedPin s) = negb speedPin).
  { unfold main_basicSpeed.
    destruct speedPin, (hcFastSpeed s) eqn:E; cbn [negb]; try reflexivity;
      exact E. }
  assert (I : forall t, hcFastSpeed t = negb speedPin ->
                        main_basicSpeed hdr speedPin t = t).
  { intros t Ht. unfold main_basicSpeed. rewrite Ht.
    destruct speedPin; reflexivity. }
  split; [exact F|]. split; [exact (I _ F)|]. split; [exact (I s)|].
  intros a. apply main_basicSpeed_motor.
Qed.

(** Rewrites the axis of a state through the layers of updates. *)
Ltac axis_of_layers :=
  repeat first
    [ rewrite motor_on_motor_same
    | rewrite motor_on_motor_other by discriminate
    | rewrite motor_set_hcFastSpeed
    | rewrite motor_set_standalonePull
    | rewrite motor_set_syntaMode
    | rewrite motor_set_standaloneMode
    | rewrite motor_set_serialEnabled
    | rewrite motor_set_st4IrqEnabled
    | rewrite motor_set_spiEnabled
    | rewrite Commands_configureST4Speed_motor
    | rewrite configureTimer_motor ].

Lemma main_enterStandalone_advanced_motor (hdr : Header) (s : State) (a : Axis) :
  motor a (main_enterStandalone hdr ADVANCED_HC_MODE s)
  = standaloneBase (motor a s).
Proof.
  unfold main_enterStandalone, standaloneBase. cbv zeta.
  destruct a; axis_of_layers; reflexivity.
Qed.

Lemma main_enterStandalone_basic_motor (hdr : Header) (s : State) :
  let state := if defaultSpeedState s then modeStateFast s else modeStateNorm s in
  motor RA (main_enterStandalone hdr BASIC_HC_MODE s) = basicRA state (motor RA s)
  /\ motor DC (main_enterStandalone hdr BASIC_HC_MODE s)
     = basicDC state (motor DC s).
Proof.
  intros state. unfold main_enterStandalone, motorEnable. cbv zeta.
  split; axis_of_layers;
    match goal with
    | |- context [setModePins ?X] => assert (E : X = state) by reflexivity
    end;
    rewrite !E; unfold basicRA, basicDC, timerOff, standaloneBase;
    cbv beta zeta; reflexivity.
Qed.

Lemma standaloneBase_fields (m : Motor) :
  stopped (standaloneBase m) = true
  /\ timerIrqEnabled (standaloneBase m) = false
  /\ timerClockOn (standaloneBase m) = false
  /\ jVal (standaloneBase m) = 8388608
  /\ gotoEn (standaloneBase m) = false
  /\ gotoRunning (standaloneBase m) = false
  /\ readyToGo (standaloneBase m) = 0
  /\ siderealIVal (standaloneBase m) = siderealIVal m.
Proof. repeat split. Qed.

(** X21.  Entering standalone mode.  When the probe of the
    hand-controller line finds no controller the block changes nothing.
    When it finds one, both axes are stopped at once with their timers off
    and goto mode cleared, both positions are set to mid-range (0x800000),
    the serial port is disabled and [standaloneMode] is set, after which the
    run loop does not probe again.  With an advanced controller command
    processing stays on, the ST4 interrupt is disabled and SPI enabled;
    with a basic one command processing is switched off and the ST4
    interrupt stays as it was. *)
Theorem main_enterStandalone_effect (hdr : Header) (mode : HCMode) (s : State) :
  let s' := main_enterStandalone hdr mode s in
  (mode = EQMOD_MODE -> s' = s)
  /\ (mode <> EQMOD_MODE ->
      (forall a,
         stopped (motor a s') = true
         /\ timerIrqEnabled (motor a s') = false
         /\ timerClockOn (motor a s') = false
         /\ jVal (motor a s') = 8388608
         /\ gotoEn (motor a s') = false
         /\ gotoRunning (motor a s') = false)
      /\ standaloneMode s' = true /\ serialEnabled s' = false
      /\ syntaMode s' = (match mode with ADVANCED_HC_MODE => true | _ => false end)
      /\ st4IrqEnabled s'
         = (match mode with ADVANCED_HC_MODE => false | _ => st4IrqEnabled s end)
      /\ spiEnabled s'
         = (match mode with ADVANCED_HC_MODE => true | _ => spiEnabled s end)
      /\ (wdtArmed s = false ->
          forall irqPulledLow irqPulledHigh,
            step hdr (Ev_probe irqPulledLow irqPulledHigh) s' = None)).
Proof.
  intros s'. unfold s'. split; [intros ->; reflexivity|].
  intros Hmode. destruct mode; [contradiction Hmode; reflexivity| |].
  - (* basic hand controller *)
    destruct (main_enterStandalone_basic_motor hdr s) as (Mra & Mdc).
    cbv zeta in Mra, Mdc.
    split.
    { intros a. destruct a; [rewrite Mra|rewrite Mdc]; repeat split. }
    assert (F : standaloneMode (main_enterStandalone hdr BASIC_HC_MODE s) = true
                /\ serialEnabled (main_enterStandalone hdr BASIC_HC_MODE s) = false
                /\ syntaMode (main_enterStandalone hdr BASIC_HC_MODE s) = false
                /\ st4IrqEnabled (main_enterStandalone hdr BASIC_HC_MODE s)
                   = st4IrqEnabled s
                /\ spiEnabled (main_enterStandalone hdr BASIC_HC_MODE s)
                   = spiEnabled s
                /\ wdtArmed (main_enterStandalone hdr BASIC_HC_MODE s)
                   = wdtArmed s).
    { unfold main_enterStandalone, motorEnable, configureTimer,
        Commands_configureST4Speed. cbv zeta.
      destruct (st4Speeds hdr CMD_ST4_STANDALONE _ _) as [[[p q] r] t].
      repeat split. }
    destruct F as (F1 & F2 & F3 & F4 & F5 & F6).
    repeat (split; [assumption|]).
    intros W l h. unfold step. rewrite F6, W, F1. reflexivity.
  - (* advanced hand controller *)
    split.
    { intros a. rewrite main_enterStandalone_advanced_motor. repeat split. }
    assert (F : wdtArmed (main_enterStandalone hdr ADVANCED_HC_MODE s)
                = wdtArmed s) by reflexivity.
    repeat (split; [reflexivity|]).
    intros W l h. unfold step. rewrite F, W. reflexivity.
Qed.

Lemma main_enterStandalone_effect_witness :
  exists s,
    state_after example_reverse_slew = s
    /\ stopped (motor RA s) = false
    /\ stopped (motor RA (main_enterStandalone example_header ADVANCED_HC_MODE s))
       = true
    /\ jVal (motor RA (main_enterStandalone example_header ADVANCED_HC_MODE s))
       = 8388608
    /\ standaloneMode (main_enterStandalone example_header ADVANCED_HC_MODE s)
       = true.
Proof.
  eexists. split; [reflexivity|].
  destruct (main_enterStandalone_effect example_header ADVANCED_HC_MODE
              (state_after example_reverse_slew)) as (_ & A).
  destruct A as (A1 & A2 & _); [discriminate|].
  destruct (A1 RA) as (B1 & _ & _ & B4 & _).
  split; [reflexivity|]. split; [exact B1|]. split; [exact B4|exact A2].
Defined.

Lemma main_selectSpeed_normal (s : State) (m : Motor) :
  GVal m = 1 ->
  IVal (main_selectSpeed s m) = IVal m
  /\ stepDir (main_selectSpeed s m) = (if dir m then -1 else 1)
  /\ highSpeedMode (main_selectSpeed s m) = false
  /\ stopped (main_selectSpeed s m) = stopped m
  /\ dir (main_selectSpeed s m) = dir m.
Proof.
  intros H. unfold main_selectSpeed, setModePins, cmd_updateStepDir. cbv zeta.
  rewrite H. cbn [Z.eqb Pos.eqb orb].
  destruct (canJumpToHighspeed s), (dir m) eqn:Hd; motor_fields; rewrite ?Hd;
    repeat split.
Qed.

Lemma set_readyToGo_dir (v : Z) (m : Motor) :
  dir (set_readyToGo v m) = dir m.
Proof. reflexivity. Qed.

(** X22.  A basic hand controller starts sidereal tracking.  Entering
    standalone mode with a basic controller enables both drivers, puts
    both axes in slew mode and forward direction, requests the sidereal
    period on RA and marks RA ready; the [readyToGo] block of RA then
    starts RA as a normal-speed forward slew with the sidereal period as
    target, open to live speed updates ([readyToGo] 2), while DC stays at
    rest. *)
Theorem basic_controller_starts_tracking (hdr : Header) (s : State) :
  let s1 := main_enterStandalone hdr BASIC_HC_MODE s in
  let s2 := main_readyToGo RA s1 in
  (readyToGo (motor RA s1) = 1 /\ readyToGo (motor DC s1) = 0
   /\ IVal (motor RA s1) = u16 (siderealIVal (motor RA s))
   /\ forall a, GVal (motor a s1) = 1 /\ dir (motor a s1) = CMD_FORWARD
                /\ FVal (motor a s1) = CMD_ENABLED
                /\ enablePin (motor a s1) = LOW)
  /\ (stopped (motor RA s2) = false /\ timerIrqEnabled (motor RA s2) = true
      /\ timerClockOn (motor RA s2) = true /\ readyToGo (motor RA s2) = 2
      /\ currentIVal (motor RA s2) = u16 (siderealIVal (motor RA s))
      /\ highSpeedMode (motor RA s2) = false /\ stepDir (motor RA s2) = 1
      /\ dir (motor RA s2) = CMD_FORWARD)
  /\ motor DC s2 = motor DC s1.
Proof.
  intros s1 s2.
  destruct (main_enterStandalone_basic_motor hdr s) as (Mra & Mdc).
  cbv zeta in Mra, Mdc. fold s1 in Mra, Mdc.
  set (state := if defaultSpeedState s then modeStateFast s else modeStateNorm s)
    in *.
  assert (Fra : readyToGo (basicRA state (motor RA s)) = 1
                /\ IVal (basicRA state (motor RA s))
                   = u16 (siderealIVal (motor RA s))
                /\ GVal (basicRA state (motor RA s)) = 1
                /\ dir (basicRA state (motor RA s)) = CMD_FORWARD
                /\ FVal (basicRA state (motor RA s)) = CMD_ENABLED
                /\ enablePin (basicRA state (motor RA s)) = LOW
                /\ stopped (basicRA state (motor RA s)) = true)
    by (repeat split).
  assert (Fdc : readyToGo (basicDC state (motor DC s)) = 0
                /\ GVal (basicDC state (motor DC s)) = 1
                /\ dir (basicDC state (motor DC s)) = CMD_FORWARD
                /\ FVal (basicDC state (motor DC s)) = CMD_ENABLED
                /\ enablePin (basicDC state (motor DC s)) = LOW)
    by (repeat split).
  destruct Fra as (R1 & R2 & R3 & R4 & R5 & R6 & R7).
  destruct Fdc as (D1 & D2 & D3 & D4 & D5).
  split.
  { rewrite Mra, Mdc. split; [exact R1|]. split; [exact D1|].
    split; [exact R2|].
    intros a. destruct a; [rewrite Mra|rewrite Mdc]; repeat split; assumption. }
  assert (Hr : readyToGo (motor RA s1) = 1) by (rewrite Mra; exact R1).
  assert (Hs : stopped (motor RA s1) = true) by (rewrite Mra; exact R7).
  unfold s2. rewrite (main_readyToGo_fires RA s1 Hr Hs).
  rewrite Mra, R3. cbn [Z.odd].
  split; [|apply motor_set_motor_other; discriminate].
  rewrite motor_set_motor.
  destruct (main_selectSpeed_normal s1 (basicRA state (motor RA s)) R3)
    as (S1 & S2 & S3 & S4 & S5).
  destruct (motorStart_frame (main_selectSpeed s1 (basicRA state (motor RA s))))
    as (_ & _ & _ & _ & _ & C6 & C7 & C8 & _ & _ & _ & _ & _ & _ & C15 & C16).
  destruct (motorStart_arms (main_selectSpeed s1 (basicRA state (motor RA s))))
    as (A1 & A2).
  destruct (set_readyToGo_frame 2
              (motorStart (main_selectSpeed s1 (basicRA state (motor RA s)))))
    as (B1 & B2 & B3 & B4 & _ & B6 & B7 & B8 & _).
  rewrite B1, B2, B3, B4, B6, B7, B8, set_readyToGo_dir.
  rewrite C16, A1, (A2 (eq_trans S4 R7)), C15, S1, R2, C8, S3, C7, S2, C6, S5, R4.
  rewrite (u16_small (u16 _)) by apply u16_range.
  repeat split.
Qed.

(** ** The ST4 handler *)

Lemma motorStart_keeps (m : Motor) :
  jVal (motorStart m) = jVal m /\ HVal (motorStart m) = HVal m
  /\ IVal (motorStart m) = IVal m /\ readyToGo (motorStart m) = readyToGo m
  /\ gotoEn (motorStart m) = gotoEn m
  /\ gotoRunning (motorStart m) = gotoRunning m.
Proof.
  destruct (motorStart_frame m)
    as (A1 & A2 & _ & A4 & _ & _ & _ & _ & _ & A10 & A11 & _).
  pose proof (motorStart_IVal m) as A3.
  repeat split; assumption.
Qed.

Lemma st4_setRASpeed_keeps (b dir' : bool) (stepDir' newSpeed : Z) (m : Motor) :
  let m' := st4_setRASpeed b dir' stepDir' newSpeed m in
  jVal m' = jVal m /\ HVal m' = HVal m /\ IVal m' = IVal m
  /\ readyToGo m' = readyToGo m /\ gotoEn m' = gotoEn m
  /\ gotoRunning m' = gotoRunning m.
Proof.
  intros m'. unfold m', st4_setRASpeed. cbv zeta. destruct b.
  - destruct (motorStart_keeps
                (set_GVal 1 (set_dir dir' (set_stepDir (s8 stepDir')
                                             (set_currentIVal (u16 newSpeed) m)))))
      as (A1 & A2 & A3 & A4 & A5 & A6).
    rewrite A1, A2, A3, A4, A5, A6. repeat split.
  - destruct (stopSpeed (set_currentIVal (u16 newSpeed) m)
              <? currentIVal (set_currentIVal (u16 newSpeed) m));
      repeat split.
Qed.

Lemma st4_RA_keeps (pins : ST4Pins) (s : State) :
  jVal (ra (st4_RA pins s)) = jVal (ra s)
  /\ HVal (ra (st4_RA pins s)) = HVal (ra s)
  /\ IVal (ra (st4_RA pins s)) = IVal (ra s)
  /\ readyToGo (ra (st4_RA pins s)) = readyToGo (ra s)
  /\ gotoEn (ra (st4_RA pins s)) = gotoEn (ra s)
  /\ gotoRunning (ra (st4_RA pins s)) = gotoRunning (ra s).
Proof.
  assert (R : forall x t, ra (set_ra x t) = x) by reflexivity.
  unfold st4_RA. cbv zeta.
  repeat match goal with
         | |- context [if ?c then set_ra _ _ else _] => destruct c
         end;
    rewrite R; apply st4_setRASpeed_keeps.
Qed.

Lemma st4_DEC_keeps (pins : ST4Pins) (s : State) :
  jVal (dc (st4_DEC pins s)) = jVal (dc s)
  /\ HVal (dc (st4_DEC pins s)) = HVal (dc s)
  /\ IVal (dc (st4_DEC pins s)) = IVal (dc s)
  /\ readyToGo (dc (st4_DEC pins s)) = readyToGo (dc s)
  /\ gotoEn (dc (st4_DEC pins s)) = gotoEn (dc s)
  /\ gotoRunning (dc (st4_DEC pins s)) = gotoRunning (dc s).
Proof.
  assert (R : forall x t, dc (set_dc x t) = x) by reflexivity.
  unfold st4_DEC, st4_setDECSpeed. cbv zeta.
  destruct (negb (pinDCN pins)); [|destruct (negb (pinDCP pins))]; rewrite R.
  - destruct (motorStart_keeps
                (set_GVal 1 (set_currentIVal (u16 (st4DecIVal s))
                               (set_dir CMD_REVERSE (set_stepDir (s8 255) (dc s))))))
      as (A1 & A2 & A3 & A4 & A5 & A6).
    rewrite A1, A2, A3, A4, A5, A6. repeat split.
  - destruct (motorStart_keeps
                (set_GVal 1 (set_currentIVal (u16 (st4DecIVal s))
                               (set_dir CMD_FORWARD (set_stepDir (s8 1) (dc s))))))
      as (A1 & A2 & A3 & A4 & A5 & A6).
    rewrite A1, A2, A3, A4, A5, A6. repeat split.
  - repeat split.
Qed.

(** X23.  What the ST4 handler leaves alone.  Whatever the buttons and
    whatever the axes are doing, the pin change interrupt changes neither
    the position, nor the goto distance, nor the period requested by the
    host, nor [readyToGo], nor the goto flags of either axis: it acts only
    on the target period, the stop speed, the direction and the mode of an
    axis, and on the engine through [motorStart]. *)
Theorem PCINT0_vect_keeps (pins : ST4Pins) (s : State) (a : Axis) :
  let m := motor a s in
  let m' := motor a (PCINT0_vect pins s) in
  jVal m' = jVal m /\ HVal m' = HVal m /\ IVal m' = IVal m
  /\ readyToGo m' = readyToGo m /\ gotoEn m' = gotoEn m
  /\ gotoRunning m' = gotoRunning m.
Proof.
  intros m m'. unfold m', m, PCINT0_vect.
  destruct (negb (gotoEn (ra s)) && negb (gotoEn (dc s))); [|repeat split].
  destruct a; cbn [motor].
  - rewrite ra_st4_DEC. apply st4_RA_keeps.
  - destruct (st4_DEC_keeps pins (st4_RA pins s)) as (A1 & A2 & A3 & A4 & A5 & A6).
    rewrite A1, A2, A3, A4, A5, A6, st4_RA_frame. repeat split.
Qed.

(** X24.  The DEC buttons.  With no goto enabled, a pressed DEC- button
    (read low) sets DC to reverse with a step of -1, a pressed DEC+ button
    (DEC- released) to forward with a step of +1; either way DC is put in
    slew mode and started through [motorStart], which makes the period
    requested by the host, [IVal[DC]], the target: the guide period
    [st4DecIVal] the handler has just written is replaced by it.  DEC- wins
    when both are pressed. *)
Theorem PCINT0_vect_DEC_pressed (pins : ST4Pins) (s : State) :
  gotoEn (ra s) = false -> gotoEn (dc s) = false ->
  pinDCN pins = LOW \/ pinDCP pins = LOW ->
  let m' := dc (PCINT0_vect pins s) in
  dir m' = (if pinDCN pins then CMD_FORWARD else CMD_REVERSE)
  /\ stepDir m' = (if pinDCN pins then 1 else -1)
  /\ GVal m' = 1
  /\ stopped m' = false /\ timerIrqEnabled m' = true
  /\ currentIVal m' = u16 (IVal (dc s)).
Proof.
  intros Hra Hdc Hpin m'. unfold LOW in Hpin.
  unfold m', PCINT0_vect. rewrite Hra, Hdc.
  cbn [negb andb]. unfold st4_DEC, st4_setDECSpeed. cbv zeta.
  rewrite st4_RA_frame.
  assert (R : forall x t, dc (set_dc x t) = x) by reflexivity.
  assert (K : forall d sd v,
            let m4 := set_GVal 1 (set_currentIVal v (set_dir d (set_stepDir sd (dc s)))) in
            dir (motorStart m4) = d /\ stepDir (motorStart m4) = sd
            /\ GVal (motorStart m4) = 1 /\ stopped (motorStart m4) = false
            /\ timerIrqEnabled (motorStart m4) = true
            /\ currentIVal (motorStart m4) = u16 (IVal (dc s))).
  { intros d sd v m4.
    destruct (motorStart_frame m4)
      as (_ & _ & _ & _ & _ & C6 & C7 & _ & C9 & _ & _ & _ & _ & _ & C15 & C16).
    destruct (motorStart_arms m4) as (D1 & _).
    rewrite C6, C7, C9, C15, C16, D1. repeat split. }
  destruct (pinDCN pins) eqn:Hn; cbn [negb].
  - destruct Hpin as [Hpin|Hpin]; [discriminate|]. rewrite Hpin. cbn [negb].
    rewrite R. apply (K CMD_FORWARD (s8 1)).
  - rewrite R. apply (K CMD_REVERSE (s8 255)).
Qed.

Lemma PCINT0_vect_DEC_pressed_witness :
  gotoEn (ra example_boot) = false /\ gotoEn (dc example_boot) = false
  /\ stopped (dc example_boot) = true
  /\ dir (dc (PCINT0_vect (mkST4Pins HIGH HIGH LOW HIGH) example_boot))
     = CMD_REVERSE
  /\ stepDir (dc (PCINT0_vect (mkST4Pins HIGH HIGH LOW HIGH) example_boot)) = -1
  /\ stopped (dc (PCINT0_vect (mkST4Pins HIGH HIGH LOW HIGH) example_boot))
     = false.
Proof.
  assert (H1 : gotoEn (ra example_boot) = false) by reflexivity.
  assert (H2 : gotoEn (dc example_boot) = false) by reflexivity.
  assert (H3 : pinDCN (mkST4Pins HIGH HIGH LOW HIGH) = LOW
               \/ pinDCP (mkST4Pins HIGH HIGH LOW HIGH) = LOW)
    by (left; reflexivity).
  destruct (PCINT0_vect_DEC_pressed (mkST4Pins HIGH HIGH LOW HIGH) example_boot
              H1 H2 H3) as (A1 & A2 & _ & A4 & _).
  split; [exact H1|]. split; [exact H2|]. split; [reflexivity|].
  split; [exact A1|]. split; [exact A2|exact A4].
Defined.

(** X25.  The RA guide buttons on a tracking axis.  With no goto enabled,
    RA running forward and the reverse guide direction disabled, a pressed
    RA- button makes the slower guide period [st4RAIVal[1]] the target and
    a pressed RA+ button (RA- released) the faster one [st4RAIVal[0]]; the
    stop speed is raised to the new target when it was below it, so that
    the axis does not halt, and direction, step, mode and the [stopped]
    flag are left alone. *)
Theorem PCINT0_vect_RA_guiding (pins : ST4Pins) (s : State) :
  gotoEn (ra s) = false -> gotoEn (dc s) = false ->
  stopped (ra s) = false -> st4RAReverse s = false ->
  dir (ra s) = CMD_FORWARD ->
  pinRAN pins = LOW \/ pinRAP pins = LOW ->
  let m := ra s in
  let m' := ra (PCINT0_vect pins s) in
  let newSpeed := u16 (if pinRAN pins then st4RAIVal0 s else st4RAIVal1 s) in
  currentIVal m' = newSpeed
  /\ stopSpeed m' = Z.max (stopSpeed m) newSpeed
  /\ dir m' = dir m /\ stepDir m' = stepDir m /\ GVal m' = GVal m
  /\ stopped m' = false.
Proof.
  intros Hra Hdc Hrun Hrev Hdir Hpin m m' newSpeed. unfold LOW in Hpin.
  unfold m', PCINT0_vect. rewrite Hra, Hdc. cbn [negb andb].
  rewrite ra_st4_DEC. unfold st4_RA. cbv zeta.
  rewrite Hrun, Hrev, Hdir.
  unfold CMD_FORWARD, CMD_STOPPED, CMD_REVERSE. cbn [Bool.eqb orb andb negb].
  assert (R : forall x t, ra (set_ra x t) = x) by reflexivity.
  unfold newSpeed.
  destruct (pinRAN pins) eqn:Hn; cbn [negb].
  - destruct Hpin as [Hpin|Hpin]; [discriminate|]. rewrite Hpin. cbn [negb].
    rewrite R.
    destruct (st4_setRASpeed_running false 1 (st4RAIVal0 s) (ra s))
      as (A1 & A2 & A3 & A4 & A5 & A6 & _).
    cbv zeta in A1. rewrite A1, A2, A3, A4, A5, A6. repeat split; assumption.
  - rewrite R.
    destruct (st4_setRASpeed_running false 1 (st4RAIVal1 s) (ra s))
      as (A1 & A2 & A3 & A4 & A5 & A6 & _).
    cbv zeta in A1. rewrite A1, A2, A3, A4, A5, A6. repeat split; assumption.
Qed.

Lemma PCINT0_vect_RA_guiding_witness :
  exists s,
    Commands_configureST4Speed example_header CMD_ST4_STANDALONE
      (on_motor RA (set_dir CMD_FORWARD) (state_after example_reverse_slew)) = s
    /\ stopped (ra s) = false /\ dir (ra s) = CMD_FORWARD
    /\ st4RAIVal0 s = 800
    /\ currentIVal (ra (PCINT0_vect (mkST4Pins HIGH LOW HIGH HIGH) s)) = 800
    /\ stopSpeed (ra (PCINT0_vect (mkST4Pins HIGH LOW HIGH HIGH) s)) = 800.
Proof.
  eexists. split; [vm_compute; reflexivity|].
  match goal with |- stopped (ra ?s) = false /\ _ =>
    assert (H1 : gotoEn (ra s) = false) by reflexivity;
    assert (H2 : gotoEn (dc s) = false) by reflexivity;
    assert (H3 : stopped (ra s) = false) by reflexivity;
    assert (H4 : st4RAReverse s = false) by reflexivity;
    assert (H5 : dir (ra s) = CMD_FORWARD) by reflexivity;
    assert (H6 : pinRAN (mkST4Pins HIGH LOW HIGH HIGH) = LOW
                 \/ pinRAP (mkST4Pins HIGH LOW HIGH HIGH) = LOW)
      by (right; reflexivity);
    destruct (PCINT0_vect_RA_guiding (mkST4Pins HIGH LOW HIGH HIGH) s
                H1 H2 H3 H4 H5 H6) as (A1 & A2 & _)
  end.
  split; [exact H3|]. split; [exact H5|]. split; [reflexivity|].
  split; [exact A1|exact A2].
Defined.

(** ** The engine halts *)

Lemma stepFalling_halting (m : Motor) (c : Z) :
  halting m -> c <= stopSpeed m ->
  halting (stepFalling m c)
  /\ stepPin (stepFalling m c) = LOW
  /\ walkLeft (stepFalling m c) <= walkLeft m.
Proof.
  unfold halting, walkLeft. intros (H1 & H2 & H3 & H4) Hc.
  unfold stepFalling, timerDisable, cmd_setStopped, cmd_setGotoEn. cbv zeta.
  motor_fields.
  destruct (gotoRunning m && negb (gotoDecelerating m));
    [destruct (gotoPosn m =? u32 (jVal m + stepDir m))|];
    motor_fields;
    (destruct (Z.ltb_spec (stopSpeed m) c); [lia|]);
    motor_fields; rewrite ?(u16_small (stopSpeed m + 1)) by lia;
    repeat split; lia.
Qed.

Lemma reloadRepeats_range (m : Motor) (i : Z) : 0 <= reloadRepeats m i < 256.
Proof. unfold reloadRepeats. destruct (highSpeedMode m); apply u8_range. Qed.

Lemma stepRising_halting (m : Motor) :
  halting m ->
  let m' := stepRising m (currentMotorSpeed m) in
  halting m' /\ stepPin m' = HIGH
  /\ (stopSpeed m' < currentMotorSpeed m' \/ walkLeft m' < walkLeft m).
Proof.
  intros H m'. unfold halting in H. destruct H as (H1 & H2 & H3 & H4).
  unfold halting, walkLeft, m', stepRising. cbv zeta. motor_fields.
  destruct (Z.eqb_spec (accelTableRepeatsLeft m) 0) as [Hr|Hr].
  - destruct (Z.ltb_spec (currentIVal m) (currentMotorSpeed m)) as [Hs|Hs].
    + destruct (AccelTableLength - 1 <=? accelTableIndex m).
      * motor_fields. repeat split; lia.
      * motor_fields.
        pose proof (u8_range (accelTableIndex m + 1)).
        destruct (Z.leb_spec
                    (speed (accelEntry
                              (set_accelTableIndex (u8 (accelTableIndex m + 1))
                                 (set_stepPin HIGH m))
                              (u8 (accelTableIndex m + 1))))
                    (currentIVal m)) as [Hle|Hgt];
          motor_fields.
        -- repeat split; lia.
        -- pose proof (reloadRepeats_range
                         (set_accelTableIndex (u8 (accelTableIndex m + 1))
                            (set_stepPin HIGH m))
                         (u8 (accelTableIndex m + 1))).
           repeat split; lia.
    + destruct (Z.ltb_spec (currentMotorSpeed m) (currentIVal m)) as [Hf|Hf].
      * destruct (Z.eqb_spec (accelTableIndex m) 0) as [Hz|Hz].
        -- motor_fields. repeat split; lia.
        -- motor_fields. rewrite (u8_small (accelTableIndex m - 1)) by lia.
           destruct (Z.leb_spec (currentIVal m)
                       (speed (accelEntry
                                 (set_accelTableIndex (accelTableIndex m - 1)
                                    (set_stepPin HIGH m))
                                 (accelTableIndex m - 1)))) as [Hle|Hgt];
             motor_fields.
           ++ repeat split; lia.
           ++ pose proof (reloadRepeats_range
                            (set_accelTableIndex (accelTableIndex m - 1)
                               (set_stepPin HIGH m))
                            (accelTableIndex m - 1)).
              repeat split; lia.
      * motor_fields. repeat split; lia.
  - motor_fields. rewrite (u8_small (accelTableRepeatsLeft m - 1)) by lia.
    repeat split; lia.
Qed.

Lemma afterReload_halting (m : Motor) :
  halting m ->
  halting (afterReload m)
  /\ walkLeft (afterReload m) = walkLeft m
  /\ stepPin (afterReload m) = stepPin m
  /\ irqToNextStep (afterReload m) = currentMotorSpeed m.
Proof. intros H. repeat split; apply H. Qed.

(** One interrupt either halts the axis or brings the halt nearer. *)
Lemma TIMER_CAPT_vect_progress (m : Motor) :
  halting m ->
  stopped (TIMER_CAPT_vect m) = true
  \/ (halting (TIMER_CAPT_vect m)
      /\ 0 <= haltMeasure (TIMER_CAPT_vect m) < haltMeasure m).
Proof.
  intros H.
  assert (Hw : 0 <= walkLeft m) by (unfold walkLeft; destruct H as (_ & _ & ? & ?); lia).
  destruct (Z.eqb_spec (u16 (irqToNextStep m - 1)) 0) as [E|E].
  - (* the countdown expires *)
    rewrite (TIMER_CAPT_vect_expired m E).
    destruct (afterReload_halting m H) as (Ha & Wa & Pa & Ia).
    destruct (afterReload_frame m) as (_ & _ & _ & F4 & F5 & _).
    assert (Hm : haltMeasure m
                 = 65536 * (if stepPin m
                            then if stopSpeed m <? currentMotorSpeed m then 1
                                 else 2 * walkLeft m + 3
                            else 2 * walkLeft m + 2))
      by (unfold haltMeasure, countdownsLeft; rewrite E; lia).
    rewrite Hm. clear Hm.
    destruct (stepPin m) eqn:Hpin.
    + (* a pulse is completed *)
      destruct (Z.ltb_spec (stopSpeed m) (currentMotorSpeed m)) as [Hs|Hs].
      * left.
        destruct (stepFalling_halt (afterReload m) (currentMotorSpeed m))
          as (A & _).
        apply A. rewrite F5. exact Hs.
      * right.
        destruct (stepFalling_halting (afterReload m) (currentMotorSpeed m) Ha)
          as (B1 & B2 & B3); [rewrite F5; exact Hs|].
        rewrite Wa in B3.
        split; [exact B1|].
        unfold haltMeasure, countdownsLeft. rewrite B2.
        pose proof (u16_range
                      (irqToNextStep
                         (stepFalling (afterReload m) (currentMotorSpeed m)) - 1)).
        assert (0 <= walkLeft (stepFalling (afterReload m) (currentMotorSpeed m))).
        { unfold walkLeft. destruct B1 as (_ & _ & ? & ?). lia. }
        unfold LOW. lia.
    + (* a pulse is started *)
      right.
      pose proof (stepRising_halting (afterReload m) Ha) as B.
      cbv zeta in B. rewrite F4, Wa in B. destruct B as (B1 & B2 & B3).
      split; [exact B1|].
      unfold haltMeasure, countdownsLeft. rewrite B2. unfold HIGH.
      pose proof (u16_range
                    (irqToNextStep
                       (stepRising (afterReload m) (currentMotorSpeed m)) - 1)).
      assert (0 <= walkLeft (stepRising (afterReload m) (currentMotorSpeed m))).
      { unfold walkLeft. destruct B1 as (_ & _ & ? & ?). lia. }
      destruct (Z.ltb_spec
                  (stopSpeed (stepRising (afterReload m) (currentMotorSpeed m)))
                  (currentMotorSpeed
                     (stepRising (afterReload m) (currentMotorSpeed m)))); lia.
  - (* the countdown goes on *)
    right. rewrite (TIMER_CAPT_vect_waiting m E).
    split; [exact H|].
    assert (C : countdownsLeft (set_irqToNextStep (u16 (irqToNextStep m - 1)) m)
                = countdownsLeft m) by reflexivity.
    assert (I : irqToNextStep (set_irqToNextStep (u16 (irqToNextStep m - 1)) m)
                = u16 (irqToNextStep m - 1)) by reflexivity.
    unfold haltMeasure. rewrite C, I.
    pose proof (u16_range (irqToNextStep m - 1)).
    rewrite (u16_small (u16 (irqToNextStep m - 1) - 1)) by lia.
    assert (0 <= countdownsLeft m).
    { unfold countdownsLeft.
      destruct (stepPin m); [destruct (stopSpeed m <? currentMotorSpeed m)|]; lia. }
    lia.
Qed.

Lemma iter_shift {A : Type} (f : A -> A) (n : nat) (x : A) :
  Nat.iter n f (f x) = Nat.iter (S n) f x.
Proof. symmetry. apply Nat.iter_succ_r. Qed.

Lemma halts_within (k : nat) : forall m : Motor,
  halting m -> haltMeasure m < Z.of_nat k ->
  exists n, (n <= k)%nat /\ stopped (Nat.iter n TIMER_CAPT_vect m) = true.
Proof.
  induction k as [|k IH]; intros m H Hk.
  - exfalso.
    destruct (TIMER_CAPT_vect_progress m H) as [Hs|(_ & Hm)]; [|lia].
    assert (0 <= haltMeasure m); [|lia].
    unfold haltMeasure, countdownsLeft, walkLeft.
    destruct H as (_ & _ & ? & ?).
    pose proof (u16_range (irqToNextStep m - 1)).
    destruct (stepPin m); [destruct (stopSpeed m <? currentMotorSpeed m)|]; lia.
  - destruct (TIMER_CAPT_vect_progress m H) as [Hs|(H' & Hm)].
    + exists 1%nat. split; [lia|exact Hs].
    + destruct (IH (TIMER_CAPT_vect m) H') as (n & Hn & Hstop); [lia|].
      exists (S n). split; [lia|]. rewrite <- iter_shift. exact Hstop.
Qed.

(** X26.  The engine halts.  Once the target period of an axis is slower
    than its stop speed (as the [K] command, the release of the DEC
    buttons and the deceleration marker of a goto leave it), the axis is
    marked stopped after finitely many timer interrupts whatever the
    acceleration table holds: at most [haltMeasure m + 1] of them, a bound
    that counts 65536 interrupts for every countdown still to come. *)
Theorem engine_halts (m : Motor) :
  stopSpeed m < currentIVal m -> 0 <= stopSpeed m < 65535 ->
  0 <= accelTableIndex m < 256 -> 0 <= accelTableRepeatsLeft m < 256 ->
  exists n,
    Z.of_nat n <= haltMeasure m + 1
    /\ stopped (Nat.iter n TIMER_CAPT_vect m) = true.
Proof.
  intros H1 H2 H3 H4.
  assert (H : halting m) by (unfold halting; repeat split; lia).
  assert (Hm : 0 <= haltMeasure m).
  { unfold haltMeasure, countdownsLeft, walkLeft.
    pose proof (u16_range (irqToNextStep m - 1)).
    destruct (stepPin m); [destruct (stopSpeed m <? currentMotorSpeed m)|]; lia. }
  destruct (halts_within (Z.to_nat (haltMeasure m + 1)) m H) as (n & Hn & Hs);
    [lia|].
  exists n. split; [lia|exact Hs].
Qed.

Lemma engine_halts_witness :
  stopSpeed (motorStop false example_started)
  < currentIVal (motorStop false example_started)
  /\ exists n,
       Z.of_nat n <= haltMeasure (motorStop false example_started) + 1
       /\ stopped (Nat.iter n TIMER_CAPT_vect (motorStop false example_started))
          = true.
Proof.
  assert (H1 : stopSpeed (motorStop false example_started)
               < currentIVal (motorStop false example_started))
    by (vm_compute; reflexivity).
  assert (H2 : 0 <= stopSpeed (motorStop false example_started) < 65535)
    by (vm_compute; split; [discriminate|reflexivity]).
  assert (H3 : 0 <= accelTableIndex (motorStop false example_started) < 256)
    by (vm_compute; split; [discriminate|reflexivity]).
  assert (H4 : 0 <= accelTableRepeatsLeft (motorStop false example_started) < 256)
    by (vm_compute; split; [discriminate|reflexivity]).
  split; [exact H1|].
  exact (engine_halts (motorStop false example_started) H1 H2 H3 H4).
Defined.

(** An interrupt that does not halt the axis leaves its timer as it is. *)
Lemma TIMER_CAPT_vect_keeps_timer (m : Motor) :
  stopped m = false ->
  stopped (TIMER_CAPT_vect m) = false ->
  timerIrqEnabled (TIMER_CAPT_vect m) = timerIrqEnabled m
  /\ timerClockOn (TIMER_CAPT_vect m) = timerClockOn m.
Proof.
  intros Hrun Hs.
  destruct (Z.eqb_spec (u16 (irqToNextStep m - 1)) 0) as [E|E].
  - rewrite (TIMER_CAPT_vect_expired m E) in *.
    destruct (afterReload_frame m)
      as (_ & _ & _ & _ & F5 & _ & _ & _ & _ & _ & _ & _ & F13 & F14 & _).
    destruct (stepPin m).
    + destruct (stepFalling_halt (afterReload m) (currentMotorSpeed m))
        as (A & B).
      destruct (Z.ltb_spec (stopSpeed m) (currentMotorSpeed m)) as [Hlt|Hge].
      * rewrite F5 in A. destruct (A Hlt) as (A1 & _). congruence.
      * rewrite F5 in B. destruct (B Hge) as (_ & B2 & B3 & _).
        rewrite B2, B3, F13, F14. split; reflexivity.
    + destruct (stepRising_frame (afterReload m) (currentMotorSpeed m))
        as (_ & _ & _ & _ & _ & _ & _ & _ & A9 & A10 & _).
      rewrite A9, A10, F13, F14. split; reflexivity.
  - rewrite (TIMER_CAPT_vect_waiting m E). split; reflexivity.
Qed.

Lemma step_timer (hdr : Header) (axis : Axis) (s : State) :
  wdtArmed s = false ->
  timerIrqEnabled (motor axis s) = true -> timerClockOn (motor axis s) = true ->
  step hdr (Ev_timer axis) s = Some (on_motor axis TIMER_CAPT_vect s)
  /\ wdtArmed (on_motor axis TIMER_CAPT_vect s) = false.
Proof.
  intros W I C. unfold step. rewrite W. cbv zeta. rewrite I, C.
  split; [reflexivity|]. rewrite <- W. destruct axis; reflexivity.
Qed.

(** In the transition system: an axis set to halt receives timer
    interrupts until it is stopped. *)
Lemma run_halts_within (hdr : Header) (axis : Axis) (k : nat) : forall s : State,
  wdtArmed s = false ->
  stopped (motor axis s) = false ->
  timerIrqEnabled (motor axis s) = true -> timerClockOn (motor axis s) = true ->
  halting (motor axis s) -> haltMeasure (motor axis s) < Z.of_nat k ->
  exists n s',
    (n <= k)%nat
    /\ run hdr (repeat (Ev_timer axis) n) s = Some s'
    /\ stopped (motor axis s') = true.
Proof.
  induction k as [|k IH]; intros s W R I C H Hk.
  - exfalso.
    destruct (TIMER_CAPT_vect_progress _ H) as [Hs|(_ & Hm)]; [|lia].
    assert (0 <= haltMeasure (motor axis s)); [|lia].
    unfold haltMeasure, countdownsLeft, walkLeft.
    destruct H as (_ & _ & ? & ?).
    pose proof (u16_range (irqToNextStep (motor axis s) - 1)).
    destruct (stepPin (motor axis s));
      [destruct (stopSpeed (motor axis s) <? currentMotorSpeed (motor axis s))|];
      lia.
  - destruct (step_timer hdr axis s W I C) as (St & W').
    pose proof (motor_on_motor_same axis TIMER_CAPT_vect s) as M.
    destruct (stopped (TIMER_CAPT_vect (motor axis s))) eqn:Hs.
    + exists 1%nat, (on_motor axis TIMER_CAPT_vect s).
      split; [lia|]. cbn [repeat run]. rewrite St.
      split; [reflexivity|]. rewrite M. exact Hs.
    + destruct (TIMER_CAPT_vect_progress _ H) as [Hs'|(H' & Hm)]; [congruence|].
      destruct (TIMER_CAPT_vect_keeps_timer _ R Hs) as (K1 & K2).
      destruct (IH (on_motor axis TIMER_CAPT_vect s)) as (n & s' & Hn & Hr & Hst).
      * exact W'.
      * rewrite M. exact Hs.
      * rewrite M, K1. exact I.
      * rewrite M, K2. exact C.
      * rewrite M. exact H'.
      * rewrite M. lia.
      * exists (S n), s'. split; [lia|]. cbn [repeat run]. rewrite St.
        split; [exact Hr|exact Hst].
Qed.

(** X27.  A graceful stop halts the axis.  In normal command processing,
    a [K] command sent to a running axis whose timer is on is followed,
    after finitely many timer interrupts of that axis and whatever the
    acceleration table holds, by a state in which the axis is stopped. *)
Theorem graceful_stop_halts (hdr : Header) (axis : Axis) (s : State) :
  wdtArmed s = false -> syntaMode s = true ->
  stopped (motor axis s) = false ->
  timerClockOn (motor axis s) = true ->
  0 <= stopSpeed (motor axis s) < 65535 -> 0 <= minSpeed (motor axis s) ->
  0 <= accelTableIndex (motor axis s) < 256 ->
  0 <= accelTableRepeatsLeft (motor axis s) < 256 ->
  exists s1 n s2,
    step hdr (Ev_command Cmd_K axis) s = Some s1
    /\ stopped (motor axis s1) = false
    /\ run hdr (repeat (Ev_timer axis) n) s1 = Some s2
    /\ stopped (motor axis s2) = true.
Proof.
  intros W Sy R C HS Hmin Hi Hr.
  set (s1 := on_motor axis (fun m => set_readyToGo 0 (motorStop false m)) s).
  assert (St : step hdr (Ev_command Cmd_K axis) s = Some s1).
  { unfold step. rewrite W, Sy. reflexivity. }
  assert (M : motor axis s1 = set_readyToGo 0 (motorStop false (motor axis s)))
    by apply motor_on_motor_same.
  destruct (motorStop_graceful (motor axis s)) as (_ & G).
  destruct (G R) as (G1 & G2 & _ & _ & _ & G6 & G7 & G8 & _ & _ & _ & G12 & G13).
  set (S' := if (currentIVal (motor axis s) <? minSpeed (motor axis s))
                && (minSpeed (motor axis s) <? stopSpeed (motor axis s))
             then minSpeed (motor axis s) else stopSpeed (motor axis s)) in *.
  assert (HS' : 0 <= S' < 65535).
  { unfold S'.
    destruct (currentIVal (motor axis s) <? minSpeed (motor axis s)); cbn [andb];
      [destruct (Z.ltb_spec (minSpeed (motor axis s)) (stopSpeed (motor axis s)))|];
      lia. }
  assert (F : stopped (motor axis s1) = false
              /\ timerIrqEnabled (motor axis s1) = true
              /\ timerClockOn (motor axis s1) = true
              /\ currentIVal (motor axis s1) = S' + 1
              /\ stopSpeed (motor axis s1) = S'
              /\ accelTableIndex (motor axis s1) = accelTableIndex (motor axis s)
              /\ accelTableRepeatsLeft (motor axis s1)
                 = accelTableRepeatsLeft (motor axis s)).
  { rewrite M. motor_fields. rewrite G1, G2, G6, G7, G8, G12, G13, C.
    rewrite u16_small by lia.
    repeat split. }
  destruct F as (F1 & F2 & F3 & F4 & F5 & F6 & F7).
  assert (W1 : wdtArmed s1 = false)
    by (rewrite <- W; unfold s1; destruct axis; reflexivity).
  assert (H : halting (motor axis s1)).
  { unfold halting. rewrite F4, F5, F6, F7. repeat split; lia. }
  destruct (run_halts_within hdr axis
              (Z.to_nat (haltMeasure (motor axis s1) + 1)) s1 W1 F1 F2 F3 H)
    as (n & s2 & _ & Hrun & Hstop).
  { assert (0 <= haltMeasure (motor axis s1)); [|lia].
    unfold haltMeasure, countdownsLeft, walkLeft. rewrite F6, F7.
    pose proof (u16_range (irqToNextStep (motor axis s1) - 1)).
    destruct (stepPin (motor axis s1));
      [destruct (stopSpeed (motor axis s1) <? currentMotorSpeed (motor axis s1))|];
      lia. }
  exists s1, n, s2. repeat split; assumption.
Qed.

Lemma graceful_stop_halts_witness :
  exists s,
    state_after example_reverse_slew = s
    /\ stopped (motor RA s) = false
    /\ exists s1 n s2,
         step example_header (Ev_command Cmd_K RA) s = Some s1
         /\ stopped (motor RA s1) = false
         /\ run example_header (repeat (Ev_timer RA) n) s1 = Some s2
         /\ stopped (motor RA s2) = true.
Proof.
  eexists. split; [vm_compute; reflexivity|].
  match goal with |- stopped (motor RA ?s) = false /\ _ =>
    assert (W : wdtArmed s = false) by reflexivity;
    assert (Sy : syntaMode s = true) by reflexivity;
    assert (R : stopped (motor RA s) = false) by reflexivity;
    assert (C : timerClockOn (motor RA s) = true) by reflexivity;
    assert (HS : 0 <= stopSpeed (motor RA s) < 65535)
      by (vm_compute; split; [discriminate|reflexivity]);
    assert (Hm : 0 <= minSpeed (motor RA s)) by (vm_compute; discriminate);
    assert (Hi : 0 <= accelTableIndex (motor RA s) < 256)
      by (vm_compute; split; [discriminate|reflexivity]);
    assert (Hr : 0 <= accelTableRepeatsLeft (motor RA s) < 256)
      by (vm_compute; split; [discriminate|reflexivity]);
    split; [exact R|];
    exact (graceful_stop_halts example_header RA s W Sy R C HS Hm Hi Hr)
  end.
Defined.

(** ** The engine reaches its target *)

Lemma stepFalling_running (m : Motor) (c : Z) :
  gotoRunning m = false -> c <= stopSpeed m ->
  stepFalling m c = set_jVal (u32 (jVal m + stepDir m)) (set_stepPin LOW m).
Proof.
  intros Hg Hc. unfold stepFalling. cbv zeta. motor_fields. rewrite Hg.
  cbn [andb]. motor_fields.
  destruct (Z.ltb_spec (stopSpeed m) c); [lia|reflexivity].
Qed.

Lemma accelEntry_same (m m' : Motor) (k : Z) :
  accelTable m' = accelTable m -> accelEntry m' k = accelEntry m k.
Proof. unfold accelEntry. intros ->. reflexivity. Qed.

Lemma stepRising_accelerating (m : Motor) :
  accelerating m ->
  let m' := stepRising m (currentMotorSpeed m) in
  currentIVal m' = currentIVal m /\ stopped m' = false
  /\ stepPin m' = HIGH /\ irqToNextStep m' = irqToNextStep m
  /\ (currentMotorSpeed m' = currentIVal m
      \/ (accelerating m' /\ climbLeft m' < climbLeft m)).
Proof.
  intros (H1 & H2 & H3 & H4 & H5 & H6) m'.
  unfold accelerating, climbLeft, m', stepRising. cbv zeta. motor_fields.
  unfold AccelTableLength in *.
  destruct (Z.eqb_spec (accelTableRepeatsLeft m) 0) as [Hr|Hr].
  - destruct (Z.ltb_spec (currentIVal m) (currentMotorSpeed m)) as [Hs|Hs].
    + destruct (Z.leb_spec (6 - 1) (accelTableIndex m)) as [Ht|Ht].
      * motor_fields. repeat split; try assumption. left; reflexivity.
      * motor_fields. rewrite (u8_small (accelTableIndex m + 1)) by lia.
        assert (E : accelEntry (set_accelTableIndex (accelTableIndex m + 1)
                                  (set_stepPin HIGH m)) (accelTableIndex m + 1)
                    = accelEntry m (accelTableIndex m + 1)) by reflexivity.
        rewrite E.
        pose proof (H2 (accelTableIndex m + 1)) as Hb.
        destruct (Z.leb_spec (speed (accelEntry m (accelTableIndex m + 1)))
                    (currentIVal m)) as [Hle|Hgt];
          motor_fields.
        -- repeat split; try assumption. left; reflexivity.
        -- pose proof (reloadRepeats_range
                         (set_accelTableIndex (accelTableIndex m + 1)
                            (set_stepPin HIGH m))
                         (accelTableIndex m + 1)) as Hrep.
           repeat split; try assumption. right.
           split; [|lia].
           repeat split; try assumption; try lia.
    + assert (currentMotorSpeed m = currentIVal m) by lia.
      destruct (Z.ltb_spec (currentMotorSpeed m) (currentIVal m)); [lia|].
      motor_fields. repeat split; try assumption. left; assumption.
  - motor_fields. rewrite (u8_small (accelTableRepeatsLeft m - 1)) by lia.
    repeat split; try assumption. right.
    split; [|lia].
    repeat split; try assumption; try lia.
Qed.

(** One interrupt either brings the speed register to the target or
    brings that moment nearer; it never stops the axis nor moves the
    target. *)
Lemma TIMER_CAPT_vect_climbs (m : Motor) :
  accelerating m ->
  currentIVal (TIMER_CAPT_vect m) = currentIVal m
  /\ stopped (TIMER_CAPT_vect m) = false
  /\ (currentMotorSpeed (TIMER_CAPT_vect m) = currentIVal m
      \/ (accelerating (TIMER_CAPT_vect m)
          /\ 0 <= cruiseMeasure (TIMER_CAPT_vect m) < cruiseMeasure m)).
Proof.
  intros H. pose proof H as (H1 & H2 & H3 & H4 & H5 & H6).
  assert (Hc : 0 <= climbLeft m)
    by (unfold climbLeft; unfold AccelTableLength in *; lia).
  destruct (Z.eqb_spec (u16 (irqToNextStep m - 1)) 0) as [E|E].
  - rewrite (TIMER_CAPT_vect_expired m E).
    assert (Ha : accelerating (afterReload m)) by exact H.
    assert (Ca : climbLeft (afterReload m) = climbLeft m) by reflexivity.
    assert (Hm : cruiseMeasure m
                 = 65536 * (2 * climbLeft m + (if stepPin m then 2 else 1)))
      by (unfold cruiseMeasure; rewrite E; lia).
    rewrite Hm. clear Hm.
    destruct (stepPin m) eqn:Hpin.
    + (* a pulse is completed *)
      rewrite (stepFalling_running (afterReload m) (currentMotorSpeed m));
        [|exact H5|apply H1].
      split; [reflexivity|]. split; [exact H6|]. right.
      split; [exact H|].
      unfold cruiseMeasure.
      match goal with
      | |- context [u16 ?x] => pose proof (u16_range x)
      end.
      assert (P : stepPin (set_jVal (u32 (jVal (afterReload m)
                                          + stepDir (afterReload m)))
                             (set_stepPin LOW (afterReload m))) = false)
        by reflexivity.
      assert (C : climbLeft (set_jVal (u32 (jVal (afterReload m)
                                           + stepDir (afterReload m)))
                              (set_stepPin LOW (afterReload m))) = climbLeft m)
        by reflexivity.
      rewrite P, C. lia.
    + (* a pulse is started *)
      pose proof (stepRising_accelerating (afterReload m) Ha) as B.
      cbv zeta in B.
      assert (F4 : currentMotorSpeed (afterReload m) = currentMotorSpeed m)
        by reflexivity.
      assert (F3 : currentIVal (afterReload m) = currentIVal m) by reflexivity.
      rewrite F4, F3, Ca in B. destruct B as (B1 & B2 & B3 & B4 & B5).
      split; [exact B1|]. split; [exact B2|].
      destruct B5 as [B5|(B5 & B6)]; [left; exact B5|right].
      split; [exact B5|].
      unfold cruiseMeasure. rewrite B3. unfold HIGH.
      match goal with
      | |- context [u16 ?x] => pose proof (u16_range x)
      end.
      assert (0 <= climbLeft (stepRising (afterReload m) (currentMotorSpeed m))).
      { destruct B5 as (_ & _ & ? & ? & _). unfold climbLeft.
        unfold AccelTableLength in *. lia. }
      lia.
  - rewrite (TIMER_CAPT_vect_waiting m E).
    split; [reflexivity|]. split; [exact H6|]. right.
    split; [exact H|].
    assert (C : cruiseMeasure (set_irqToNextStep (u16 (irqToNextStep m - 1)) m)
                = 65536 * (2 * climbLeft m + (if stepPin m then 2 else 1))
                  + u16 (u16 (irqToNextStep m - 1) - 1)) by reflexivity.
    rewrite C. unfold cruiseMeasure.
    pose proof (u16_range (irqToNextStep m - 1)).
    rewrite (u16_small (u16 (irqToNextStep m - 1) - 1)) by lia.
    destruct (stepPin m); lia.
Qed.

Lemma cruises_within (k : nat) : forall m : Motor,
  accelerating m -> cruiseMeasure m < Z.of_nat k ->
  exists n,
    (n <= k)%nat
    /\ currentMotorSpeed (Nat.iter n TIMER_CAPT_vect m) = currentIVal m
    /\ currentIVal (Nat.iter n TIMER_CAPT_vect m) = currentIVal m
    /\ stopped (Nat.iter n TIMER_CAPT_vect m) = false.
Proof.
  induction k as [|k IH]; intros m H Hk.
  - exfalso.
    destruct (TIMER_CAPT_vect_climbs m H) as (_ & _ & [Hd|(_ & Hm)]).
    + assert (0 <= cruiseMeasure m); [|lia].
      unfold cruiseMeasure, climbLeft. destruct H as (_ & _ & ? & ? & _).
      unfold AccelTableLength in *.
      pose proof (u16_range (irqToNextStep m - 1)).
      destruct (stepPin m); lia.
    + lia.
  - destruct (TIMER_CAPT_vect_climbs m H) as (T & St & [Hd|(H' & Hm)]).
    + exists 1%nat. split; [lia|]. cbn [Nat.iter nat_rect].
      repeat split; assumption.
    + destruct (IH (TIMER_CAPT_vect m) H') as (n & Hn & A1 & A2 & A3); [lia|].
      exists (S n). split; [lia|]. rewrite <- !iter_shift.
      rewrite A1, A2, T. repeat split. exact A3.
Qed.

(** X28.  A slew reaches its target.  An axis that is slewing with no goto
    running, its speed register between the target and the stop speed, and
    an acceleration table none of whose entries is slower than the stop
    speed, is not stopped by the engine and reaches exactly the target
    period after finitely many timer interrupts, at most
    [cruiseMeasure m + 1] of them; the target is not changed on the way. *)
Theorem slew_reaches_target (m : Motor) :
  currentIVal m <= currentMotorSpeed m <= stopSpeed m ->
  (forall k, 0 <= k < AccelTableLength ->
     speed (accelEntry m k) <= stopSpeed m) ->
  0 <= accelTableIndex m < AccelTableLength ->
  0 <= accelTableRepeatsLeft m < 256 ->
  gotoRunning m = false -> stopped m = false ->
  exists n,
    Z.of_nat n <= cruiseMeasure m + 1
    /\ currentMotorSpeed (Nat.iter n TIMER_CAPT_vect m) = currentIVal m
    /\ currentIVal (Nat.iter n TIMER_CAPT_vect m) = currentIVal m
    /\ stopped (Nat.iter n TIMER_CAPT_vect m) = false.
Proof.
  intros H1 H2 H3 H4 H5 H6.
  assert (H : accelerating m) by (unfold accelerating; repeat split; first [assumption | apply H1 | apply H3 | apply H4]).
  assert (Hm : 0 <= cruiseMeasure m).
  { unfold cruiseMeasure, climbLeft. unfold AccelTableLength in *.
    pose proof (u16_range (irqToNextStep m - 1)).
    destruct (stepPin m); lia. }
  destruct (cruises_within (Z.to_nat (cruiseMeasure m + 1)) m H)
    as (n & Hn & A); [lia|].
  exists n. split; [lia|exact A].
Qed.

Lemma slew_reaches_target_witness :
  currentIVal example_started <= currentMotorSpeed example_started
  /\ currentMotorSpeed example_started <= stopSpeed example_started
  /\ exists n,
       Z.of_nat n <= cruiseMeasure example_started + 1
       /\ currentMotorSpeed (Nat.iter n TIMER_CAPT_vect example_started) = 100
       /\ stopped (Nat.iter n TIMER_CAPT_vect example_started) = false.
Proof.
  assert (H1 : currentIVal example_started <= currentMotorSpeed example_started
               <= stopSpeed example_started)
    by (vm_compute; split; discriminate).
  assert (H2 : forall k, 0 <= k < AccelTableLength ->
                 speed (accelEntry example_started k)
                 <= stopSpeed example_started).
  { unfold AccelTableLength. intros k Hk.
    assert (K : k = 0 \/ k = 1 \/ k = 2 \/ k = 3 \/ k = 4 \/ k = 5) by lia.
    destruct K as [->|[->|[->|[->|[->| ->]]]]]; vm_compute; discriminate. }
  assert (H3 : 0 <= accelTableIndex example_started < AccelTableLength)
    by (vm_compute; split; [discriminate|reflexivity]).
  assert (H4 : 0 <= accelTableRepeatsLeft example_started < 256)
    by (vm_compute; split; [discriminate|reflexivity]).
  assert (H5 : gotoRunning example_started = false) by reflexivity.
  assert (H6 : stopped example_started = false) by reflexivity.
  destruct (slew_reaches_target example_started H1 H2 H3 H4 H5 H6)
    as (n & B1 & B2 & _ & B4).
  split; [apply H1|]. split; [apply H1|].
  exists n. split; [exact B1|]. split; [exact B2|exact B4].
Defined.

(** ** The end of a goto *)

(** One interrupt on an axis with a goto running either ends the goto,
    clearing its flags with the halt, or leaves it running. *)
Lemma TIMER_CAPT_vect_goto_flags (m : Motor) :
  stopped m = false -> gotoRunning m = true ->
  (stopped (TIMER_CAPT_vect m) = true
   /\ gotoRunning (TIMER_CAPT_vect m) = false
   /\ gotoEn (TIMER_CAPT_vect m) = false
   /\ timerIrqEnabled (TIMER_CAPT_vect m) = false)
  \/ (stopped (TIMER_CAPT_vect m) = false
      /\ gotoRunning (TIMER_CAPT_vect m) = true).
Proof.
  intros Hs Hg.
  destruct (Z.eqb_spec (u16 (irqToNextStep m - 1)) 0) as [E|E].
  - rewrite (TIMER_CAPT_vect_expired m E).
    assert (Hs' : stopped (afterReload m) = false) by exact Hs.
    assert (Hg' : gotoRunning (afterReload m) = true) by exact Hg.
    destruct (stepPin m).
    + destruct (stepFalling_halt (afterReload m) (currentMotorSpeed m))
        as (A & B).
      destruct (Z.ltb_spec (stopSpeed (afterReload m)) (currentMotorSpeed m))
        as [L|L].
      * left. destruct (A L) as (A1 & A2 & _ & A4 & A5).
        rewrite Hg' in A5.
        split; [exact A1|]. split; [exact A4|]. split; [exact A5|exact A2].
      * right. destruct (B L) as (B1 & _ & _ & B4 & _).
        rewrite B1, B4. split; [exact Hs'|exact Hg'].
    + right.
      destruct (stepRising_frame (afterReload m) (currentMotorSpeed m))
        as (_ & _ & _ & _ & _ & _ & _ & F8 & _ & _ & F11 & _).
      rewrite F8, F11. split; [exact Hs'|exact Hg'].
  - right. rewrite (TIMER_CAPT_vect_waiting m E).
    split; [exact Hs|exact Hg].
Qed.

Lemma goto_ends_within (k : nat) : forall m : Motor,
  halting m -> stopped m = false -> gotoRunning m = true ->
  haltMeasure m < Z.of_nat k ->
  exists n,
    (n <= k)%nat
    /\ stopped (Nat.iter n TIMER_CAPT_vect m) = true
    /\ gotoRunning (Nat.iter n TIMER_CAPT_vect m) = false
    /\ gotoEn (Nat.iter n TIMER_CAPT_vect m) = false
    /\ timerIrqEnabled (Nat.iter n TIMER_CAPT_vect m) = false.
Proof.
  induction k as [|k IH]; intros m H Hs Hg Hk.
  - exfalso.
    assert (0 <= haltMeasure m); [|lia].
    unfold haltMeasure, countdownsLeft, walkLeft.
    destruct H as (_ & _ & ? & ?).
    pose proof (u16_range (irqToNextStep m - 1)).
    destruct (stepPin m); [destruct (stopSpeed m <? currentMotorSpeed m)|]; lia.
  - destruct (TIMER_CAPT_vect_goto_flags m Hs Hg) as [Hend|(Hs' & Hg')].
    + exists 1%nat. split; [lia|exact Hend].
    + destruct (TIMER_CAPT_vect_progress m H) as [Hstop|(H' & Hm)];
        [rewrite Hstop in Hs'; discriminate|].
      destruct (IH (TIMER_CAPT_vect m) H' Hs' Hg') as (n & Hn & A); [lia|].
      exists (S n). split; [lia|]. rewrite <- !iter_shift. exact A.
Qed.

(** X29.  A goto past its marker ends.  An axis with a goto running whose
    target period is slower than its stop speed (as the deceleration
    marker leaves it) is halted after finitely many timer interrupts, at
    most [haltMeasure m + 1] of them, and at that moment the goto flags
    [gotoRunning] and [gotoEn] are cleared and the timer interrupt of the
    axis is off. *)
Theorem goto_ends (m : Motor) :
  stopSpeed m < currentIVal m -> 0 <= stopSpeed m < 65535 ->
  0 <= accelTableIndex m < 256 -> 0 <= accelTableRepeatsLeft m < 256 ->
  stopped m = false -> gotoRunning m = true ->
  exists n,
    Z.of_nat n <= haltMeasure m + 1
    /\ stopped (Nat.iter n TIMER_CAPT_vect m) = true
    /\ gotoRunning (Nat.iter n TIMER_CAPT_vect m) = false
    /\ gotoEn (Nat.iter n TIMER_CAPT_vect m) = false
    /\ timerIrqEnabled (Nat.iter n TIMER_CAPT_vect m) = false.
Proof.
  intros H1 H2 H3 H4 Hs Hg.
  assert (H : halting m) by (unfold halting; repeat split; lia).
  assert (Hm : 0 <= haltMeasure m).
  { unfold haltMeasure, countdownsLeft, walkLeft.
    pose proof (u16_range (irqToNextStep m - 1)).
    destruct (stepPin m); [destruct (stopSpeed m <? currentMotorSpeed m)|]; lia. }
  destruct (goto_ends_within (Z.to_nat (haltMeasure m + 1)) m H Hs Hg)
    as (n & Hn & A); [lia|].
  exists n. split; [lia|exact A].
Qed.

Lemma goto_ends_witness :
  exists m,
    example_past_marker = m
    /\ stopSpeed m < currentIVal m /\ gotoRunning m = true
    /\ exists n,
         Z.of_nat n <= haltMeasure m + 1
         /\ stopped (Nat.iter n TIMER_CAPT_vect m) = true
         /\ gotoEn (Nat.iter n TIMER_CAPT_vect m) = false.
Proof.
  eexists. split; [vm_compute; reflexivity|].
  match goal with |- stopSpeed ?m < _ /\ _ =>
    assert (H1 : stopSpeed m < currentIVal m) by (vm_compute; reflexivity);
    assert (H2 : 0 <= stopSpeed m < 65535)
      by (vm_compute; split; [discriminate|reflexivity]);
    assert (H3 : 0 <= accelTableIndex m < 256)
      by (vm_compute; split; [discriminate|reflexivity]);
    assert (H4 : 0 <= accelTableRepeatsLeft m < 256)
      by (vm_compute; split; [discriminate|reflexivity]);
    assert (Hs : stopped m = false) by (vm_compute; reflexivity);
    assert (Hg : gotoRunning m = true) by (vm_compute; reflexivity);
    destruct (goto_ends m H1 H2 H3 H4 Hs Hg) as (n & B1 & B2 & _ & B4 & _)
  end.
  split; [exact H1|]. split; [exact Hg|].
  exists n. split; [exact B1|]. split; [exact B2|exact B4].
Defined.
